(** * libotp: one-time-password validation and resynchronisation

    A shallow embedding of [daemons/ipa-slapi-plugins/libotp/libotp.c]
    and of the properties its design document states about it.

    Layout: machine integers, the token model, the directory entry and the
    store, a small state-and-failure monad, the C functions in source order,
    sample data, and then the lemmas. *)

From Stdlib Require Import ZArith Lia Bool Ascii String.
From stdpp Require Import base option list strings gmap.

Local Open Scope Z_scope.

(** ** Machine integers

    Every C integer is a [Z]; each conversion the C code performs is written
    out.  [to_ssize] is the value of a [ssize_t]/[time_t]/[long] (64 bits,
    two's complement), [to_uint64] of a [uint64_t]/[size_t]/[ber_len_t],
    [to_uint32] of a [uint32_t]/[unsigned int], [to_int] of an [int]
    (the LP64 data model of the platforms the directory server runs on).
    A conversion to a signed type keeps the low bits, as every C compiler
    for these platforms does; signed arithmetic is wrapped the same way. *)

Definition to_uint32 (z : Z) : Z := z mod 4294967296.
Definition to_uint64 (z : Z) : Z := z mod 18446744073709551616.
Definition to_int (z : Z) : Z := (z + 2147483648) mod 4294967296 - 2147483648.
Definition to_ssize (z : Z) : Z :=
  (z + 9223372036854775808) mod 18446744073709551616 - 9223372036854775808.

Definition INT_MAX : Z := 2147483647.
Definition LDAP_SUCCESS : Z := 0.
Definition LDAP_NO_SUCH_OBJECT : Z := 32.
Definition IPA_OTP_DEFAULT_TOKEN_STEP : Z := 30.

(** ** Attribute names: the macros [O], [T] and [H]

    [O] is written [O_] here, [O] being the zero of [nat]. *)

Definition TOKEN (s : string) : string := ("ipaToken" ++ s)%string.
Definition O_ (s : string) : string := TOKEN ("OTP" ++ s)%string.
Definition T (s : string) : string := TOKEN ("TOTP" ++ s)%string.
Definition H (s : string) : string := TOKEN ("HOTP" ++ s)%string.

(** ** The token model *)

(** [struct hotp_token] of librfc.h, as libotp.c fills it: key bytes, the
    algorithm name and the number of digits (an [int]). *)
Record hotp_token := {
  key : list Z;
  algo : string;
  digits : Z
}.

(** The [type] tag together with the anonymous union of [struct otptoken]:
    the code only ever reads the member its tag selects. *)
Inductive otptoken_type :=
| OTPTOKEN_NONE
| OTPTOKEN_TOTP (watermark : Z) (step : Z) (offset : Z)
| OTPTOKEN_HOTP (counter : Z).

(** [struct otptoken]; the opaque [plugin_id] plays no part and is left
    out, [sdn] is the entry's DN. *)
Record otptoken := {
  sdn : string;
  token : hotp_token;
  type : otptoken_type
}.

(** The member [token] of a [struct otptoken], for use where a parameter
    is itself called [token], as in the C source. *)
Abbreviation member_token := token (only parsing).

Definition with_type (t : otptoken) (k : otptoken_type) : otptoken :=
  {| sdn := sdn t; token := token t; type := k |}.

(** A [struct berval]: [bv_len] characters [bv_val], as character codes. *)
Definition berval := list Z.

Definition bv_of_string (s : string) : berval :=
  (fun c => Z.of_N (N_of_ascii c)) <$> list_ascii_of_string s.

(** ** Directory entries and the store

    An entry as the slapi accessors show it: its DN, its [objectClass]
    values, the raw key, the algorithm name, and the integer-valued
    attributes by name. *)
Record Slapi_Entry := {
  e_sdn : option string;
  e_objectClass : option (list string);
  e_key : option (list Z);
  e_algorithm : option string;
  e_ints : gmap string Z
}.

Definition entry_set_int (e : Slapi_Entry) (attr : string) (v : Z) : Slapi_Entry :=
  {| e_sdn := e_sdn e; e_objectClass := e_objectClass e; e_key := e_key e;
     e_algorithm := e_algorithm e; e_ints := <[attr := v]> (e_ints e) |}.

(** [slapi_entry_attr_get_int]: 0 when the attribute is absent. *)
Definition slapi_entry_attr_get_int (e : Slapi_Entry) (attr : string) : Z :=
  to_int (default 0 (e_ints e !! attr)).

(** [slapi_entry_attr_get_uint] *)
Definition slapi_entry_attr_get_uint (e : Slapi_Entry) (attr : string) : Z :=
  to_uint32 (default 0 (e_ints e !! attr)).

(** The world a request runs in: what [time()] returns, the result codes
    the directory server will give to the coming internal modify
    operations (one per operation, [LDAP_SUCCESS] once the list is used up),
    and the entries by DN. *)
Record world := {
  w_time : Z;
  w_results : list Z;
  w_store : gmap string Slapi_Entry
}.

(** ** A state monad with early exit

    [None] is the C function's [return false] (or [return NULL]); the world
    is threaded through either way, since a write that succeeded stays
    written. *)
Definition M (A : Type) : Type := world -> option A * world.

Definition ret {A} (a : A) : M A := fun w => (Some a, w).
Definition fail {A} : M A := fun w => (None, w).
Definition bind {A B} (m : M A) (k : A -> M B) : M B :=
  fun w => match m w with
           | (Some a, w') => k a w'
           | (None, w') => (None, w')
           end.
Definition orelse {A} (m1 m2 : M A) : M A :=
  fun w => match m1 w with
           | (Some a, w') => (Some a, w')
           | (None, w') => m2 w'
           end.
Definition guard (b : bool) : M unit := if b then ret tt else fail.
Definition lift {A} (o : option A) : M A :=
  match o with Some a => ret a | None => fail end.
Definition succeeded {A} (r : option A * world) : bool :=
  match r.1 with Some _ => true | None => false end.

Declare Scope otp_scope.
Delimit Scope otp_scope with otp.
Notation "x <- c ;; k" := (bind c (fun x => k))
  (at level 100, c at next level, right associativity) : otp_scope.
Notation "c ;;; k" := (bind c (fun _ => k))
  (at level 100, right associativity) : otp_scope.
Notation "a <|> b" := (orelse a b)
  (at level 90, right associativity) : otp_scope.
Local Open Scope otp_scope.

(** [time(&now)] *)
Definition time : M Z := fun w => (Some (w_time w), w).

(** The internal modify operation with one [LDAP_MOD_REPLACE] of [attr]:
    the directory server's part of [writeattr].  The operation takes the
    next result code; the entry changes only when that code is
    [LDAP_SUCCESS] and the entry exists. *)
Definition slapi_modify_internal (dn attr : string) (value : Z) (w : world)
  : Z * world :=
  let r := hd LDAP_SUCCESS (w_results w) in
  let rest := tl (w_results w) in
  if r =? LDAP_SUCCESS then
    match w_store w !! dn with
    | Some e =>
        (LDAP_SUCCESS,
         {| w_time := w_time w; w_results := rest;
            w_store := <[dn := entry_set_int e attr value]> (w_store w) |})
    | None =>
        (LDAP_NO_SUCH_OBJECT,
         {| w_time := w_time w; w_results := rest; w_store := w_store w |})
    end
  else (r, {| w_time := w_time w; w_results := rest; w_store := w_store w |}).

(** [writeattr]: [value] is an [int]. *)
Definition writeattr (token : otptoken) (attr : string) (value : Z) : M unit :=
  fun w =>
    let '(ret_code, w') := slapi_modify_internal (sdn token) attr value w in
    if ret_code =? LDAP_SUCCESS then (Some tt, w') else (None, w').

(** ** The window validator *)

Section Validator.

(** [hotp()] of librfc.c, the RFC 4226 code generator, is not part of
    libotp.c: it is a parameter here.  [hotp tok counter] is [None] when the
    C function returns false, and the code it stores in [*out] otherwise;
    [counter] is a [uint64_t]. *)
Variable hotp : hotp_token -> Z -> option Z.

(** The first [switch] of [validate]: the attribute that holds the cursor
    and the absolute step, or [None] for its three [return false].
    [now + offset], the division (C's, truncating; the step length is
    converted to [long]) and the sum are [long] arithmetic; the comparison
    with the watermark is unsigned, as is the sum with the counter.  The
    step length is never 0 in a token that [otptoken_new] built. *)
Definition absolute_step (token : otptoken) (now step : Z) : option (string * Z) :=
  match type token with
  | OTPTOKEN_TOTP watermark tstep offset =>
      let step := to_ssize (to_ssize (now + offset) ÷ tstep + step) in
      if (0 <? watermark) && (to_uint64 step <? watermark) then None
      else Some (T "watermark", step)
  | OTPTOKEN_HOTP counter =>
      if step <? 0 then None (* NEVER go backwards! *)
      else Some (H "counter", to_ssize (to_uint64 (counter + to_uint64 step)))
  | OTPTOKEN_NONE => None
  end.

(** The last [switch] of [validate]: save the step in the object. *)
Definition save_step (token : otptoken) (step : Z) : otptoken :=
  with_type token
    match type token with
    | OTPTOKEN_TOTP _ tstep offset => OTPTOKEN_TOTP (to_uint64 step) tstep offset
    | OTPTOKEN_HOTP _ => OTPTOKEN_HOTP (to_uint64 step)
    | OTPTOKEN_NONE => OTPTOKEN_NONE
    end.

(** The optional synchronisation step of [validate]: for a TOTP token the
    new clock offset, computed in [long], stored in the [uint32_t tmp] and
    passed on as an [int]. *)
Definition sync_offset (token : otptoken) (now step : Z) : M unit :=
  match type token with
  | OTPTOKEN_TOTP _ tstep _ =>
      let tmp := to_uint32 (to_ssize (to_ssize (step - now ÷ tstep) * tstep)) in
      writeattr token (T "clockOffset") (to_int tmp)
  | _ => ret tt
  end.

(** [validate]: the result is the token as the function leaves it when it
    returns true.  Each [step++] is written where the C code evaluates it. *)
Definition validate (token : otptoken) (now step : Z) (first : Z)
    (second : option Z) : M otptoken :=
  abs <- lift (absolute_step token now step) ;;
  let attr := abs.1 in
  let step := abs.2 in
  (* Validate the first code. *)
  tmp <- lift (hotp (member_token token) (to_uint64 step)) ;;
  let step := to_ssize (step + 1) in
  guard (first =? tmp) ;;;
  (* Validate the second code if specified. *)
  step <- match second with
          | Some second =>
              tmp <- lift (hotp (member_token token) (to_uint64 step)) ;;
              let step := to_ssize (step + 1) in
              guard (second =? tmp) ;;;
              sync_offset token now step ;;;
              ret step
          | None => ret step
          end ;;
  (* Write the step value. *)
  writeattr token attr (to_int step) ;;;
  (* Save our modifications to the object. *)
  ret (save_step token step).

(** The [for] loop of [otptoken_validate], entered at [i] with [n] more
    rounds to go after this one. *)
Fixpoint otptoken_validate_loop (n : nat) (i : Z) (token : otptoken)
    (now : Z) (code : Z) : M otptoken :=
  validate token now i code None
  <|> validate token now (0 - i) code None
  <|> match n with
      | O => fail
      | S n' => otptoken_validate_loop n' (i + 1) token now code
      end.

(** [otptoken_validate]; [steps] is a [size_t].  The loop counter is an
    [int] in C: the model is the loop for [steps] up to [INT_MAX]. *)
Definition otptoken_validate (token : option otptoken) (steps : nat)
    (code : Z) : M otptoken :=
  token <- lift token ;;
  now <- match type token with
         | OTPTOKEN_TOTP _ _ _ =>
             now <- time ;; guard (negb (now =? -1)) ;;; ret now
         | _ => ret 0
         end ;;
  otptoken_validate_loop steps 0 token now code.

(** [bvtod]: the loop, with [*out] as an accumulator of type [uint32_t]. *)
Fixpoint bvtod_loop (val : list Z) (out : Z) : option Z :=
  match val with
  | [] => Some out
  | c :: val' =>
      if (c <? 48) || (57 <? c) then None
      else bvtod_loop val' (to_uint32 (to_uint32 (out * 10) + (c - 48)))
  end.

Definition bvtod (code : berval) : option Z :=
  out ← bvtod_loop code 0;
  if Nat.eqb (length code) 0 then None else Some out.

(** [otptoken_validate_berval]: [bv_len] is unsigned, so [digits] is
    converted before it is compared or assigned. *)
Definition otptoken_validate_berval (token : option otptoken) (steps : nat)
    (code : option berval) (tail : bool) : M otptoken :=
  token <- lift token ;;
  code <- lift code ;;
  let bv_len := Z.of_nat (length code) in
  let digits := to_uint64 (digits (member_token token)) in
  guard (negb (bv_len <? digits)) ;;;
  let bv_val := if tail then drop (Z.to_nat (bv_len - digits)) code else code in
  let tmp := take (Z.to_nat digits) bv_val in
  otp <- lift (bvtod tmp) ;;
  otptoken_validate (Some token) steps otp.

(** The inner loop of [otptoken_sync] over [tokens[j]], [rest] being the
    array from index [j] on; on success the array with the token that
    [validate] changed. *)
Fixpoint otptoken_sync_tokens (tokens rest : list otptoken) (j : nat)
    (now i : Z) (first_code second_code : Z) : M (list otptoken) :=
  match rest with
  | [] => fail
  | t :: rest' =>
      (t' <- (validate t now i first_code (Some second_code)
              <|> validate t now (0 - i) first_code (Some second_code)) ;;
       ret (<[j := t']> tokens))
      <|> otptoken_sync_tokens tokens rest' (S j) now i first_code second_code
  end.

Fixpoint otptoken_sync_loop (n : nat) (i : Z) (tokens : list otptoken)
    (now : Z) (first_code second_code : Z) : M (list otptoken) :=
  otptoken_sync_tokens tokens tokens 0 now i first_code second_code
  <|> match n with
      | O => fail
      | S n' => otptoken_sync_loop n' (i + 1) tokens now first_code second_code
      end.

(** [otptoken_sync] over a NULL-terminated array of tokens. *)
Definition otptoken_sync (tokens : option (list otptoken)) (steps : nat)
    (first_code second_code : Z) : M (list otptoken) :=
  tokens <- lift tokens ;;
  now <- time ;;
  guard (negb (now =? -1)) ;;;
  otptoken_sync_loop steps 0 tokens now first_code second_code.

Definition otptoken_sync_berval (tokens : option (list otptoken)) (steps : nat)
    (first_code second_code : berval) : M (list otptoken) :=
  first <- lift (bvtod first_code) ;;
  second <- lift (bvtod second_code) ;;
  otptoken_sync tokens steps first second.

End Validator.

(** ** Token construction and lookup *)

(** [strcasecmp(a, b) == 0], over ASCII letters. *)
Definition tolower (c : ascii) : ascii :=
  let n := N_of_ascii c in
  if ((65 <=? n) && (n <=? 90))%N then ascii_of_N (n + 32) else c.

Fixpoint strlower (s : string) : string :=
  match s with
  | EmptyString => EmptyString
  | String c s' => String (tolower c) (strlower s')
  end.

Definition strcasecmp_eq (a b : string) : bool :=
  String.eqb (strlower a) (strlower b).

Definition valid_algos : list string := ["sha1"; "sha256"; "sha384"; "sha512"]%string.

Definition is_algo_valid (algo : string) : bool :=
  existsb (strcasecmp_eq algo) valid_algos.

(** The loop of [otptoken_new] over the [objectClass] values: a later
    value overrides an earlier one.  The token comes from [calloc], so the
    members of the union start at zero. *)
Definition token_type_of (vals : list string) : otptoken_type :=
  fold_left
    (fun ty v =>
       if strcasecmp_eq v "ipaTokenTOTP" then OTPTOKEN_TOTP 0 0 0
       else if strcasecmp_eq v "ipaTokenHOTP" then OTPTOKEN_HOTP 0
       else ty)
    vals OTPTOKEN_NONE.

(** [otptoken_new]; [None] is its [goto error].  Memory allocation is taken
    to succeed. *)
Definition otptoken_new (entry : Slapi_Entry) : option otptoken :=
  (* Get the token type. *)
  vals ← e_objectClass entry;
  match token_type_of vals with
  | OTPTOKEN_NONE => None
  | ty =>
      (* Get SDN. *)
      dn ← e_sdn entry;
      (* Get key. *)
      k ← e_key entry;
      (* Get length. *)
      let d := slapi_entry_attr_get_int entry (O_ "digits") in
      if negb (d =? 6) && negb (d =? 8) then None
      else
        (* Get algorithm. *)
        let a := default "sha1"%string (e_algorithm entry) in
        if negb (is_algo_valid a) then None
        else
          Some {| sdn := dn;
                  token := {| key := k; algo := a; digits := d |};
                  type :=
                    match ty with
                    | OTPTOKEN_TOTP _ _ _ =>
                        let offset := slapi_entry_attr_get_int entry (T "clockOffset") in
                        let watermark :=
                          to_uint64 (slapi_entry_attr_get_int entry (T "watermark")) in
                        let step := slapi_entry_attr_get_uint entry (T "timeStep") in
                        OTPTOKEN_TOTP watermark
                          (if step =? 0 then IPA_OTP_DEFAULT_TOKEN_STEP else step)
                          offset
                    | OTPTOKEN_HOTP _ =>
                        OTPTOKEN_HOTP
                          (to_uint64 (slapi_entry_attr_get_int entry (H "counter")))
                    | OTPTOKEN_NONE => OTPTOKEN_NONE
                    end |}
  end.

(** The loop of [find] that fills the array: the first entry that does not
    construct frees the array and leaves through [error] with NULL. *)
Fixpoint find_tokens (entries : list Slapi_Entry) : option (list otptoken) :=
  match entries with
  | [] => Some []
  | e :: entries' =>
      match otptoken_new e with
      | None => None
      | Some t =>
          match find_tokens entries' with
          | None => None
          | Some ts => Some (t :: ts)
          end
      end
  end.

(** [find], from the outcome of the internal search on: the filter and the
    search itself are the directory server's, [result] is its
    [SLAPI_PLUGIN_INTOP_RESULT] and [entries] its
    [SLAPI_PLUGIN_INTOP_SEARCH_ENTRIES] (NULL-terminated, or NULL). *)
Definition find (result : Z) (entries : option (list Slapi_Entry))
  : option (list otptoken) :=
  if negb (result =? LDAP_SUCCESS) then None
  else
    match entries with
    | None => None
    | Some entries => find_tokens entries
    end.

(** ** The design document's reading of the two sweeps

    Definitions written from the document's words, for comparison with the
    loops above. *)

(** "for i = 0, 1, 2, ..., steps (inclusive), evaluate candidate offsets
    +i then -i" *)
Definition sweep_offsets (steps : nat) : list Z :=
  flat_map (fun i => [Z.of_nat i; 0 - Z.of_nat i]) (seq 0 (S steps)).

(** "for i = 0..steps (outer), for each candidate token (inner, in the
    set's given order), ... offsets +i then -i": token index and offset. *)
Definition sync_candidates (ntokens steps : nat) : list (nat * Z) :=
  flat_map
    (fun i => flat_map (fun j => [(j, Z.of_nat i); (j, 0 - Z.of_nat i)])
                       (seq 0 ntokens))
    (seq 0 (S steps)).

(** "return on the first success" *)
Fixpoint first_success {A} (ms : list (M A)) : M A :=
  match ms with
  | [] => fail
  | m :: ms' => m <|> first_success ms'
  end.

Definition spec_validate_sweep (hotp : hotp_token -> Z -> option Z)
    (token : otptoken) (now : Z) (steps : nat) (code : Z) : M otptoken :=
  first_success
    ((fun d => validate hotp token now d code None) <$> sweep_offsets steps).

Definition spec_sync_attempt (hotp : hotp_token -> Z -> option Z)
    (tokens : list otptoken) (now : Z) (first_code second_code : Z)
    (c : nat * Z) : M (list otptoken) :=
  match tokens !! c.1 with
  | Some t =>
      t' <- validate hotp t now c.2 first_code (Some second_code) ;;
      ret (<[c.1 := t']> tokens)
  | None => fail
  end.

Definition spec_sync_sweep (hotp : hotp_token -> Z -> option Z)
    (tokens : list otptoken) (now : Z) (steps : nat)
    (first_code second_code : Z) : M (list otptoken) :=
  first_success
    (spec_sync_attempt hotp tokens now first_code second_code
       <$> sync_candidates (length tokens) steps).

(** ** Vocabulary of the statements *)

(** The value [now] that [otptoken_validate] hands to [validate]. *)
Definition request_now (token : otptoken) (w : world) : Z :=
  match type token with
  | OTPTOKEN_TOTP _ _ _ => w_time w
  | _ => 0
  end.

Definition is_totp (token : otptoken) : bool :=
  match type token with OTPTOKEN_TOTP _ _ _ => true | _ => false end.

(** The next internal modify operation on [dn] will succeed. *)
Definition write_ok (w : world) (dn : string) : bool :=
  (hd LDAP_SUCCESS (w_results w) =? LDAP_SUCCESS)
  && bool_decide (is_Some (w_store w !! dn)).

(** The world once an internal modify operation has run and left [store]. *)
Definition after_write (w : world) (store : gmap string Slapi_Entry) : world :=
  {| w_time := w_time w; w_results := tl (w_results w); w_store := store |}.

(** Every internal modify operation that a matching call of [validate]
    issues will succeed: one write, or two for a TOTP token in two-code
    mode. *)
Definition commit_ok (token : otptoken) (second : option Z) (w : world) : bool :=
  write_ok w (sdn token)
  && (if is_totp token && bool_decide (is_Some second)
      then hd LDAP_SUCCESS (tl (w_results w)) =? LDAP_SUCCESS
      else true).

(** An integer attribute of the entry [dn] as the store holds it. *)
Definition stored_int (w : world) (dn attr : string) : option Z :=
  e ← w_store w !! dn; e_ints e !! attr.

(** The replay cursor of the in-memory token. *)
Definition cursor (token : otptoken) : option Z :=
  match type token with
  | OTPTOKEN_TOTP watermark _ _ => Some watermark
  | OTPTOKEN_HOTP counter => Some counter
  | OTPTOKEN_NONE => None
  end.

(** The offset passes the guard of the token's type and the code generated
    at the candidate step is the presented one. *)
Definition code_matches (hotp : hotp_token -> Z -> option Z)
    (token : otptoken) (now step : Z) (code : Z) : bool :=
  match absolute_step token now step with
  | Some (_, s) =>
      match hotp (member_token token) (to_uint64 s) with
      | Some tmp => code =? tmp
      | None => false
      end
  | None => false
  end.

(** The same for two consecutive codes. *)
Definition codes_match (hotp : hotp_token -> Z -> option Z)
    (token : otptoken) (now step : Z) (first second : Z) : bool :=
  match absolute_step token now step with
  | Some (_, s) =>
      match hotp (member_token token) (to_uint64 s),
            hotp (member_token token) (to_uint64 (to_ssize (s + 1))) with
      | Some t1, Some t2 => (first =? t1) && (second =? t2)
      | _, _ => false
      end
  | None => false
  end.

Definition is_digit (c : Z) : bool := (48 <=? c) && (c <=? 57).

(** The number a string of digits denotes. *)
Definition decimal_value (code : berval) : Z :=
  fold_left (fun acc c => acc * 10 + (c - 48)) code 0.

(** ** Sample data *)

(** A stand-in generator: distinct codes at neighbouring counters. *)
Definition hotp_demo (tok : hotp_token) (counter : Z) : option Z :=
  Some ((123456 + 7 * counter) mod 10 ^ digits tok).

Definition demo_secret : hotp_token :=
  {| key := [49; 50; 51]; algo := "sha1"; digits := 6 |}.

Definition demo_totp (watermark tstep offset : Z) : otptoken :=
  {| sdn := "cn=totp,dc=example"; token := demo_secret;
     type := OTPTOKEN_TOTP watermark tstep offset |}.

Definition demo_hotp (counter : Z) : otptoken :=
  {| sdn := "cn=hotp,dc=example"; token := demo_secret;
     type := OTPTOKEN_HOTP counter |}.

Definition demo_entry (dn cls : string) (ints : list (string * Z)) : Slapi_Entry :=
  {| e_sdn := Some dn; e_objectClass := Some ["top"; cls]%string;
     e_key := Some [49; 50; 51]; e_algorithm := None;
     e_ints := list_to_map ints |}.

Definition demo_totp_entry (watermark offset : Z) : Slapi_Entry :=
  demo_entry "cn=totp,dc=example" "ipatokenTOTP"
    [(O_ "digits", 6); (T "timeStep", 30); (T "clockOffset", offset);
     (T "watermark", watermark)].

Definition demo_hotp_entry (counter : Z) : Slapi_Entry :=
  demo_entry "cn=hotp,dc=example" "ipatokenHOTP"
    [(O_ "digits", 6); (H "counter", counter)].

Definition demo_store (te he : Slapi_Entry) : gmap string Slapi_Entry :=
  <["cn=totp,dc=example"%string := te]> (<["cn=hotp,dc=example"%string := he]> ∅).

Definition demo_world (now : Z) (results : list Z) (te he : Slapi_Entry) : world :=
  {| w_time := now; w_results := results; w_store := demo_store te he |}.

Definition demo_dn_totp : string := "cn=totp,dc=example".
Definition demo_dn_hotp : string := "cn=hotp,dc=example".

(** An entry whose code length is neither 6 nor 8. *)
Definition demo_bad_entry : Slapi_Entry :=
  demo_entry "cn=bad,dc=example" "ipatokenHOTP" [(O_ "digits", 7)].

(** Wall clock 1000 s, a store that accepts every write, a fresh TOTP
    token and an HOTP token at counter 5. *)
Definition world_fresh : world :=
  demo_world 1000 [] (demo_totp_entry 0 0) (demo_hotp_entry 5).

(** The same, but the second write to come is refused. *)
Definition world_second_write_fails : world :=
  demo_world 1000 [0; 1] (demo_totp_entry 0 0) (demo_hotp_entry 5).

(** The TOTP token has already been used at step 33, the current one. *)
Definition world_used : world :=
  demo_world 1000 [] (demo_totp_entry 34 0) (demo_hotp_entry 5).

(** HOTP counters at the top of the 32-bit range, and at zero. *)
Definition world_hotp_at (counter : Z) : world :=
  demo_world 1000 [] (demo_totp_entry 0 0) (demo_hotp_entry counter).

(** ** The remaining entry points and the vocabulary of further statements *)

(** [otptoken_get_digits]: 0 for a NULL token. *)
Definition otptoken_get_digits (token : option otptoken) : Z :=
  match token with
  | None => 0
  | Some t => digits (member_token t)
  end.

(** [otptoken_get_sdn] *)
Definition otptoken_get_sdn (token : otptoken) : string := sdn token.

(** The [switch] at the end of [otptoken_new], by itself: the members of
    the union as read from the entry, for the type found. *)
Definition entry_state (ty : otptoken_type) (entry : Slapi_Entry) : otptoken_type :=
  match ty with
  | OTPTOKEN_TOTP _ _ _ =>
      let step := slapi_entry_attr_get_uint entry (T "timeStep") in
      OTPTOKEN_TOTP
        (to_uint64 (slapi_entry_attr_get_int entry (T "watermark")))
        (if step =? 0 then IPA_OTP_DEFAULT_TOKEN_STEP else step)
        (slapi_entry_attr_get_int entry (T "clockOffset"))
  | OTPTOKEN_HOTP _ =>
      OTPTOKEN_HOTP (to_uint64 (slapi_entry_attr_get_int entry (H "counter")))
  | OTPTOKEN_NONE => OTPTOKEN_NONE
  end.

(** The value is one of the object classes the code looks for. *)
Definition is_token_class (v : string) : bool :=
  strcasecmp_eq v "ipaTokenTOTP" || strcasecmp_eq v "ipaTokenHOTP".

(** What every token that [otptoken_new] returns satisfies: the ranges of
    the C types of its members and the checks of the constructor. *)
Definition token_well_formed (t : otptoken) : Prop :=
  (digits (token t) = 6 \/ digits (token t) = 8) /\
  is_algo_valid (algo (token t)) = true /\
  match type t with
  | OTPTOKEN_NONE => False
  | OTPTOKEN_TOTP watermark tstep offset =>
      0 <= watermark < 18446744073709551616 /\
      0 < tstep < 4294967296 /\
      -2147483648 <= offset <= INT_MAX
  | OTPTOKEN_HOTP counter => 0 <= counter < 18446744073709551616
  end.

(** The same world with another clock. *)
Definition set_time (w : world) (t : Z) : world :=
  {| w_time := t; w_results := w_results w; w_store := w_store w |}.

(** The offsets at which an HOTP token can be accepted, in the order of the
    sweep: 0 twice, then 1, 2, ..., [steps]. *)
Definition forward_offsets (steps : nat) : list Z :=
  [0; 0] ++ (Z.of_nat <$> seq 1 steps).

(** A TOTP entry with nothing but what construction requires. *)
Definition demo_bare_entry : Slapi_Entry :=
  demo_entry "cn=bare,dc=example" "IPATOKENTOTP" [(O_ "digits", 8)].

(** Sample calls of [validate]: the HOTP token accepted at step 7, the TOTP
    token at step 33, and the TOTP token resynchronised at steps 35, 36. *)
Definition run_hotp_7 : option otptoken * world :=
  validate hotp_demo (demo_hotp 5) 0 2 123505 None world_fresh.

Definition run_totp_33 : option otptoken * world :=
  validate hotp_demo (demo_totp 0 30 0) 1000 0 123687 None world_fresh.

Definition run_resync_35 : option otptoken * world :=
  validate hotp_demo (demo_totp 0 30 0) 1000 2 123701 (Some 123708) world_fresh.

(** The baseline step of a token at time [now]: the absolute step that the
    first [switch] of [validate] computes for offset 0, before its guard. *)
Definition baseline (token : otptoken) (now : Z) : Z :=
  match type token with
  | OTPTOKEN_TOTP _ tstep offset => to_ssize (to_ssize (now + offset) ÷ tstep + 0)
  | OTPTOKEN_HOTP counter => to_ssize (to_uint64 (counter + to_uint64 0))
  | OTPTOKEN_NONE => 0
  end.

(** The attribute that holds the cursor of a token: [attr] in [validate]. *)
Definition cursor_attr (token : otptoken) : string :=
  match type token with
  | OTPTOKEN_HOTP _ => H "counter"
  | _ => T "watermark"
  end.


(** A TOTP and an HOTP token that both expect the same two codes next; the
    directory server refuses the second and the fourth write to come. *)
Definition world_sync_refusals : world :=
  demo_world 1000 [0; 1; 0; 1; 0] (demo_totp_entry 0 0) (demo_hotp_entry 33).

(** * Lemmas *)

(** ** Machine integers *)

Section Integers.

Lemma to_uint64_range z : 0 <= to_uint64 z < 18446744073709551616.
Proof. unfold to_uint64. apply Z.mod_pos_bound. lia. Qed.

Lemma to_uint64_small z :
  0 <= z < 18446744073709551616 -> to_uint64 z = z.
Proof. intros Hz. unfold to_uint64. apply Z.mod_small. exact Hz. Qed.

Lemma to_uint32_small z : 0 <= z < 4294967296 -> to_uint32 z = z.
Proof. intros Hz. unfold to_uint32. apply Z.mod_small. exact Hz. Qed.

Lemma to_ssize_small z :
  -9223372036854775808 <= z < 9223372036854775808 -> to_ssize z = z.
Proof. intros Hz. unfold to_ssize. rewrite Z.mod_small by lia. lia. Qed.

Lemma to_int_small z : -2147483648 <= z <= INT_MAX -> to_int z = z.
Proof.
  unfold INT_MAX. intros Hz. unfold to_int. rewrite Z.mod_small by lia. lia.
Qed.

Lemma to_int_to_uint32 z : to_int (to_uint32 z) = to_int z.
Proof.
  unfold to_int, to_uint32.
  rewrite Zplus_mod_idemp_l. reflexivity.
Qed.

Lemma to_uint64_to_ssize z : to_uint64 (to_ssize z) = to_uint64 z.
Proof.
  unfold to_uint64, to_ssize.
  rewrite Zminus_mod_idemp_l.
  replace (z + 9223372036854775808 - 9223372036854775808) with z by lia.
  reflexivity.
Qed.

Lemma to_ssize_to_uint64 z : to_ssize (to_uint64 z) = to_ssize z.
Proof.
  unfold to_uint64, to_ssize.
  rewrite Zplus_mod_idemp_l. reflexivity.
Qed.

(** C's division is the floor for a non-negative dividend. *)
Lemma quot_is_floor a b : 0 <= a -> 0 < b -> a ÷ b = a / b.
Proof. intros Ha Hb. apply Z.quot_div_nonneg; lia. Qed.

End Integers.

(** ** The store *)

Section Store.

Lemma writeattr_ok tok attr v w :
  write_ok w (sdn tok) = true ->
  exists e, w_store w !! sdn tok = Some e /\
    writeattr tok attr v w =
      (Some tt, after_write w (<[sdn tok := entry_set_int e attr v]> (w_store w))).
Proof.
  unfold write_ok. intros Hok.
  apply andb_true_iff in Hok as [Hres Hin].
  apply bool_decide_eq_true in Hin as [e He].
  exists e. split; [exact He|].
  unfold writeattr, slapi_modify_internal. cbv zeta.
  rewrite Hres, He. reflexivity.
Qed.

Lemma writeattr_fail tok attr v w :
  write_ok w (sdn tok) = false ->
  writeattr tok attr v w = (None, after_write w (w_store w)).
Proof.
  unfold write_ok, writeattr, slapi_modify_internal. intros Hok. cbv zeta.
  destruct (hd LDAP_SUCCESS (w_results w) =? LDAP_SUCCESS) eqn:Hres.
  - destruct (w_store w !! sdn tok) eqn:He.
    + rewrite bool_decide_eq_true_2 in Hok by eauto. discriminate.
    + reflexivity.
  - rewrite Hres. reflexivity.
Qed.

Lemma writeattr_inv tok attr v w r w' :
  writeattr tok attr v w = (r, w') ->
  w_time w' = w_time w /\ w_results w' = tl (w_results w) /\
  match r with
  | Some _ =>
      write_ok w (sdn tok) = true /\
      exists e, w_store w !! sdn tok = Some e /\
                w_store w' = <[sdn tok := entry_set_int e attr v]> (w_store w)
  | None => write_ok w (sdn tok) = false /\ w_store w' = w_store w
  end.
Proof.
  intros Hw.
  destruct (write_ok w (sdn tok)) eqn:Hok.
  - destruct (writeattr_ok tok attr v w Hok) as (e & He & Heq).
    rewrite Heq in Hw. inversion Hw; subst. simpl.
    repeat split; try reflexivity. exists e. split; [exact He | reflexivity].
  - rewrite (writeattr_fail tok attr v w Hok) in Hw.
    inversion Hw; subst. simpl. repeat split; reflexivity.
Qed.

End Store.

(** ** [validate], case by case *)

Section ValidateFacts.

Variable hotp : hotp_token -> Z -> option Z.

Ltac run_monad :=
  unfold validate, bind, lift, guard, ret, fail, orelse; simpl.

Lemma validate_single_nomatch tok now d code w :
  code_matches hotp tok now d code = false ->
  validate hotp tok now d code None w = (None, w).
Proof.
  unfold code_matches. run_monad.
  destruct (absolute_step tok now d) as [[attr s]|]; simpl; [|reflexivity].
  destruct (hotp (token tok) (to_uint64 s)) as [tmp|]; simpl; [|reflexivity].
  intros ->. reflexivity.
Qed.

Lemma validate_single_match tok now d code w attr s :
  absolute_step tok now d = Some (attr, s) ->
  code_matches hotp tok now d code = true ->
  validate hotp tok now d code None w =
    match writeattr tok attr (to_int (to_ssize (s + 1))) w with
    | (Some _, w') => (Some (save_step tok (to_ssize (s + 1))), w')
    | (None, w') => (None, w')
    end.
Proof.
  unfold code_matches. run_monad. intros ->. simpl.
  destruct (hotp (token tok) (to_uint64 s)) as [tmp|]; simpl; [|discriminate].
  intros ->. simpl.
  destruct (writeattr tok attr (to_int (to_ssize (s + 1))) w) as [[[]|] w'];
    reflexivity.
Qed.

Lemma validate_double_nomatch tok now d first second w :
  codes_match hotp tok now d first second = false ->
  validate hotp tok now d first (Some second) w = (None, w).
Proof.
  unfold codes_match. run_monad.
  destruct (absolute_step tok now d) as [[attr s]|]; simpl; [|reflexivity].
  destruct (hotp (token tok) (to_uint64 s)) as [t1|]; simpl; [|reflexivity].
  destruct (first =? t1); simpl; [|reflexivity].
  destruct (hotp (token tok) (to_uint64 (to_ssize (s + 1)))) as [t2|]; simpl;
    [|reflexivity].
  intros ->. reflexivity.
Qed.

Lemma validate_double_match tok now d first second w attr s :
  absolute_step tok now d = Some (attr, s) ->
  codes_match hotp tok now d first second = true ->
  validate hotp tok now d first (Some second) w =
    let s2 := to_ssize (to_ssize (s + 1) + 1) in
    match sync_offset tok now s2 w with
    | (Some _, w1) =>
        match writeattr tok attr (to_int s2) w1 with
        | (Some _, w2) => (Some (save_step tok s2), w2)
        | (None, w2) => (None, w2)
        end
    | (None, w1) => (None, w1)
    end.
Proof.
  unfold codes_match. run_monad. intros ->. simpl.
  destruct (hotp (token tok) (to_uint64 s)) as [t1|]; simpl; [|discriminate].
  destruct (hotp (token tok) (to_uint64 (to_ssize (s + 1)))) as [t2|]; simpl;
    [|discriminate].
  intros Hm. apply andb_true_iff in Hm as [-> ->]. simpl.
  destruct (sync_offset tok now (to_ssize (to_ssize (s + 1) + 1)) w)
    as [[[]|] w1]; [|reflexivity].
  destruct (writeattr tok attr (to_int (to_ssize (to_ssize (s + 1) + 1))) w1)
    as [[[]|] w2]; reflexivity.
Qed.

(** A [validate] that returns true found its code(s) at the candidate
    step. *)
Lemma validate_some_matches tok now d first second w tok' w' :
  validate hotp tok now d first second w = (Some tok', w') ->
  match second with
  | None => code_matches hotp tok now d first = true
  | Some sec => codes_match hotp tok now d first sec = true
  end.
Proof.
  intros Hv. destruct second as [sec|].
  - destruct (codes_match hotp tok now d first sec) eqn:Hm; [reflexivity|].
    rewrite validate_double_nomatch in Hv by exact Hm. discriminate.
  - destruct (code_matches hotp tok now d first) eqn:Hm; [reflexivity|].
    rewrite validate_single_nomatch in Hv by exact Hm. discriminate.
Qed.

Lemma code_matches_inv tok now d code :
  code_matches hotp tok now d code = true ->
  exists attr s, absolute_step tok now d = Some (attr, s) /\
                 hotp (token tok) (to_uint64 s) = Some code.
Proof.
  unfold code_matches.
  destruct (absolute_step tok now d) as [[attr s]|]; [|discriminate].
  destruct (hotp (token tok) (to_uint64 s)) as [tmp|] eqn:Ht; [|discriminate].
  intros Heq. apply Z.eqb_eq in Heq as ->.
  exists attr, s. split; [reflexivity | exact Ht].
Qed.

Lemma codes_match_inv tok now d first second :
  codes_match hotp tok now d first second = true ->
  exists attr s, absolute_step tok now d = Some (attr, s) /\
                 hotp (token tok) (to_uint64 s) = Some first /\
                 hotp (token tok) (to_uint64 (to_ssize (s + 1))) = Some second.
Proof.
  unfold codes_match.
  destruct (absolute_step tok now d) as [[attr s]|]; [|discriminate].
  destruct (hotp (token tok) (to_uint64 s)) as [t1|] eqn:Ht1; [|discriminate].
  destruct (hotp (token tok) (to_uint64 (to_ssize (s + 1)))) as [t2|] eqn:Ht2;
    [|discriminate].
  intros Hm. apply andb_true_iff in Hm as [H1 H2].
  apply Z.eqb_eq in H1 as ->. apply Z.eqb_eq in H2 as ->.
  exists attr, s. repeat split; assumption.
Qed.

Lemma code_matches_intro tok now d code attr s :
  absolute_step tok now d = Some (attr, s) ->
  hotp (token tok) (to_uint64 s) = Some code ->
  code_matches hotp tok now d code = true.
Proof.
  unfold code_matches. intros -> ->. apply Z.eqb_refl.
Qed.

Lemma codes_match_intro tok now d first second attr s :
  absolute_step tok now d = Some (attr, s) ->
  hotp (token tok) (to_uint64 s) = Some first ->
  hotp (token tok) (to_uint64 (to_ssize (s + 1))) = Some second ->
  codes_match hotp tok now d first second = true.
Proof.
  unfold codes_match. intros -> -> ->. rewrite !Z.eqb_refl. reflexivity.
Qed.

End ValidateFacts.

(** ** First success over a list of attempts *)

Section FirstSuccess.

Context {A : Type}.
Implicit Types (ms : list (M A)) (m : M A) (w : world).

Lemma first_success_app ms1 ms2 w :
  first_success (ms1 ++ ms2) w = (first_success ms1 <|> first_success ms2) w.
Proof.
  revert w. induction ms1 as [|m ms1 IH]; intros w; simpl.
  - reflexivity.
  - unfold orelse in *. destruct (m w) as [[a|] w1]; [reflexivity|].
    apply IH.
Qed.

(** A success of the whole is the success of one attempt, run in the world
    the failed attempts before it left. *)
Lemma first_success_some ms w a w' :
  first_success ms w = (Some a, w') ->
  exists m w1, m ∈ ms /\ m w1 = (Some a, w').
Proof.
  revert w. induction ms as [|m ms IH]; intros w; simpl.
  - discriminate.
  - unfold orelse. destruct (m w) as [[a0|] w1] eqn:Hm.
    + intros Heq. inversion Heq; subst. exists m, w. split; [left | exact Hm].
    + intros Hrest. destruct (IH _ Hrest) as (m' & w2 & Hin & Hrun).
      exists m', w2. split; [right; exact Hin | exact Hrun].
Qed.

(** Attempts that fail without touching the world are skipped. *)
Lemma first_success_skip ms1 ms2 w :
  Forall (fun m => m w = (None, w)) ms1 ->
  first_success (ms1 ++ ms2) w = first_success ms2 w.
Proof.
  induction 1 as [|m ms1 Hm _ IH]; simpl; [reflexivity|].
  unfold orelse. rewrite Hm. exact IH.
Qed.

Lemma first_success_none ms w :
  Forall (fun m => m w = (None, w)) ms -> first_success ms w = (None, w).
Proof.
  intros Hall. rewrite <- (app_nil_r ms). rewrite first_success_skip by exact Hall.
  reflexivity.
Qed.

End FirstSuccess.

(** ** The loops are the sweeps *)

Section Sweeps.

Variable hotp : hotp_token -> Z -> option Z.

Lemma otptoken_validate_loop_sweep n k tok now code w :
  otptoken_validate_loop hotp n (Z.of_nat k) tok now code w =
  first_success
    ((fun d => validate hotp tok now d code None)
       <$> flat_map (fun i => [Z.of_nat i; 0 - Z.of_nat i]) (seq k (S n))) w.
Proof.
  revert k w. induction n as [|n IH]; intros k w.
  - reflexivity.
  - change (seq k (S (S n))) with (k :: seq (S k) (S n)).
    cbn [otptoken_validate_loop flat_map app fmap list_fmap first_success].
    unfold orelse.
    destruct (validate hotp tok now (Z.of_nat k) code None w) as [[a|] w1];
      [reflexivity|].
    destruct (validate hotp tok now (0 - Z.of_nat k) code None w1) as [[a|] w2];
      [reflexivity|].
    replace (Z.of_nat k + 1) with (Z.of_nat (S k)) by lia.
    apply IH.
Qed.

Lemma otptoken_sync_tokens_sweep now i c1 c2 rest tokens j w :
  drop j tokens = rest ->
  otptoken_sync_tokens hotp tokens rest j now i c1 c2 w =
  first_success
    (spec_sync_attempt hotp tokens now c1 c2
       <$> flat_map (fun j => [(j, i); (j, 0 - i)]) (seq j (length rest))) w.
Proof.
  revert j w. induction rest as [|t rest IH]; intros j w Hdrop.
  - reflexivity.
  - assert (Hj : tokens !! j = Some t).
    { rewrite <- (Nat.add_0_r j), <- lookup_drop, Hdrop. reflexivity. }
    assert (Hrest : drop (S j) tokens = rest).
    { replace (S j) with (j + 1)%nat by lia.
      rewrite <- (drop_drop tokens 1 j), Hdrop. reflexivity. }
    cbn [otptoken_sync_tokens length seq flat_map app fmap list_fmap first_success].
    unfold spec_sync_attempt at 1 2. cbn [fst snd]. rewrite Hj.
    unfold orelse, bind, ret.
    destruct (validate hotp t now i c1 (Some c2) w) as [[a|] w1];
      [reflexivity|].
    destruct (validate hotp t now (0 - i) c1 (Some c2) w1) as [[a|] w2];
      [reflexivity|].
    apply IH. exact Hrest.
Qed.

End Sweeps.

(** ** What a call of [validate] leaves behind *)

Section ValidateOutcome.

Variable hotp : hotp_token -> Z -> option Z.

(** The entry after the writes of a successful call. *)
Lemma validate_success_inv tok now d first second w tok' w' :
  validate hotp tok now d first second w = (Some tok', w') ->
  exists attr s e,
    absolute_step tok now d = Some (attr, s) /\
    w_store w !! sdn tok = Some e /\
    hotp (token tok) (to_uint64 s) = Some first /\
    w_time w' = w_time w /\
    match second with
    | None =>
        tok' = save_step tok (to_ssize (s + 1)) /\
        w_store w' =
          <[sdn tok := entry_set_int e attr (to_int (to_ssize (s + 1)))]> (w_store w)
    | Some sec =>
        let s2 := to_ssize (to_ssize (s + 1) + 1) in
        hotp (token tok) (to_uint64 (to_ssize (s + 1))) = Some sec /\
        tok' = save_step tok s2 /\
        w_store w' =
          <[sdn tok :=
              entry_set_int
                match type tok with
                | OTPTOKEN_TOTP _ tstep _ =>
                    entry_set_int e (T "clockOffset")
                      (to_int (to_uint32 (to_ssize (to_ssize (s2 - now ÷ tstep) * tstep))))
                | _ => e
                end attr (to_int s2)]> (w_store w)
    end.
Proof.
  intros Hv. pose proof (validate_some_matches hotp _ _ _ _ _ _ _ _ Hv) as Hm.
  destruct second as [sec|].
  - destruct (codes_match_inv hotp _ _ _ _ _ Hm) as (attr & s & Habs & H1 & H2).
    rewrite (validate_double_match hotp _ _ _ _ _ _ _ _ Habs Hm) in Hv.
    cbv zeta in Hv. unfold sync_offset in Hv.
    set (s2 := to_ssize (to_ssize (s + 1) + 1)) in *.
    destruct (type tok) as [|wm tstep off|c] eqn:Hty.
    + unfold absolute_step in Habs. rewrite Hty in Habs. discriminate.
    + destruct (writeattr tok (T "clockOffset") _ w) as [[[]|] w1] eqn:Hw1;
        [|discriminate].
      destruct (writeattr tok attr (to_int s2) w1) as [[[]|] w2] eqn:Hw2;
        [|discriminate].
      inversion Hv; subst tok' w2. clear Hv.
      apply writeattr_inv in Hw1 as (Ht1 & _ & _ & e & He & Hs1).
      apply writeattr_inv in Hw2 as (Ht2 & _ & _ & e1 & He1 & Hs2).
      rewrite Hs1, lookup_insert_eq in He1. inversion He1; subst e1.
      exists attr, s, e. repeat split; try assumption; try congruence.
      rewrite Hs2, Hs1, insert_insert_eq. reflexivity.
    + unfold ret in Hv.
      destruct (writeattr tok attr (to_int s2) w) as [[[]|] w2] eqn:Hw2;
        [|discriminate].
      inversion Hv; subst tok' w2. clear Hv.
      apply writeattr_inv in Hw2 as (Ht2 & _ & _ & e & He & Hs2).
      exists attr, s, e. repeat split; assumption.
  - destruct (code_matches_inv hotp _ _ _ _ Hm) as (attr & s & Habs & H1).
    rewrite (validate_single_match hotp _ _ _ _ _ _ _ Habs Hm) in Hv.
    destruct (writeattr tok attr (to_int (to_ssize (s + 1))) w)
      as [[[]|] w2] eqn:Hw2; [|discriminate].
    inversion Hv; subst tok' w2. clear Hv.
    apply writeattr_inv in Hw2 as (Ht2 & _ & _ & e & He & Hs2).
    exists attr, s, e. repeat split; assumption.
Qed.

(** A call that returns false has left the store as it was, or, for a TOTP
    token in two-code mode whose codes matched, has written the clock
    offset and nothing else. *)
Lemma validate_failure_inv tok now d first second w w' :
  validate hotp tok now d first second w = (None, w') ->
  w_time w' = w_time w /\
  (w_store w' = w_store w \/
   exists sec wm tstep off e v,
     second = Some sec /\ type tok = OTPTOKEN_TOTP wm tstep off /\
     codes_match hotp tok now d first sec = true /\
     write_ok w (sdn tok) = true /\
     w_store w !! sdn tok = Some e /\
     w_store w' = <[sdn tok := entry_set_int e (T "clockOffset") v]> (w_store w)).
Proof.
  intros Hv. destruct second as [sec|].
  - destruct (codes_match hotp tok now d first sec) eqn:Hm.
    + destruct (codes_match_inv hotp _ _ _ _ _ Hm) as (attr & s & Habs & H1 & H2).
      rewrite (validate_double_match hotp _ _ _ _ _ _ _ _ Habs Hm) in Hv.
      cbv zeta in Hv. unfold sync_offset in Hv.
      set (s2 := to_ssize (to_ssize (s + 1) + 1)) in *.
      destruct (type tok) as [|wm tstep off|c] eqn:Hty.
      * unfold absolute_step in Habs. rewrite Hty in Habs. discriminate.
      * destruct (writeattr tok (T "clockOffset") _ w) as [[[]|] w1] eqn:Hw1.
        -- destruct (writeattr tok attr (to_int s2) w1) as [[[]|] w2] eqn:Hw2;
             [discriminate|].
           inversion Hv; subst w2. clear Hv.
           apply writeattr_inv in Hw1 as (Ht1 & _ & Hok1 & e & He & Hs1).
           apply writeattr_inv in Hw2 as (Ht2 & _ & _ & Hs2).
           split; [congruence|]. right.
           exists sec, wm, tstep, off, e. eexists.
           repeat split; try eassumption. rewrite Hs2. exact Hs1.
        -- inversion Hv; subst w1. clear Hv.
           apply writeattr_inv in Hw1 as (Ht1 & _ & _ & Hs1).
           split; [assumption | left; assumption].
      * unfold ret in Hv.
        destruct (writeattr tok attr (to_int s2) w) as [[[]|] w2] eqn:Hw2;
          [discriminate|].
        inversion Hv; subst w2. clear Hv.
        apply writeattr_inv in Hw2 as (Ht2 & _ & _ & Hs2).
        split; [assumption | left; assumption].
    + rewrite validate_double_nomatch in Hv by exact Hm.
      inversion Hv; subst. split; [reflexivity | left; reflexivity].
  - destruct (code_matches hotp tok now d first) eqn:Hm.
    + destruct (code_matches_inv hotp _ _ _ _ Hm) as (attr & s & Habs & H1).
      rewrite (validate_single_match hotp _ _ _ _ _ _ _ Habs Hm) in Hv.
      destruct (writeattr tok attr (to_int (to_ssize (s + 1))) w)
        as [[[]|] w2] eqn:Hw2; [discriminate|].
      inversion Hv; subst w2. clear Hv.
      apply writeattr_inv in Hw2 as (Ht2 & _ & _ & Hs2).
      split; [assumption | left; assumption].
    + rewrite validate_single_nomatch in Hv by exact Hm.
      inversion Hv; subst. split; [reflexivity | left; reflexivity].
Qed.

End ValidateOutcome.

(** ** Commit failures (claim C1) *)

Section CommitFailure.

Variable hotp : hotp_token -> Z -> option Z.

Lemma stored_int_insert_other w w' dn dn' attr e :
  dn' <> dn ->
  w_store w' = <[dn := e]> (w_store w) ->
  stored_int w' dn' attr = stored_int w dn' attr.
Proof.
  intros Hne Hs. unfold stored_int. rewrite Hs, lookup_insert_ne by congruence.
  reflexivity.
Qed.

Lemma stored_int_set_other w w' dn attr attr' e v :
  attr' <> attr ->
  w_store w !! dn = Some e ->
  w_store w' = <[dn := entry_set_int e attr v]> (w_store w) ->
  stored_int w' dn attr' = stored_int w dn attr'.
Proof.
  intros Hne He Hs. unfold stored_int. rewrite Hs, lookup_insert_eq, He. simpl.
  apply lookup_insert_ne. congruence.
Qed.

Lemma stored_int_set_same w w' dn attr e v :
  w_store w' = <[dn := entry_set_int e attr v]> (w_store w) ->
  stored_int w' dn attr = Some v.
Proof.
  intros Hs. unfold stored_int. rewrite Hs, lookup_insert_eq. simpl.
  apply lookup_insert_eq.
Qed.

(** A successful call had all its writes accepted. *)
Lemma validate_success_commit_ok tok now d first second w tok' w' :
  validate hotp tok now d first second w = (Some tok', w') ->
  commit_ok tok second w = true.
Proof.
  intros Hv. pose proof (validate_some_matches hotp _ _ _ _ _ _ _ _ Hv) as Hm.
  unfold commit_ok, is_totp. destruct second as [sec|].
  - destruct (codes_match_inv hotp _ _ _ _ _ Hm) as (attr & s & Habs & _).
    rewrite (validate_double_match hotp _ _ _ _ _ _ _ _ Habs Hm) in Hv.
    cbv zeta in Hv. unfold sync_offset in Hv.
    destruct (type tok) as [|wm tstep off|c] eqn:Hty.
    + unfold absolute_step in Habs. rewrite Hty in Habs. discriminate.
    + destruct (writeattr tok (T "clockOffset") _ w) as [[[]|] w1] eqn:Hw1;
        [|discriminate].
      destruct (writeattr tok attr _ w1) as [[[]|] w2] eqn:Hw2; [|discriminate].
      apply writeattr_inv in Hw1 as (_ & Hr1 & Hok1 & _).
      apply writeattr_inv in Hw2 as (_ & _ & Hok2 & _).
      rewrite Hok1. simpl.
      unfold write_ok in Hok2. apply andb_true_iff in Hok2 as [Hok2 _].
      rewrite Hr1 in Hok2. exact Hok2.
    + unfold ret in Hv.
      destruct (writeattr tok attr _ w) as [[[]|] w2] eqn:Hw2; [|discriminate].
      apply writeattr_inv in Hw2 as (_ & _ & Hok2 & _).
      rewrite Hok2. reflexivity.
  - destruct (code_matches_inv hotp _ _ _ _ Hm) as (attr & s & Habs & _).
    rewrite (validate_single_match hotp _ _ _ _ _ _ _ Habs Hm) in Hv.
    destruct (writeattr tok attr _ w) as [[[]|] w2] eqn:Hw2; [|discriminate].
    apply writeattr_inv in Hw2 as (_ & _ & Hok2 & _).
    rewrite Hok2, andb_false_r. reflexivity.
Qed.

(** C1, as amended.  A call of [validate] returns true only if every write
    it issues is accepted.  When it returns false, the store is as before
    the call in single-code mode, for an HOTP token, and whenever the first
    write is refused; in two-code mode for a TOTP token every other entry
    and every attribute of the token's entry other than the clock offset is
    as before, while the clock offset, written first, stays written if the
    watermark write then failed. *)
Theorem failed_commit_store tok now d first second w r w' :
  validate hotp tok now d first second w = (r, w') ->
  (is_Some r -> commit_ok tok second w = true) /\
  (r = None ->
     (second = None \/ is_totp tok = false \/ write_ok w (sdn tok) = false ->
      w_store w' = w_store w) /\
     (forall dn, dn <> sdn tok -> w_store w' !! dn = w_store w !! dn) /\
     (forall attr, attr <> T "clockOffset" ->
        stored_int w' (sdn tok) attr = stored_int w (sdn tok) attr)).
Proof.
  intros Hv. split.
  - intros [tok' ->]. eapply validate_success_commit_ok. exact Hv.
  - intros ->. apply validate_failure_inv in Hv as [_ Hstore].
    destruct Hstore as
      [Hsame | (sec & wm & tstep & off & e & v & -> & Hty & _ & Hok & He & Hs)].
    + unfold stored_int. rewrite Hsame. repeat split; reflexivity.
    + split; [|split].
      * intros [Hsec | [Htotp | Hrefused]]; [discriminate| |congruence].
        unfold is_totp in Htotp. rewrite Hty in Htotp. discriminate.
      * intros dn Hne. rewrite Hs. apply lookup_insert_ne. congruence.
      * intros attr Hne. eapply stored_int_set_other; eassumption.
Qed.

End CommitFailure.

(** ** The code decoder (claims C8 and C10) *)

Section Decoder.

Lemma not_digit_test c : (c <? 48) || (57 <? c) = negb (is_digit c).
Proof. unfold is_digit. lia. Qed.

Lemma to_uint32_step a c :
  to_uint32 (to_uint32 (to_uint32 a * 10) + (c - 48)) = to_uint32 (a * 10 + (c - 48)).
Proof.
  unfold to_uint32.
  rewrite Zplus_mod_idemp_l.
  rewrite <- (Zplus_mod_idemp_l (a mod 4294967296 * 10)).
  rewrite Zmult_mod_idemp_l, Zplus_mod_idemp_l. reflexivity.
Qed.

Lemma bvtod_loop_spec code a :
  bvtod_loop code (to_uint32 a) =
  if forallb is_digit code
  then Some (to_uint32 (fold_left (fun acc c => acc * 10 + (c - 48)) code a))
  else None.
Proof.
  revert a. induction code as [|c code IH]; intros a; simpl.
  - reflexivity.
  - rewrite not_digit_test. destruct (is_digit c); simpl; [|reflexivity].
    rewrite to_uint32_step. apply IH.
Qed.

(** [bvtod] yields the denoted number modulo 2^32 for a non-empty string of
    digits, and fails on every other input. *)
Lemma bvtod_spec code :
  bvtod code =
  if forallb is_digit code && negb (Nat.eqb (length code) 0)
  then Some (to_uint32 (decimal_value code))
  else None.
Proof.
  unfold bvtod, decimal_value.
  change 0 with (to_uint32 0) at 1. rewrite bvtod_loop_spec.
  destruct (forallb is_digit code); simpl; [|reflexivity].
  destruct (Nat.eqb (length code) 0); reflexivity.
Qed.

Lemma decimal_fold_bound code a :
  0 <= a -> forallb is_digit code = true ->
  0 <= fold_left (fun acc c => acc * 10 + (c - 48)) code a
    < (a + 1) * 10 ^ Z.of_nat (length code).
Proof.
  revert a. induction code as [|c code IH]; intros a Ha Hd.
  - simpl. lia.
  - simpl in Hd. apply andb_true_iff in Hd as [Hc Hd].
    unfold is_digit in Hc.
    cbn [fold_left length]. rewrite Nat2Z.inj_succ, Z.pow_succ_r by lia.
    assert (0 <= a * 10 + (c - 48)) as Ha' by lia.
    specialize (IH _ Ha' Hd).
    assert (0 < 10 ^ Z.of_nat (length code)) by (apply Z.pow_pos_nonneg; lia).
    nia.
Qed.

(** Up to nine digits the value is below 2^32: nothing is lost. *)
Lemma decimal_value_small code :
  forallb is_digit code = true -> (length code <= 9)%nat ->
  to_uint32 (decimal_value code) = decimal_value code.
Proof.
  intros Hd Hlen. apply to_uint32_small. unfold decimal_value.
  pose proof (decimal_fold_bound code 0 ltac:(lia) Hd) as Hb.
  assert (10 ^ Z.of_nat (length code) <= 10 ^ 9).
  { apply Z.pow_le_mono_r; lia. }
  lia.
Qed.

End Decoder.

Section DecoderClaims.

Variable hotp : hotp_token -> Z -> option Z.

(** C8, as amended.  For a token of 6 or 8 digits, an input shorter than
    the code length (the empty one included) is refused.  Otherwise the
    decoded portion is the last [digits] characters when [tail] is set and
    the first [digits] characters when it is not, whatever follows them
    being ignored; a portion with a character that is not a digit is
    refused, and a portion of digits is validated as the number it
    denotes, leading zeros included. *)
Theorem validate_berval_decoding (tok : otptoken) (steps : nat) (code : berval)
    (tail : bool) (w : world) :
  digits (token tok) = 6 \/ digits (token tok) = 8 ->
  let n := Z.to_nat (digits (token tok)) in
  let portion := if tail then drop (length code - n)%nat code else take n code in
  ((length code < n)%nat ->
     otptoken_validate_berval hotp (Some tok) steps (Some code) tail w = (None, w)) /\
  ((n <= length code)%nat ->
     length portion = n /\
     (forallb is_digit portion = false ->
        otptoken_validate_berval hotp (Some tok) steps (Some code) tail w = (None, w)) /\
     (forallb is_digit portion = true ->
        otptoken_validate_berval hotp (Some tok) steps (Some code) tail w =
        otptoken_validate hotp (Some tok) steps (decimal_value portion) w)).
Proof.
  intros Hn n portion.
  assert (Hd : to_uint64 (digits (token tok)) = Z.of_nat n).
  { subst n. rewrite to_uint64_small by lia. lia. }
  assert (Hn' : (0 < n <= 9)%nat) by (subst n; lia).
  unfold otptoken_validate_berval, bind, lift, ret, guard. rewrite Hd.
  split.
  - intros Hlen. destruct (Z.of_nat (length code) <? Z.of_nat n) eqn:Hlt; [|lia].
    reflexivity.
  - intros Hlen. destruct (Z.of_nat (length code) <? Z.of_nat n) eqn:Hlt; [lia|].
    simpl.
    assert (Heq : take (Z.to_nat (Z.of_nat n))
              (if tail
               then drop (Z.to_nat (Z.of_nat (length code) - Z.of_nat n)) code
               else code) = portion).
    { subst portion. rewrite Nat2Z.id. destruct tail; [|reflexivity].
      replace (Z.to_nat (Z.of_nat (length code) - Z.of_nat n))
        with (length code - n)%nat by lia.
      apply take_ge. rewrite length_drop. lia. }
    rewrite Heq.
    assert (Hlp : length portion = n).
    { subst portion. destruct tail.
      - rewrite length_drop. lia.
      - rewrite length_take. lia. }
    split; [exact Hlp|].
    rewrite bvtod_spec, Hlp.
    replace (Nat.eqb n 0) with false by (symmetry; apply Nat.eqb_neq; lia).
    split; intros Hdig; rewrite Hdig; simpl.
    + reflexivity.
    + rewrite decimal_value_small by (try exact Hdig; lia). reflexivity.
Qed.

End DecoderClaims.

(** ** Lookup (claim C9) *)

Section Lookup.

Lemma find_tokens_spec entries ts :
  find_tokens entries = Some ts <->
  Forall2 (fun e t => otptoken_new e = Some t) entries ts.
Proof.
  revert ts. induction entries as [|e entries IH]; intros ts; simpl.
  - split.
    + intros Heq. inversion Heq. constructor.
    + intros Hall. inversion Hall. reflexivity.
  - destruct (otptoken_new e) as [t|] eqn:He.
    + destruct (find_tokens entries) as [ts'|] eqn:Hrest.
      * split.
        -- intros Heq. inversion Heq; subst. constructor; [exact He|].
           apply IH. reflexivity.
        -- intros Hall. inversion Hall as [|? t0 ? ts0 Ht Hts]; subst.
           apply IH in Hts. congruence.
      * split; [discriminate|].
        intros Hall. inversion Hall as [|? t0 ? ts0 Ht Hts]; subst.
        apply IH in Hts. discriminate.
    + split; [discriminate|].
      intros Hall. inversion Hall; subst. congruence.
Qed.

Lemma find_tokens_bad entries :
  Exists (fun e => otptoken_new e = None) entries -> find_tokens entries = None.
Proof.
  induction 1 as [e entries He | e entries _ IH]; simpl.
  - rewrite He. reflexivity.
  - rewrite IH. destruct (otptoken_new e); reflexivity.
Qed.

(** C9, as amended.  A lookup returns tokens exactly when every record the
    search returned constructs, and then one token per record, in order;
    a single record that fails construction makes the whole lookup fail,
    whatever its siblings are.  A search that returns no record gives the
    empty array, not a failure. *)
Theorem find_all_or_nothing entries :
  (forall ts,
     find LDAP_SUCCESS (Some entries) = Some ts <->
     Forall2 (fun e t => otptoken_new e = Some t) entries ts) /\
  (Exists (fun e => otptoken_new e = None) entries ->
   forall result, find result (Some entries) = None) /\
  find LDAP_SUCCESS (Some []) = Some [].
Proof.
  split; [|split].
  - intros ts. apply find_tokens_spec.
  - intros Hbad result. unfold find.
    destruct (negb (result =? LDAP_SUCCESS)); [reflexivity|].
    apply find_tokens_bad. exact Hbad.
  - reflexivity.
Qed.

End Lookup.

(** ** The order of the sweeps (claims C6 and C7) *)

Section SweepOrder.

(** Two cells per index: where each one lies. *)
Lemma pairs_lookup {B} (g h : nat -> B) n k i :
  (i < n)%nat ->
  flat_map (fun j => [g j; h j]) (seq k n) !! (2 * i)%nat = Some (g (k + i)%nat) /\
  flat_map (fun j => [g j; h j]) (seq k n) !! (2 * i + 1)%nat = Some (h (k + i)%nat).
Proof.
  revert k i. induction n as [|n IH]; intros k i Hi; [lia|].
  destruct i as [|i].
  - rewrite Nat.add_0_r. split; reflexivity.
  - replace (2 * S i)%nat with (S (S (2 * i))) by lia.
    replace (k + S i)%nat with (S k + i)%nat by lia.
    cbn [seq flat_map app Nat.add lookup list_lookup].
    apply IH. lia.
Qed.

Lemma pairs_length {B} (g h : nat -> B) n k :
  length (flat_map (fun j => [g j; h j]) (seq k n)) = (2 * n)%nat.
Proof.
  revert k. induction n as [|n IH]; intros k; [reflexivity|].
  cbn [seq flat_map app length]. rewrite IH. lia.
Qed.


Lemma rows_lookup {B} (row : nat -> list B) n m k i p :
  (forall r, length (row r) = n) ->
  (i < m)%nat -> (p < n)%nat ->
  flat_map row (seq k m) !! (i * n + p)%nat = row (k + i)%nat !! p.
Proof.
  intros Hrow. revert k i. induction m as [|m IH]; intros k i Hi Hp; [lia|].
  cbn [seq flat_map]. destruct i as [|i].
  - rewrite Nat.add_0_r. simpl. apply lookup_app_l. rewrite Hrow. exact Hp.
  - rewrite lookup_app_r by (rewrite Hrow; lia).
    rewrite Hrow. replace (S i * n + p - n)%nat with (i * n + p)%nat by lia.
    replace (k + S i)%nat with (S k + i)%nat by lia.
    apply IH; lia.
Qed.

Lemma sync_candidates_order ntokens steps i j :
  (i <= steps)%nat -> (j < ntokens)%nat ->
  sync_candidates ntokens steps !! (2 * (i * ntokens + j))%nat
    = Some (j, Z.of_nat i) /\
  sync_candidates ntokens steps !! (2 * (i * ntokens + j) + 1)%nat
    = Some (j, - Z.of_nat i).
Proof.
  intros Hi Hj. unfold sync_candidates.
  set (row := fun i : nat =>
         flat_map (fun j : nat => [(j, Z.of_nat i); (j, 0 - Z.of_nat i)])
                  (seq 0 ntokens)).
  assert (Hrow : forall r, length (row r) = (2 * ntokens)%nat).
  { intros r. apply pairs_length. }
  replace (2 * (i * ntokens + j))%nat with (i * (2 * ntokens) + 2 * j)%nat by lia.
  replace (i * (2 * ntokens) + 2 * j + 1)%nat
    with (i * (2 * ntokens) + (2 * j + 1))%nat by lia.
  rewrite !(rows_lookup row (2 * ntokens) (S steps) 0 i) by (try exact Hrow; lia).
  apply (pairs_lookup (fun j => (j, Z.of_nat i)) (fun j => (j, 0 - Z.of_nat i))
           ntokens 0 j Hj).
Qed.

End SweepOrder.

Section SweepClaims.

Variable hotp : hotp_token -> Z -> option Z.

Lemma otptoken_sync_loop_sweep n k tokens now c1 c2 w :
  otptoken_sync_loop hotp n (Z.of_nat k) tokens now c1 c2 w =
  first_success
    (spec_sync_attempt hotp tokens now c1 c2
       <$> flat_map
             (fun i => flat_map (fun j => [(j, Z.of_nat i); (j, 0 - Z.of_nat i)])
                                (seq 0 (length tokens)))
             (seq k (S n))) w.
Proof.
  revert k w. induction n as [|n IH]; intros k w.
  - cbn [otptoken_sync_loop seq flat_map]. rewrite app_nil_r.
    unfold orelse, fail.
    rewrite (otptoken_sync_tokens_sweep hotp now (Z.of_nat k) c1 c2 tokens tokens 0 w)
      by reflexivity.
    destruct (first_success _ w) as [[a|] w1]; reflexivity.
  - change (seq k (S (S n))) with (k :: seq (S k) (S n)).
    cbn [otptoken_sync_loop flat_map]. rewrite fmap_app, first_success_app.
    unfold orelse.
    rewrite (otptoken_sync_tokens_sweep hotp now (Z.of_nat k) c1 c2 tokens tokens 0 w)
      by reflexivity.
    destruct (first_success _ w) as [[a|] w1]; [reflexivity|].
    replace (Z.of_nat k + 1) with (Z.of_nat (S k)) by lia.
    apply IH.
Qed.

Lemma otptoken_validate_entry tok steps code w :
  otptoken_validate hotp (Some tok) steps code w =
  if is_totp tok && (w_time w =? -1) then (None, w)
  else spec_validate_sweep hotp tok (request_now tok w) steps code w.
Proof.
  unfold otptoken_validate, spec_validate_sweep, sweep_offsets, request_now, is_totp.
  unfold bind, lift, ret, time, guard, fail.
  destruct (type tok) as [|wm tstep off|c]; simpl.
  - apply (otptoken_validate_loop_sweep hotp steps 0).
  - destruct (w_time w =? -1); simpl; [reflexivity|].
    apply (otptoken_validate_loop_sweep hotp steps 0).
  - apply (otptoken_validate_loop_sweep hotp steps 0).
Qed.

Lemma otptoken_sync_entry tokens steps c1 c2 w :
  otptoken_sync hotp (Some tokens) steps c1 c2 w =
  if w_time w =? -1 then (None, w)
  else spec_sync_sweep hotp tokens (w_time w) steps c1 c2 w.
Proof.
  unfold otptoken_sync, spec_sync_sweep, sync_candidates.
  unfold bind, lift, ret, time, guard, fail. simpl.
  destruct (w_time w =? -1); simpl; [reflexivity|].
  apply (otptoken_sync_loop_sweep steps 0).
Qed.

(** Codes that match and writes that are accepted make [validate] return
    true. *)
Lemma validate_commit tok now d first second w :
  match second with
  | None => code_matches hotp tok now d first = true
  | Some sec => codes_match hotp tok now d first sec = true
  end ->
  commit_ok tok second w = true ->
  exists tok' w', validate hotp tok now d first second w = (Some tok', w').
Proof.
  unfold commit_ok, is_totp. intros Hm Hok.
  apply andb_true_iff in Hok as [Hok1 Hok2].
  destruct second as [sec|].
  - destruct (codes_match_inv hotp _ _ _ _ _ Hm) as (attr & s & Habs & _).
    rewrite (validate_double_match hotp _ _ _ _ _ _ _ _ Habs Hm).
    cbv zeta. unfold sync_offset.
    destruct (type tok) as [|wm tstep off|c] eqn:Hty.
    + unfold absolute_step in Habs. rewrite Hty in Habs. discriminate.
    + simpl in Hok2.
      destruct (writeattr_ok tok (T "clockOffset")
                  (to_int (to_uint32 (to_ssize
                     (to_ssize (to_ssize (to_ssize (s + 1) + 1) - now ÷ tstep) * tstep))))
                  w Hok1) as (e & He & ->).
      set (w1 := after_write w _).
      assert (Hok' : write_ok w1 (sdn tok) = true).
      { unfold write_ok. subst w1. simpl. rewrite Hok2. simpl.
        apply bool_decide_eq_true. rewrite lookup_insert_eq. eauto. }
      destruct (writeattr_ok tok attr (to_int (to_ssize (to_ssize (s + 1) + 1)))
                  w1 Hok') as (e1 & _ & ->).
      eauto.
    + unfold ret.
      destruct (writeattr_ok tok attr (to_int (to_ssize (to_ssize (s + 1) + 1)))
                  w Hok1) as (e1 & _ & ->).
      eauto.
  - destruct (code_matches_inv hotp _ _ _ _ Hm) as (attr & s & Habs & _).
    rewrite (validate_single_match hotp _ _ _ _ _ _ _ Habs Hm).
    destruct (writeattr_ok tok attr (to_int (to_ssize (s + 1))) w Hok1)
      as (e1 & _ & ->).
    eauto.
Qed.


End SweepClaims.

Section SyncClaims.

Variable hotp : hotp_token -> Z -> option Z.

Lemma spec_sync_attempt_nomatch tokens now c1 c2 c w :
  (forall t', tokens !! c.1 = Some t' -> codes_match hotp t' now c.2 c1 c2 = false) ->
  spec_sync_attempt hotp tokens now c1 c2 c w = (None, w).
Proof.
  intros Hc. unfold spec_sync_attempt.
  destruct (tokens !! c.1) as [t'|]; [|reflexivity].
  unfold bind. rewrite validate_double_nomatch by (apply Hc; reflexivity).
  reflexivity.
Qed.

End SyncClaims.

(** ** The guards (claims C2 and C3) *)

Section Guards.

Variable hotp : hotp_token -> Z -> option Z.

Lemma absolute_step_totp tok wm tstep off now d attr s :
  type tok = OTPTOKEN_TOTP wm tstep off ->
  absolute_step tok now d = Some (attr, s) ->
  attr = T "watermark" /\
  s = to_ssize (to_ssize (now + off) ÷ tstep + d) /\
  (0 < wm -> wm <= to_uint64 s).
Proof.
  unfold absolute_step. intros ->.
  set (s0 := to_ssize (to_ssize (now + off) ÷ tstep + d)).
  destruct (0 <? wm) eqn:Hpos; cbn [andb].
  - destruct (to_uint64 s0 <? wm) eqn:Hlt; [discriminate|].
    intros Heq. inversion Heq; subst. repeat split. lia.
  - intros Heq. inversion Heq; subst. repeat split. lia.
Qed.

Lemma absolute_step_hotp tok c now d attr s :
  type tok = OTPTOKEN_HOTP c ->
  absolute_step tok now d = Some (attr, s) ->
  attr = H "counter" /\ 0 <= d /\
  s = to_ssize (to_uint64 (c + to_uint64 d)).
Proof.
  unfold absolute_step. intros ->.
  destruct (d <? 0) eqn:Hneg; [discriminate|].
  intros Heq. inversion Heq; subst. repeat split. lia.
Qed.

Lemma cursor_save_step tok s :
  type tok <> OTPTOKEN_NONE -> cursor (save_step tok s) = Some (to_uint64 s).
Proof.
  unfold cursor, save_step. simpl. destruct (type tok); [congruence | |]; reflexivity.
Qed.

Lemma validate_sweep_some tok now code ds w tok' w' :
  first_success ((fun d => validate hotp tok now d code None) <$> ds) w
    = (Some tok', w') ->
  exists d w1, d ∈ ds /\ w_time w1 = w_time w /\
    validate hotp tok now d code None w1 = (Some tok', w').
Proof.
  revert w. induction ds as [|d ds IH]; intros w; simpl; [discriminate|].
  unfold orelse.
  destruct (validate hotp tok now d code None w) as [[a|] w1] eqn:Hv.
  - intros Heq. inversion Heq; subst. exists d, w.
    split; [left | split; [reflexivity | exact Hv]].
  - intros Hrest. apply validate_failure_inv in Hv as [Ht _].
    destruct (IH _ Hrest) as (d' & w2 & Hin & Ht2 & Hv2).
    exists d', w2. split; [right; exact Hin | split; [congruence | exact Hv2]].
Qed.

(** Every success of the single-code sweep is a success of [validate] at
    one of its offsets. *)
Lemma otptoken_validate_some tok steps code w tok' w' :
  otptoken_validate hotp (Some tok) steps code w = (Some tok', w') ->
  exists d w1, d ∈ sweep_offsets steps /\ w_time w1 = w_time w /\
    validate hotp tok (request_now tok w) d code None w1 = (Some tok', w').
Proof.
  rewrite otptoken_validate_entry.
  destruct (is_totp tok && (w_time w =? -1)); [discriminate|].
  apply validate_sweep_some.
Qed.

Lemma sweep_offsets_bound steps d :
  d ∈ sweep_offsets steps -> - Z.of_nat steps <= d <= Z.of_nat steps.
Proof.
  unfold sweep_offsets. rewrite list_elem_of_In, in_flat_map.
  intros (i & Hi & Hd). apply in_seq in Hi.
  destruct Hd as [<- | [<- | []]]; lia.
Qed.


Lemma to_ssize_range z :
  -9223372036854775808 <= to_ssize z < 9223372036854775808.
Proof.
  unfold to_ssize.
  pose proof (Z.mod_pos_bound (z + 9223372036854775808) 18446744073709551616
                ltac:(lia)). lia.
Qed.


(** C2, as amended.  For an HOTP token a negative offset is refused before
    any code is generated, whatever the generator.  When the counter [c]
    and the offset stay clear of the 64-bit limit, a call of [validate]
    that returns true was made at an offset [d >= 0], its accepted step is
    [c + d >= c], and the counter of the token is then [c + d + 1]
    ([c + d + 2] in two-code mode), above [c]; the same holds of a success
    of the sweep of [otptoken_validate].  What is written to the store is
    the new counter as a 32-bit signed integer: the new counter itself as
    long as it is at most [INT_MAX]. *)
Theorem hotp_counter_monotone tok c :
  type tok = OTPTOKEN_HOTP c ->
  (forall now d first second w,
     d < 0 -> validate hotp tok now d first second w = (None, w)) /\
  (forall now d first second w tok' w',
     0 <= c -> c + d + 2 < 9223372036854775808 ->
     validate hotp tok now d first second w = (Some tok', w') ->
     0 <= d /\
     absolute_step tok now d = Some (H "counter", c + d) /\
     hotp (token tok) (c + d) = Some first /\
     exists c', c' = c + d + match second with Some _ => 2 | None => 1 end /\
                c < c' /\
                type tok' = OTPTOKEN_HOTP c' /\
                stored_int w' (sdn tok) (H "counter") = Some (to_int c') /\
                (c' <= INT_MAX ->
                 stored_int w' (sdn tok) (H "counter") = Some c')) /\
  (forall steps code w tok' w',
     0 <= c -> c + Z.of_nat steps + 2 < 9223372036854775808 ->
     otptoken_validate hotp (Some tok) steps code w = (Some tok', w') ->
     exists c', c < c' /\ type tok' = OTPTOKEN_HOTP c' /\
                hotp (token tok) (c' - 1) = Some code /\
                stored_int w' (sdn tok) (H "counter") = Some (to_int c') /\
                (c' <= INT_MAX ->
                 stored_int w' (sdn tok) (H "counter") = Some c')).
Proof.
  intros Hty.
  assert (Hneg : forall now d first second w,
            d < 0 -> validate hotp tok now d first second w = (None, w)).
  { intros now d first second w Hd.
    assert (Habs : absolute_step tok now d = None).
    { unfold absolute_step. rewrite Hty.
      replace (d <? 0) with true by (symmetry; apply Z.ltb_lt; exact Hd).
      reflexivity. }
    destruct second as [sec|].
    - apply validate_double_nomatch. unfold codes_match. rewrite Habs. reflexivity.
    - apply validate_single_nomatch. unfold code_matches. rewrite Habs. reflexivity. }
  assert (Hpos : forall now d first second w tok' w',
     0 <= c -> c + d + 2 < 9223372036854775808 ->
     validate hotp tok now d first second w = (Some tok', w') ->
     0 <= d /\
     absolute_step tok now d = Some (H "counter", c + d) /\
     hotp (token tok) (c + d) = Some first /\
     exists c', c' = c + d + match second with Some _ => 2 | None => 1 end /\
                c < c' /\
                type tok' = OTPTOKEN_HOTP c' /\
                stored_int w' (sdn tok) (H "counter") = Some (to_int c') /\
                (c' <= INT_MAX ->
                 stored_int w' (sdn tok) (H "counter") = Some c')).
  { intros now d first second w tok' w' Hc Hmax Hv.
    destruct (validate_success_inv hotp _ _ _ _ _ _ _ _ Hv)
      as (attr & s & e & Habs & He & Hcode & _ & Hrest).
    destruct (absolute_step_hotp _ _ _ _ _ _ Hty Habs) as (-> & Hd & Hs).
    assert (Hs' : s = c + d).
    { rewrite Hs, (to_uint64_small d), to_uint64_small, to_ssize_small; lia. }
    clear Hs. subst s.
    rewrite to_uint64_small in Hcode by lia.
    split; [exact Hd|]. split; [exact Habs|]. split; [exact Hcode|].
    destruct second as [sec|].
    - cbv zeta in Hrest. destruct Hrest as (_ & -> & Hstore).
      rewrite (to_ssize_small (c + d + 1)) in * by lia.
      rewrite (to_ssize_small (c + d + 1 + 1)) in * by lia.
      replace (c + d + 1 + 1) with (c + d + 2) in * by lia.
      exists (c + d + 2). split; [reflexivity|]. split; [lia|]. split; [|split].
      + unfold save_step. simpl. rewrite Hty. f_equal.
        rewrite to_uint64_small; lia.
      + exact (stored_int_set_same _ _ _ _ _ _ Hstore).
      + intros Hfit. rewrite (stored_int_set_same _ _ _ _ _ _ Hstore). f_equal.
        apply to_int_small. lia.
    - destruct Hrest as (-> & Hstore).
      rewrite (to_ssize_small (c + d + 1)) in * by lia.
      exists (c + d + 1). split; [reflexivity|]. split; [lia|]. split; [|split].
      + unfold save_step. simpl. rewrite Hty. f_equal.
        rewrite to_uint64_small; lia.
      + exact (stored_int_set_same _ _ _ _ _ _ Hstore).
      + intros Hfit. rewrite (stored_int_set_same _ _ _ _ _ _ Hstore). f_equal.
        apply to_int_small. lia. }
  split; [exact Hneg|]. split; [exact Hpos|].
  intros steps code w tok' w' Hc Hmax Hv.
  destruct (otptoken_validate_some _ _ _ _ _ _ Hv) as (d & w1 & Hin & _ & Hv1).
  apply sweep_offsets_bound in Hin.
  assert (Hmax' : c + d + 2 < 9223372036854775808) by lia.
  destruct (Hpos _ _ _ _ _ _ _ Hc Hmax' Hv1)
    as (Hd & _ & Hcode & c' & -> & Hlt & Hty' & Hst & Hfit).
  exists (c + d + 1). repeat split; auto.
  replace (c + d + 1 - 1) with (c + d) by lia. exact Hcode.
Qed.

End Guards.

(** ** Resynchronisation and the round trip (claims C4 and C5) *)

Section Resync.

Variable hotp : hotp_token -> Z -> option Z.

Lemma to_int_shift y k : to_int (y + k * 4294967296) = to_int y.
Proof.
  unfold to_int.
  replace (y + k * 4294967296 + 2147483648)
    with (y + 2147483648 + k * 4294967296) by lia.
  rewrite Z_mod_plus_full. reflexivity.
Qed.

Lemma to_ssize_shift x : exists k, to_ssize x = x + k * 4294967296.
Proof.
  unfold to_ssize.
  exists (- ((x + 9223372036854775808) / 18446744073709551616) * 4294967296).
  pose proof (Z.div_mod (x + 9223372036854775808) 18446744073709551616) as Hdm.
  lia.
Qed.

(** The clock offset as [writeattr] receives it depends on the product
    modulo 2^32 only. *)
Lemma to_int_clock_offset a t :
  to_int (to_uint32 (to_ssize (to_ssize a * t))) = to_int (a * t).
Proof.
  rewrite to_int_to_uint32.
  destruct (to_ssize_shift (to_ssize a * t)) as [k1 ->].
  rewrite to_int_shift.
  destruct (to_ssize_shift a) as [k2 ->].
  replace ((a + k2 * 4294967296) * t) with (a * t + (k2 * t) * 4294967296) by lia.
  apply to_int_shift.
Qed.

Lemma attr_names_differ :
  T "clockOffset" <> T "watermark" /\ T "clockOffset" <> H "counter".
Proof. split; discriminate. Qed.

(** C5, as amended.  A call of [validate] in two-code mode that returns
    true at the candidate step [s] found the first code at [s] and the
    second at [s + 1], and the cursor of the token is then [s + 2] (for
    [s >= 0] clear of the 64-bit limit).  What is written to the store is
    [s + 2] as a 32-bit signed integer, [s + 2] itself as long as it is at
    most [INT_MAX]; for a TOTP token the clock offset written is
    [(s + 2 - now / step) * step] as a 32-bit signed integer, with C's
    truncating quotient, which is the floor when [now >= 0]. *)
Theorem resync_commit tok now d first sec w tok' w' attr s :
  absolute_step tok now d = Some (attr, s) ->
  validate hotp tok now d first (Some sec) w = (Some tok', w') ->
  0 <= s -> s + 2 < 9223372036854775808 ->
  hotp (token tok) s = Some first /\
  hotp (token tok) (s + 1) = Some sec /\
  cursor tok' = Some (s + 2) /\
  stored_int w' (sdn tok) attr = Some (to_int (s + 2)) /\
  (s + 2 <= INT_MAX -> stored_int w' (sdn tok) attr = Some (s + 2)) /\
  (forall wm tstep off,
     type tok = OTPTOKEN_TOTP wm tstep off ->
     attr = T "watermark" /\
     stored_int w' (sdn tok) (T "clockOffset")
       = Some (to_int ((s + 2 - now ÷ tstep) * tstep)) /\
     (0 <= now -> 0 < tstep ->
      -2147483648 <= (s + 2 - now / tstep) * tstep <= INT_MAX ->
      stored_int w' (sdn tok) (T "clockOffset")
        = Some ((s + 2 - now / tstep) * tstep))) /\
  (forall c,
     type tok = OTPTOKEN_HOTP c ->
     attr = H "counter" /\
     stored_int w' (sdn tok) (T "clockOffset") = stored_int w (sdn tok) (T "clockOffset")).
Proof.
  intros Habs Hv Hs Hmax.
  destruct (validate_success_inv hotp _ _ _ _ _ _ _ _ Hv)
    as (attr' & s' & e & Habs' & He & Hcode & _ & Hrest).
  rewrite Habs in Habs'. inversion Habs'; subst attr' s'. clear Habs'.
  cbv zeta in Hrest. destruct Hrest as (Hcode2 & -> & Hstore).
  rewrite (to_ssize_small (s + 1)) in * by lia.
  rewrite (to_ssize_small (s + 1 + 1)) in * by lia.
  rewrite to_uint64_small in Hcode, Hcode2 by lia.
  replace (s + 1 + 1) with (s + 2) in * by lia.
  split; [exact Hcode|]. split; [exact Hcode2|].
  assert (Hnone : type tok <> OTPTOKEN_NONE).
  { intros Hn. unfold absolute_step in Habs. rewrite Hn in Habs. discriminate. }
  split; [rewrite cursor_save_step by exact Hnone; f_equal; apply to_uint64_small; lia|].
  split; [eapply stored_int_set_same; exact Hstore|].
  split.
  { intros Hfit. rewrite (stored_int_set_same _ _ _ _ _ _ Hstore). f_equal.
    apply to_int_small. lia. }
  split.
  - intros wm tstep off Hty.
    destruct (absolute_step_totp _ _ _ _ _ _ _ _ Hty Habs) as (-> & _ & _).
    split; [reflexivity|].
    rewrite Hty in Hstore.
    assert (Hoff : stored_int w' (sdn tok) (T "clockOffset")
                   = Some (to_int ((s + 2 - now ÷ tstep) * tstep))).
    { unfold stored_int. rewrite Hstore, lookup_insert_eq. simpl.
      rewrite lookup_insert_ne by (apply not_eq_sym, attr_names_differ).
      rewrite lookup_insert_eq. f_equal. apply to_int_clock_offset. }
    split; [exact Hoff|].
    intros Hnow Htstep Hrange. rewrite Hoff. f_equal.
    rewrite quot_is_floor by lia. apply to_int_small. lia.
  - intros c Hty.
    destruct (absolute_step_hotp _ _ _ _ _ _ Hty Habs) as (-> & _ & _).
    split; [reflexivity|].
    rewrite Hty in Hstore.
    eapply stored_int_set_other; [apply attr_names_differ | exact He | exact Hstore].
Qed.

End Resync.

Section RoundTrip.

Variable hotp : hotp_token -> Z -> option Z.

Lemma code_matches_false_intro tok now d code :
  (forall attr s, absolute_step tok now d = Some (attr, s) ->
                  hotp (token tok) (to_uint64 s) <> Some code) ->
  code_matches hotp tok now d code = false.
Proof.
  intros Hno. unfold code_matches.
  destruct (absolute_step tok now d) as [[attr s]|]; [|reflexivity].
  specialize (Hno attr s eq_refl).
  destruct (hotp (token tok) (to_uint64 s)) as [tmp|]; [|reflexivity].
  apply Z.eqb_neq. congruence.
Qed.

Lemma otptoken_validate_zero_nomatch tok code w :
  code_matches hotp tok (request_now tok w) 0 code = false ->
  otptoken_validate hotp (Some tok) 0 code w = (None, w).
Proof.
  intros Hm. rewrite otptoken_validate_entry.
  destruct (is_totp tok && (w_time w =? -1)); [reflexivity|].
  unfold spec_validate_sweep. change (sweep_offsets 0) with [0; 0].
  cbn [fmap list_fmap first_success]. unfold orelse, fail.
  rewrite !validate_single_nomatch by exact Hm. reflexivity.
Qed.

(** The round trip from the step that the first [switch] yields for
    offset 0. *)
Lemma baseline_roundtrip_at_step tok w code attr B :
  absolute_step tok (request_now tok w) 0 = Some (attr, B) ->
  hotp (token tok) (to_uint64 B) = Some code ->
  is_totp tok && (w_time w =? -1) = false ->
  write_ok w (sdn tok) = true ->
  0 <= B -> B + 1 < 9223372036854775808 ->
  exists tok' w',
    otptoken_validate hotp (Some tok) 0 code w = (Some tok', w') /\
    cursor tok' = Some (B + 1) /\
    stored_int w' (sdn tok) attr = Some (to_int (B + 1)) /\
    (B + 1 <= INT_MAX -> stored_int w' (sdn tok) attr = Some (B + 1)) /\
    (is_totp tok = true ->
       otptoken_validate hotp (Some tok') 0 code w' = (None, w')) /\
    (is_totp tok = false -> hotp (token tok) (B + 1) <> Some code ->
       otptoken_validate hotp (Some tok') 0 code w' = (None, w')).
Proof.
  intros Habs Hcode Htime Hok HB Hmax.
  pose proof (code_matches_intro hotp _ _ _ _ _ _ Habs Hcode) as Hm.
  destruct (writeattr_ok tok attr (to_int (to_ssize (B + 1))) w Hok)
    as (e & He & Hw).
  rewrite (to_ssize_small (B + 1)) in Hw by lia.
  set (w1 := after_write w
               (<[sdn tok := entry_set_int e attr (to_int (B + 1))]> (w_store w))) in *.
  exists (save_step tok (B + 1)), w1.
  assert (Hnone : type tok <> OTPTOKEN_NONE).
  { intros Hn. unfold absolute_step in Habs. rewrite Hn in Habs. discriminate. }
  assert (Hst : stored_int w1 (sdn tok) attr = Some (to_int (B + 1))).
  { apply (stored_int_set_same w w1 (sdn tok) attr e (to_int (B + 1))). reflexivity. }
  split; [|split; [|split; [|split; [|split]]]].
  - rewrite otptoken_validate_entry, Htime.
    unfold spec_validate_sweep. change (sweep_offsets 0) with [0; 0].
    cbn [fmap list_fmap first_success]. unfold orelse.
    rewrite (validate_single_match hotp _ _ _ _ _ _ _ Habs Hm).
    rewrite (to_ssize_small (B + 1)) by lia.
    rewrite Hw. reflexivity.
  - rewrite cursor_save_step by exact Hnone. f_equal. apply to_uint64_small. lia.
  - exact Hst.
  - intros Hfit. rewrite Hst. f_equal. apply to_int_small. lia.
  - intros Htotp. apply otptoken_validate_zero_nomatch.
    unfold is_totp in Htotp.
    destruct (type tok) as [|wm tstep off|c] eqn:Hty; try discriminate.
    destruct (absolute_step_totp _ _ _ _ _ _ _ _ Hty Habs) as (_ & HBeq & _).
    unfold request_now in HBeq. rewrite Hty in HBeq.
    unfold code_matches, absolute_step, request_now, save_step. simpl.
    rewrite Hty. simpl. rewrite <- HBeq.
    rewrite (to_uint64_small (B + 1)), (to_uint64_small B) by lia.
    replace (0 <? B + 1) with true by (symmetry; apply Z.ltb_lt; lia).
    replace (B <? B + 1) with true by (symmetry; apply Z.ltb_lt; lia).
    reflexivity.
  - intros Htotp Hnext. apply otptoken_validate_zero_nomatch.
    apply code_matches_false_intro. intros attr' s' Habs'.
    unfold is_totp in Htotp.
    destruct (type tok) as [|wm tstep off|c] eqn:Hty; try discriminate;
      [congruence|].
    assert (Hty' : type (save_step tok (B + 1)) = OTPTOKEN_HOTP (B + 1)).
    { unfold save_step. simpl. rewrite Hty. f_equal. apply to_uint64_small. lia. }
    destruct (absolute_step_hotp _ _ _ _ _ _ Hty' Habs') as (_ & _ & ->).
    change (to_uint64 0) with 0. rewrite Z.add_0_r.
    rewrite to_uint64_to_ssize, !(to_uint64_small (B + 1)) by lia.
    exact Hnext.
Qed.

Lemma baseline_hotp tok c now :
  type tok = OTPTOKEN_HOTP c -> 0 <= c < 9223372036854775808 ->
  baseline tok now = c.
Proof.
  intros Hty Hc. unfold baseline. rewrite Hty.
  change (to_uint64 0) with 0. rewrite Z.add_0_r.
  rewrite to_uint64_small, to_ssize_small; lia.
Qed.

Lemma baseline_totp tok wm ts off now :
  type tok = OTPTOKEN_TOTP wm ts off ->
  0 < ts -> 0 <= now + off < 9223372036854775808 ->
  baseline tok now = (now + off) / ts.
Proof.
  intros Hty Hts Hno. unfold baseline. rewrite Hty.
  rewrite (to_ssize_small (now + off)), quot_is_floor, Z.add_0_r by lia.
  assert (0 <= (now + off) / ts) by (apply Z.div_pos; lia).
  assert ((now + off) / ts <= now + off)
    by (apply Z.div_le_upper_bound; [lia | nia]).
  apply to_ssize_small. lia.
Qed.

(** The guard of the token's type lets the baseline step through: always
    for an HOTP token, and for a TOTP token when the watermark is 0 or at
    most the baseline. *)
Lemma baseline_passes_guard tok now :
  match type tok with
  | OTPTOKEN_TOTP wm _ _ => wm = 0 \/ wm <= baseline tok now
  | OTPTOKEN_HOTP _ => True
  | OTPTOKEN_NONE => False
  end ->
  0 <= baseline tok now ->
  absolute_step tok now 0 = Some (cursor_attr tok, baseline tok now).
Proof.
  unfold absolute_step, baseline, cursor_attr.
  destruct (type tok) as [|wm ts off|c]; [intros []| |].
  - set (B := to_ssize (to_ssize (now + off) ÷ ts + 0)). intros Hwm HB.
    pose proof (to_ssize_range (to_ssize (now + off) ÷ ts + 0)) as Hr.
    fold B in Hr.
    replace ((0 <? wm) && (to_uint64 B <? wm)) with false; [reflexivity|].
    symmetry. rewrite (to_uint64_small B) by lia.
    destruct Hwm as [-> | Hle]; [reflexivity|].
    apply andb_false_iff. right. apply Z.ltb_ge. exact Hle.
  - intros _ _. reflexivity.
Qed.

(** C4, as amended.  The baseline step [B] of a token is its counter for an
    HOTP token and [(now + offset) / step] for a TOTP token (values within
    64 bits).  Let [B] pass the guard of the token's type: always for an
    HOTP token, for a TOTP token when the watermark is 0 or at most [B].
    When the store accepts the write and [B >= 0] is clear of the 64-bit
    limit, the code generated at [B] validates in single-code mode with
    [steps = 0] and the cursor of the token is [B + 1]; the store receives
    [B + 1] as a 32-bit signed integer, [B + 1] itself as long as it is at
    most [INT_MAX].  The same code presented again to the updated token is
    then refused: for a TOTP token at the same instant, by the watermark;
    for an HOTP token, provided the generator does not yield this very code
    at step [B + 1] as well. *)
Theorem baseline_code_roundtrip tok w code :
  let B := baseline tok (request_now tok w) in
  (forall c, type tok = OTPTOKEN_HOTP c -> 0 <= c < 9223372036854775808 -> B = c) /\
  (forall wm ts off,
     type tok = OTPTOKEN_TOTP wm ts off ->
     0 < ts -> 0 <= w_time w + off < 9223372036854775808 ->
     B = (w_time w + off) / ts) /\
  (match type tok with
   | OTPTOKEN_TOTP wm _ _ => wm = 0 \/ wm <= B
   | OTPTOKEN_HOTP _ => True
   | OTPTOKEN_NONE => False
   end ->
   hotp (token tok) (to_uint64 B) = Some code ->
   is_totp tok && (w_time w =? -1) = false ->
   write_ok w (sdn tok) = true ->
   0 <= B -> B + 1 < 9223372036854775808 ->
   exists tok' w',
     otptoken_validate hotp (Some tok) 0 code w = (Some tok', w') /\
     cursor tok' = Some (B + 1) /\
     stored_int w' (sdn tok) (cursor_attr tok) = Some (to_int (B + 1)) /\
     (B + 1 <= INT_MAX ->
      stored_int w' (sdn tok) (cursor_attr tok) = Some (B + 1)) /\
     (is_totp tok = true ->
        otptoken_validate hotp (Some tok') 0 code w' = (None, w')) /\
     (is_totp tok = false -> hotp (token tok) (B + 1) <> Some code ->
        otptoken_validate hotp (Some tok') 0 code w' = (None, w'))).
Proof.
  intros B. split; [|split].
  - intros c Hty Hc. apply (baseline_hotp tok c _ Hty Hc).
  - intros wm ts off Hty Hts Hno. subst B. unfold request_now. rewrite Hty.
    apply (baseline_totp tok wm ts off _ Hty Hts Hno).
  - intros Hguard Hcode Htime Hok HB Hmax.
    pose proof (baseline_passes_guard tok (request_now tok w) Hguard HB) as Habs.
    exact (baseline_roundtrip_at_step tok w code (cursor_attr tok) B
             Habs Hcode Htime Hok HB Hmax).
Qed.

End RoundTrip.

(** * The statements on sample data *)

Section Samples.

Ltac by_computation := vm_compute; reflexivity.

(** C1 as the design document states it fails: the codes match, the clock
    offset is written, the watermark write is refused; the call returns
    false and the stored clock offset has changed from 0 to 60. *)
Lemma failed_commit_leaves_offset :
  (validate hotp_demo (demo_totp 0 30 0) 1000 0 123687 (Some 123694)
     world_second_write_fails).1 = None /\
  stored_int world_second_write_fails demo_dn_totp (T "clockOffset") = Some 0 /\
  stored_int
    (validate hotp_demo (demo_totp 0 30 0) 1000 0 123687 (Some 123694)
       world_second_write_fails).2 demo_dn_totp (T "clockOffset") = Some 60.
Proof. repeat split; by_computation. Qed.

Lemma failed_commit_store_witness :
  validate hotp_demo (demo_totp 0 30 0) 1000 0 123687 (Some 123694)
    world_second_write_fails
  = (None,
     (validate hotp_demo (demo_totp 0 30 0) 1000 0 123687 (Some 123694)
        world_second_write_fails).2) /\
  (forall dn, dn <> demo_dn_totp ->
     w_store (validate hotp_demo (demo_totp 0 30 0) 1000 0 123687 (Some 123694)
                world_second_write_fails).2 !! dn
     = w_store world_second_write_fails !! dn) /\
  (forall attr, attr <> T "clockOffset" ->
     stored_int
       (validate hotp_demo (demo_totp 0 30 0) 1000 0 123687 (Some 123694)
          world_second_write_fails).2 demo_dn_totp attr
     = stored_int world_second_write_fails demo_dn_totp attr).
Proof.
  assert (Hrun : validate hotp_demo (demo_totp 0 30 0) 1000 0 123687 (Some 123694)
                   world_second_write_fails
                 = (None,
                    (validate hotp_demo (demo_totp 0 30 0) 1000 0 123687
                       (Some 123694) world_second_write_fails).2))
    by by_computation.
  split; [exact Hrun|].
  destruct (failed_commit_store hotp_demo _ _ _ _ _ _ _ _ Hrun) as [_ Hfail].
  destruct (Hfail eq_refl) as (_ & Hother & Hattr).
  split; [exact Hother | exact Hattr].
Defined.

(** C2 as stated fails at the top of the 32-bit range: the token is the
    one [otptoken_new] builds from the entry, the code of step 2147483647
    validates, and the stored counter goes from 2147483647 to
    -2147483648. *)
Lemma hotp_counter_wraps :
  otptoken_new (demo_hotp_entry 2147483647) = Some (demo_hotp 2147483647) /\
  stored_int (world_hotp_at 2147483647) demo_dn_hotp (H "counter")
    = Some 2147483647 /\
  (otptoken_validate hotp_demo (Some (demo_hotp 2147483647)) 0 508985
     (world_hotp_at 2147483647)).1 = Some (demo_hotp 2147483648) /\
  stored_int
    (otptoken_validate hotp_demo (Some (demo_hotp 2147483647)) 0 508985
       (world_hotp_at 2147483647)).2 demo_dn_hotp (H "counter")
    = Some (-2147483648).
Proof. repeat split; by_computation. Qed.

Lemma hotp_counter_monotone_witness :
  type (demo_hotp 5) = OTPTOKEN_HOTP 5 /\
  validate hotp_demo (demo_hotp 5) 0 2 123505 None world_fresh
    = (Some (demo_hotp 8),
       (validate hotp_demo (demo_hotp 5) 0 2 123505 None world_fresh).2) /\
  validate hotp_demo (demo_hotp 5) 0 (-1) 123505 None world_fresh
    = (None, world_fresh) /\
  hotp_demo demo_secret (5 + 2) = Some 123505 /\
  exists c', c' = 5 + 2 + 1 /\ 5 < c' /\
    type (demo_hotp 8) = OTPTOKEN_HOTP c' /\
    stored_int (validate hotp_demo (demo_hotp 5) 0 2 123505 None world_fresh).2
      demo_dn_hotp (H "counter") = Some (to_int c') /\
    (c' <= INT_MAX ->
     stored_int (validate hotp_demo (demo_hotp 5) 0 2 123505 None world_fresh).2
       demo_dn_hotp (H "counter") = Some c').
Proof.
  assert (Hty : type (demo_hotp 5) = OTPTOKEN_HOTP 5) by reflexivity.
  assert (Hrun : validate hotp_demo (demo_hotp 5) 0 2 123505 None world_fresh
                 = (Some (demo_hotp 8),
                    (validate hotp_demo (demo_hotp 5) 0 2 123505 None
                       world_fresh).2))
    by by_computation.
  destruct (hotp_counter_monotone hotp_demo (demo_hotp 5) 5 Hty)
    as (Hneg & Hpos & _).
  split; [exact Hty|]. split; [exact Hrun|].
  split; [apply Hneg; lia|].
  assert (H0 : 0 <= 5) by lia.
  assert (H1 : 5 + 2 + 2 < 9223372036854775808) by lia.
  destruct (Hpos _ _ _ _ _ _ _ H0 H1 Hrun) as (_ & _ & Hcode & Hex).
  split; [exact Hcode | exact Hex].
Defined.



(** C4 as stated fails for a TOTP token already used at the current step:
    the token is the one [otptoken_new] builds, its baseline step is 33,
    the generator yields 123687 there, the store accepts writes, and yet
    the code does not validate. *)
Lemma baseline_code_refused :
  otptoken_new (demo_totp_entry 34 0) = Some (demo_totp 34 30 0) /\
  to_ssize (to_ssize (1000 + 0) ÷ 30 + 0) = 33 /\
  hotp_demo demo_secret 33 = Some 123687 /\
  write_ok world_used demo_dn_totp = true /\
  otptoken_validate hotp_demo (Some (demo_totp 34 30 0)) 0 123687 world_used
    = (None, world_used).
Proof. repeat split; by_computation. Qed.

Lemma baseline_code_roundtrip_witness :
  baseline (demo_totp 0 30 0) (request_now (demo_totp 0 30 0) world_fresh) = 33 /\
  baseline (demo_hotp 5) (request_now (demo_hotp 5) world_fresh) = 5 /\
  hotp_demo demo_secret (to_uint64 33) = Some 123687 /\
  hotp_demo demo_secret (to_uint64 5) = Some 123491 /\
  write_ok world_fresh (sdn (demo_totp 0 30 0)) = true /\
  write_ok world_fresh (sdn (demo_hotp 5)) = true /\
  (exists tok' w',
     otptoken_validate hotp_demo (Some (demo_totp 0 30 0)) 0 123687 world_fresh
       = (Some tok', w') /\
     cursor tok' = Some (33 + 1) /\
     stored_int w' demo_dn_totp (T "watermark") = Some (33 + 1) /\
     otptoken_validate hotp_demo (Some tok') 0 123687 w' = (None, w')) /\
  (exists tok' w',
     otptoken_validate hotp_demo (Some (demo_hotp 5)) 0 123491 world_fresh
       = (Some tok', w') /\
     cursor tok' = Some (5 + 1) /\
     stored_int w' demo_dn_hotp (H "counter") = Some (5 + 1) /\
     otptoken_validate hotp_demo (Some tok') 0 123491 w' = (None, w')).
Proof.
  assert (HBt : baseline (demo_totp 0 30 0)
                  (request_now (demo_totp 0 30 0) world_fresh) = 33)
    by by_computation.
  assert (HBh : baseline (demo_hotp 5) (request_now (demo_hotp 5) world_fresh) = 5)
    by by_computation.
  assert (Hct : hotp_demo demo_secret (to_uint64 33) = Some 123687) by by_computation.
  assert (Hch : hotp_demo demo_secret (to_uint64 5) = Some 123491) by by_computation.
  assert (Hokt : write_ok world_fresh (sdn (demo_totp 0 30 0)) = true)
    by by_computation.
  assert (Hokh : write_ok world_fresh (sdn (demo_hotp 5)) = true) by by_computation.
  assert (Hnext : hotp_demo demo_secret (5 + 1) <> Some 123491)
    by (vm_compute; discriminate).
  assert (Hfit33 : 33 + 1 <= INT_MAX) by (unfold INT_MAX; lia).
  assert (Hfit5 : 5 + 1 <= INT_MAX) by (unfold INT_MAX; lia).
  split; [exact HBt|]. split; [exact HBh|]. split; [exact Hct|].
  split; [exact Hch|]. split; [exact Hokt|]. split; [exact Hokh|]. split.
  - destruct (baseline_code_roundtrip hotp_demo (demo_totp 0 30 0) world_fresh 123687)
      as (_ & _ & Htrip).
    rewrite HBt in Htrip.
    destruct (Htrip (or_introl eq_refl) Hct eq_refl Hokt ltac:(lia) ltac:(lia))
      as (tok' & w' & Hv & Hcur & _ & Hst & Hreplay & _).
    exists tok', w'. split; [exact Hv|]. split; [exact Hcur|].
    split; [exact (Hst Hfit33) | exact (Hreplay eq_refl)].
  - destruct (baseline_code_roundtrip hotp_demo (demo_hotp 5) world_fresh 123491)
      as (_ & _ & Htrip).
    rewrite HBh in Htrip.
    destruct (Htrip I Hch eq_refl Hokh ltac:(lia) ltac:(lia))
      as (tok' & w' & Hv & Hcur & _ & Hst & _ & Hreplay).
    exists tok', w'. split; [exact Hv|]. split; [exact Hcur|].
    split; [exact (Hst Hfit5) | exact (Hreplay eq_refl Hnext)].
Defined.

(** C5 as stated fails near the top of the 32-bit range: two-code mode
    accepts at step 2147483646 and the counter written to the store is
    -2147483648, not 2147483648. *)
Lemma resync_cursor_wraps :
  absolute_step (demo_hotp 2147483646) 0 0 = Some (H "counter", 2147483646) /\
  (validate hotp_demo (demo_hotp 2147483646) 0 0 508978 (Some 508985)
     (world_hotp_at 2147483646)).1 = Some (demo_hotp 2147483648) /\
  stored_int
    (validate hotp_demo (demo_hotp 2147483646) 0 0 508978 (Some 508985)
       (world_hotp_at 2147483646)).2 demo_dn_hotp (H "counter")
    = Some (-2147483648) /\
  -2147483648 <> 2147483646 + 2.
Proof. repeat split; try by_computation. lia. Qed.

Lemma resync_commit_witness :
  absolute_step (demo_totp 0 30 0) 1000 2 = Some (T "watermark", 35) /\
  validate hotp_demo (demo_totp 0 30 0) 1000 2 123701 (Some 123708) world_fresh
    = (Some (demo_totp 37 30 0),
       (validate hotp_demo (demo_totp 0 30 0) 1000 2 123701 (Some 123708)
          world_fresh).2) /\
  hotp_demo demo_secret 35 = Some 123701 /\
  hotp_demo demo_secret (35 + 1) = Some 123708 /\
  cursor (demo_totp 37 30 0) = Some (35 + 2) /\
  stored_int
    (validate hotp_demo (demo_totp 0 30 0) 1000 2 123701 (Some 123708)
       world_fresh).2 demo_dn_totp (T "watermark") = Some (35 + 2) /\
  stored_int
    (validate hotp_demo (demo_totp 0 30 0) 1000 2 123701 (Some 123708)
       world_fresh).2 demo_dn_totp (T "clockOffset")
    = Some ((35 + 2 - 1000 / 30) * 30).
Proof.
  assert (Habs : absolute_step (demo_totp 0 30 0) 1000 2 = Some (T "watermark", 35))
    by by_computation.
  assert (Hrun : validate hotp_demo (demo_totp 0 30 0) 1000 2 123701 (Some 123708)
                   world_fresh
                 = (Some (demo_totp 37 30 0),
                    (validate hotp_demo (demo_totp 0 30 0) 1000 2 123701
                       (Some 123708) world_fresh).2))
    by by_computation.
  assert (H0 : 0 <= 35) by lia.
  assert (H1 : 35 + 2 < 9223372036854775808) by lia.
  destruct (resync_commit hotp_demo _ _ _ _ _ _ _ _ _ _ Habs Hrun H0 H1)
    as (Hc1 & Hc2 & Hcur & _ & Hst & Htotp & _).
  assert (Hfit : 35 + 2 <= INT_MAX) by (unfold INT_MAX; lia).
  assert (Hty : type (demo_totp 0 30 0) = OTPTOKEN_TOTP 0 30 0) by reflexivity.
  assert (Hnow : 0 <= 1000) by lia.
  assert (Hstep : 0 < 30) by lia.
  assert (Hrange : -2147483648 <= (35 + 2 - 1000 / 30) * 30 <= INT_MAX)
    by (vm_compute; split; discriminate).
  destruct (Htotp _ _ _ Hty) as (_ & _ & Hoff).
  pose proof (Hst Hfit) as Hst'.
  pose proof (Hoff Hnow Hstep Hrange) as Hoff'.
  repeat split; assumption.
Defined.


(** C8 as stated fails for an input longer than the code length with
    [tail] unset: seven characters for a six-digit token are not refused,
    the first six are decoded and validated, and the counter advances. *)
Lemma long_code_accepted :
  digits (token (demo_hotp 0)) = 6 /\
  length (bv_of_string "1234567") = 7%nat /\
  hotp_demo demo_secret 0 = Some 123456 /\
  (otptoken_validate_berval hotp_demo (Some (demo_hotp 0)) 0
     (Some (bv_of_string "1234567")) false (world_hotp_at 0)).1
    = Some (demo_hotp 1).
Proof. repeat split; by_computation. Qed.

Lemma validate_berval_decoding_witness :
  (digits (token (demo_hotp 0)) = 6 \/ digits (token (demo_hotp 0)) = 8) /\
  (6 <= length (bv_of_string "secret123456"))%nat /\
  forallb is_digit (drop (12 - 6) (bv_of_string "secret123456")) = true /\
  otptoken_validate_berval hotp_demo (Some (demo_hotp 0)) 0
    (Some (bv_of_string "secret123456")) true (world_hotp_at 0)
  = otptoken_validate hotp_demo (Some (demo_hotp 0)) 0
      (decimal_value (drop (12 - 6) (bv_of_string "secret123456")))
      (world_hotp_at 0) /\
  otptoken_validate_berval hotp_demo (Some (demo_hotp 0)) 0
    (Some (bv_of_string "12345")) false (world_hotp_at 0)
  = (None, world_hotp_at 0).
Proof.
  assert (Hd : digits (token (demo_hotp 0)) = 6 \/ digits (token (demo_hotp 0)) = 8)
    by (left; reflexivity).
  assert (Hlen : (6 <= length (bv_of_string "secret123456"))%nat)
    by (vm_compute; lia).
  assert (Hdig : forallb is_digit (drop (12 - 6) (bv_of_string "secret123456")) = true)
    by by_computation.
  assert (Hshort : (length (bv_of_string "12345") < 6)%nat) by (vm_compute; lia).
  destruct (validate_berval_decoding hotp_demo (demo_hotp 0) 0
              (bv_of_string "secret123456") true (world_hotp_at 0) Hd)
    as [_ Hlong].
  destruct (Hlong Hlen) as (_ & _ & Hgood).
  destruct (validate_berval_decoding hotp_demo (demo_hotp 0) 0
              (bv_of_string "12345") false (world_hotp_at 0) Hd)
    as [Hrefuse _].
  split; [exact Hd|]. split; [exact Hlen|]. split; [exact Hdig|].
  split; [exact (Hgood Hdig) | exact (Hrefuse Hshort)].
Defined.

(** C9 as stated fails: of two records the first constructs and the second
    does not, and the lookup returns NULL instead of the one token. *)
Lemma sibling_failure_aborts :
  otptoken_new (demo_hotp_entry 5) = Some (demo_hotp 5) /\
  otptoken_new demo_bad_entry = None /\
  find LDAP_SUCCESS (Some [demo_hotp_entry 5; demo_bad_entry]) = None.
Proof. repeat split; by_computation. Qed.

Lemma find_all_or_nothing_witness :
  Forall2 (fun e t => otptoken_new e = Some t)
    [demo_totp_entry 0 0; demo_hotp_entry 5] [demo_totp 0 30 0; demo_hotp 5] /\
  find LDAP_SUCCESS (Some [demo_totp_entry 0 0; demo_hotp_entry 5])
    = Some [demo_totp 0 30 0; demo_hotp 5] /\
  Exists (fun e => otptoken_new e = None) [demo_hotp_entry 5; demo_bad_entry] /\
  find LDAP_SUCCESS (Some [demo_hotp_entry 5; demo_bad_entry]) = None.
Proof.
  assert (Hall : Forall2 (fun e t => otptoken_new e = Some t)
            [demo_totp_entry 0 0; demo_hotp_entry 5]
            [demo_totp 0 30 0; demo_hotp 5]).
  { constructor; [by_computation|]. constructor; [by_computation|]. constructor. }
  assert (Hbad : Exists (fun e => otptoken_new e = None)
                   [demo_hotp_entry 5; demo_bad_entry]).
  { right. left. by_computation. }
  destruct (find_all_or_nothing [demo_totp_entry 0 0; demo_hotp_entry 5])
    as (Hiff & _ & _).
  destruct (find_all_or_nothing [demo_hotp_entry 5; demo_bad_entry])
    as (_ & Habort & _).
  split; [exact Hall|]. split; [apply Hiff; exact Hall|].
  split; [exact Hbad | exact (Habort Hbad LDAP_SUCCESS)].
Defined.

End Samples.

(** * Further properties of the code *)

(** ** Token construction *)

Section Construction.

Lemma to_int_range z : -2147483648 <= to_int z <= INT_MAX.
Proof.
  unfold to_int, INT_MAX.
  pose proof (Z.mod_pos_bound (z + 2147483648) 4294967296 ltac:(lia)). lia.
Qed.

Lemma to_uint32_range z : 0 <= to_uint32 z < 4294967296.
Proof. unfold to_uint32. apply Z.mod_pos_bound. lia. Qed.

(** Everything [otptoken_new] needs to succeed, and the token it then
    returns. *)
Lemma otptoken_new_inv e t :
  otptoken_new e = Some t <->
  exists vals dn k,
    e_objectClass e = Some vals /\
    token_type_of vals <> OTPTOKEN_NONE /\
    e_sdn e = Some dn /\
    e_key e = Some k /\
    (slapi_entry_attr_get_int e (O_ "digits") = 6 \/
     slapi_entry_attr_get_int e (O_ "digits") = 8) /\
    is_algo_valid (default "sha1"%string (e_algorithm e)) = true /\
    t = {| sdn := dn;
           token := {| key := k;
                       algo := default "sha1"%string (e_algorithm e);
                       digits := slapi_entry_attr_get_int e (O_ "digits") |};
           type := entry_state (token_type_of vals) e |}.
Proof.
  unfold otptoken_new, entry_state.
  destruct (e_objectClass e) as [vals|]; simpl.
  2: { split; [discriminate | intros (? & ? & ? & ? & _); discriminate]. }
  set (d := slapi_entry_attr_get_int e (O_ "digits")).
  set (a := default "sha1"%string (e_algorithm e)).
  assert (Hd : negb (d =? 6) && negb (d =? 8) = false <-> d = 6 \/ d = 8) by lia.
  destruct (token_type_of vals) as [|wm ts off|c] eqn:Hty.
  - split; [discriminate|]. intros (v & ? & ? & Hv & Hn & _).
    inversion Hv; subst v. congruence.
  - destruct (e_sdn e) as [dn|]; simpl.
    2: { split; [discriminate | intros (? & ? & ? & _ & _ & ? & _); discriminate]. }
    destruct (e_key e) as [k|]; simpl.
    2: { split; [discriminate | intros (? & ? & ? & _ & _ & _ & ? & _); discriminate]. }
    destruct (negb (d =? 6) && negb (d =? 8)) eqn:Hdd.
    { split; [discriminate|]. intros (? & ? & ? & _ & _ & _ & _ & Hd' & _).
      apply Hd in Hd'. congruence. }
    destruct (is_algo_valid a) eqn:Ha; simpl.
    2: { split; [discriminate | intros (? & ? & ? & _ & _ & _ & _ & _ & ? & _); discriminate]. }
    split.
    + intros Heq. inversion Heq; subst t. exists vals, dn, k.
      rewrite Hty. repeat split; try reflexivity; try congruence. apply Hd. reflexivity.
    + intros (v & dn' & k' & Hv & _ & Hdn & Hk & _ & _ & ->).
      inversion Hv; subst v. inversion Hdn; subst dn'. inversion Hk; subst k'.
      rewrite Hty. reflexivity.
  - destruct (e_sdn e) as [dn|]; simpl.
    2: { split; [discriminate | intros (? & ? & ? & _ & _ & ? & _); discriminate]. }
    destruct (e_key e) as [k|]; simpl.
    2: { split; [discriminate | intros (? & ? & ? & _ & _ & _ & ? & _); discriminate]. }
    destruct (negb (d =? 6) && negb (d =? 8)) eqn:Hdd.
    { split; [discriminate|]. intros (? & ? & ? & _ & _ & _ & _ & Hd' & _).
      apply Hd in Hd'. congruence. }
    destruct (is_algo_valid a) eqn:Ha; simpl.
    2: { split; [discriminate | intros (? & ? & ? & _ & _ & _ & _ & _ & ? & _); discriminate]. }
    split.
    + intros Heq. inversion Heq; subst t. exists vals, dn, k.
      rewrite Hty. repeat split; try reflexivity; try congruence. apply Hd. reflexivity.
    + intros (v & dn' & k' & Hv & _ & Hdn & Hk & _ & _ & ->).
      inversion Hv; subst v. inversion Hdn; subst dn'. inversion Hk; subst k'.
      rewrite Hty. reflexivity.
Qed.

End Construction.

Section ConstructionProperties.

(** X1.  A token that [otptoken_new] returns carries the DN and the key of
    its entry, has 6 or 8 digits and an algorithm of the allow-list, is of
    type TOTP or HOTP, and its members are within the ranges of their C
    types; in particular the step length of a TOTP token is never 0. *)
Theorem otptoken_new_well_formed e t :
  otptoken_new e = Some t ->
  token_well_formed t /\
  e_sdn e = Some (sdn t) /\
  e_key e = Some (key (token t)).
Proof.
  intros Hnew. apply otptoken_new_inv in Hnew
    as (vals & dn & k & _ & Hty & Hdn & Hk & Hd & Ha & ->).
  split; [|split; [exact Hdn | exact Hk]].
  unfold token_well_formed. simpl. split; [exact Hd|]. split; [exact Ha|].
  unfold entry_state.
  destruct (token_type_of vals) as [|wm ts off|c]; [congruence| |].
  - split; [apply to_uint64_range|]. split; [|apply to_int_range].
    pose proof (to_uint32_range (default 0 (e_ints e !! T "timeStep"))) as Hr.
    unfold slapi_entry_attr_get_uint, IPA_OTP_DEFAULT_TOKEN_STEP.
    destruct (to_uint32 (default 0 (e_ints e !! T "timeStep")) =? 0) eqn:Hz; lia.
  - apply to_uint64_range.
Qed.

(** X2.  [otptoken_new] fails exactly when the entry has no object class,
    none of its object classes is a token class, it has no DN, it has no
    key, its digits are neither 6 nor 8, or its algorithm (sha1 when
    absent) is not of the allow-list. *)
Theorem otptoken_new_fails_iff e :
  otptoken_new e = None <->
  e_objectClass e = None \/
  (exists vals, e_objectClass e = Some vals /\ token_type_of vals = OTPTOKEN_NONE) \/
  e_sdn e = None \/
  e_key e = None \/
  (slapi_entry_attr_get_int e (O_ "digits") <> 6 /\
   slapi_entry_attr_get_int e (O_ "digits") <> 8) \/
  is_algo_valid (default "sha1"%string (e_algorithm e)) = false.
Proof.
  split.
  - intros Hnone.
    destruct (e_objectClass e) as [vals|] eqn:Hcls; [|left; reflexivity].
    destruct (token_type_of vals) as [|wm ts off|c] eqn:Hty;
      [right; left; exists vals; split; [reflexivity | exact Hty]| |].
    all: destruct (e_sdn e) as [dn|] eqn:Hdn; [|right; right; left; reflexivity].
    all: destruct (e_key e) as [k|] eqn:Hk;
      [|right; right; right; left; reflexivity].
    all: destruct (Z.eq_dec (slapi_entry_attr_get_int e (O_ "digits")) 6) as [H6|H6].
    all: destruct (Z.eq_dec (slapi_entry_attr_get_int e (O_ "digits")) 8) as [H8|H8].
    all: try (right; right; right; right; left; split; assumption).
    all: destruct (is_algo_valid (default "sha1"%string (e_algorithm e))) eqn:Ha;
      [|right; right; right; right; right; reflexivity].
    all: exfalso.
    all: assert (Hsome : exists t, otptoken_new e = Some t);
      [|destruct Hsome as [t Ht]; congruence].
    all: eexists; apply otptoken_new_inv; exists vals, dn, k.
    all: repeat split; try eassumption; try reflexivity; try (rewrite Hty; discriminate).
    all: auto.
  - intros Hcause.
    destruct (otptoken_new e) as [t|] eqn:Hnew; [|reflexivity].
    exfalso. apply otptoken_new_inv in Hnew
      as (vals & dn & k & Hcls & Hty & Hdn & Hk & Hd & Ha & _).
    destruct Hcause as [H|[(v & Hv & Hn)|[H|[H|[[H6 H8]|H]]]]]; try congruence.
    lia.
Qed.

(** X3.  Optional attributes that the entry lacks take their defaults: a
    watermark, a clock offset and a counter of 0, a step length of 30
    (also when the stored step length is 0), and the algorithm sha1. *)
Theorem otptoken_new_defaults e t :
  otptoken_new e = Some t ->
  (e_algorithm e = None -> algo (token t) = "sha1"%string) /\
  match type t with
  | OTPTOKEN_TOTP watermark tstep offset =>
      (e_ints e !! T "watermark" = None -> watermark = 0) /\
      (e_ints e !! T "clockOffset" = None -> offset = 0) /\
      (e_ints e !! T "timeStep" = None \/ e_ints e !! T "timeStep" = Some 0 ->
       tstep = 30)
  | OTPTOKEN_HOTP counter => e_ints e !! H "counter" = None -> counter = 0
  | OTPTOKEN_NONE => False
  end.
Proof.
  intros Hnew. apply otptoken_new_inv in Hnew
    as (vals & dn & k & _ & Hty & _ & _ & _ & _ & ->).
  simpl. split; [intros ->; reflexivity|].
  unfold entry_state, slapi_entry_attr_get_int, slapi_entry_attr_get_uint.
  destruct (token_type_of vals) as [|wm ts off|c]; [congruence| |].
  - split; [intros ->; reflexivity|]. split; [intros ->; reflexivity|].
    intros [-> | ->]; reflexivity.
  - intros ->. reflexivity.
Qed.

Lemma token_type_of_app l1 l2 :
  token_type_of (l1 ++ l2) =
  fold_left
    (fun ty v =>
       if strcasecmp_eq v "ipaTokenTOTP" then OTPTOKEN_TOTP 0 0 0
       else if strcasecmp_eq v "ipaTokenHOTP" then OTPTOKEN_HOTP 0
       else ty)
    l2 (token_type_of l1).
Proof. unfold token_type_of. apply fold_left_app. Qed.

Lemma fold_no_class l ty :
  Forall (fun x => is_token_class x = false) l ->
  fold_left
    (fun ty v =>
       if strcasecmp_eq v "ipaTokenTOTP" then OTPTOKEN_TOTP 0 0 0
       else if strcasecmp_eq v "ipaTokenHOTP" then OTPTOKEN_HOTP 0
       else ty)
    l ty = ty.
Proof.
  intros Hall. revert ty. induction Hall as [|x l Hx _ IH]; intros ty; simpl.
  - reflexivity.
  - unfold is_token_class in Hx. apply orb_false_iff in Hx as [-> ->]. apply IH.
Qed.

(** X4.  The type of a token is decided by the last of its object classes
    that is a token class, compared without regard to case: the values
    before it, token classes or not, and the other values after it do not
    matter; without any token class there is no type. *)
Theorem token_type_last_wins l1 v l2 :
  Forall (fun x => is_token_class x = false) l2 ->
  (is_token_class v = true ->
   token_type_of (l1 ++ v :: l2) =
     if strcasecmp_eq v "ipaTokenTOTP" then OTPTOKEN_TOTP 0 0 0
     else OTPTOKEN_HOTP 0) /\
  token_type_of l2 = OTPTOKEN_NONE.
Proof.
  intros Hl2. split.
  - intros Hv. rewrite token_type_of_app. simpl. rewrite fold_no_class by exact Hl2.
    unfold is_token_class in Hv.
    destruct (strcasecmp_eq v "ipaTokenTOTP"); [reflexivity|].
    simpl in Hv. rewrite Hv. reflexivity.
  - unfold token_type_of. apply fold_no_class. exact Hl2.
Qed.

(** X5.  An algorithm name is accepted exactly when its lower-case form is
    sha1, sha256, sha384 or sha512; two names that [strcasecmp] finds equal
    are accepted or refused together. *)
Theorem is_algo_valid_iff a :
  (is_algo_valid a = true <->
   strlower a = "sha1"%string \/ strlower a = "sha256"%string \/
   strlower a = "sha384"%string \/ strlower a = "sha512"%string) /\
  (forall b, strcasecmp_eq a b = true -> is_algo_valid b = is_algo_valid a).
Proof.
  split.
  - unfold is_algo_valid, valid_algos, strcasecmp_eq. simpl.
    rewrite orb_false_r, !orb_true_iff, !String.eqb_eq. tauto.
  - intros b Hab. unfold strcasecmp_eq in Hab. apply String.eqb_eq in Hab.
    unfold is_algo_valid, strcasecmp_eq. rewrite Hab. reflexivity.
Qed.

(** X6.  Every token of an array that [find] returns is well formed, so
    that [otptoken_get_digits] gives 6 or 8 for it and never the 0 of a
    NULL token; the array has one token per entry of the search, in order,
    and [otptoken_get_sdn] gives the DN of that entry. *)
Theorem find_tokens_well_formed result entries ts :
  find result (Some entries) = Some ts ->
  length ts = length entries /\
  Forall token_well_formed ts /\
  Forall (fun t => otptoken_get_digits (Some t) = 6 \/
                   otptoken_get_digits (Some t) = 8) ts /\
  Forall2 (fun e t => e_sdn e = Some (otptoken_get_sdn t)) entries ts.
Proof.
  unfold find. destruct (negb (result =? LDAP_SUCCESS)); [discriminate|].
  intros Hfind. apply find_tokens_spec in Hfind.
  induction Hfind as [|e t entries ts Hnew _ IH].
  - repeat split; constructor.
  - destruct IH as (Hlen & Hwf & Hdig & Hdn).
    destruct (otptoken_new_well_formed e t Hnew) as (Hw & Hsdn & _).
    split; [simpl; congruence|].
    split; [constructor; assumption|].
    split; [constructor; [apply Hw | assumption]|].
    constructor; assumption.
Qed.

End ConstructionProperties.

(** ** The store and the single-code request *)

Section StoreProperties.

Variable hotp : hotp_token -> Z -> option Z.

(** X7.  A call of [writeattr] uses up exactly one result of the directory
    server and touches no other entry.  When it returns true, the entry
    read back with [slapi_entry_attr_get_int] gives the value written (as
    an [int]) for this attribute and what it gave before for every other
    attribute, and the DN, object classes, key and algorithm are as they
    were; when it returns false the store is unchanged. *)
Theorem writeattr_read_back tok attr v w r w' :
  writeattr tok attr v w = (r, w') ->
  w_results w' = tl (w_results w) /\
  (forall dn, dn <> sdn tok -> w_store w' !! dn = w_store w !! dn) /\
  match r with
  | Some _ =>
      exists e e',
        w_store w !! sdn tok = Some e /\
        w_store w' !! sdn tok = Some e' /\
        slapi_entry_attr_get_int e' attr = to_int v /\
        (forall a, a <> attr ->
           slapi_entry_attr_get_int e' a = slapi_entry_attr_get_int e a /\
           slapi_entry_attr_get_uint e' a = slapi_entry_attr_get_uint e a) /\
        e_sdn e' = e_sdn e /\ e_objectClass e' = e_objectClass e /\
        e_key e' = e_key e /\ e_algorithm e' = e_algorithm e
  | None => w_store w' = w_store w
  end.
Proof.
  intros Hw. apply writeattr_inv in Hw as (_ & Hres & Hr).
  split; [exact Hres|].
  destruct r as [[]|].
  - destruct Hr as (_ & e & He & Hs). split.
    + intros dn Hne. rewrite Hs. apply lookup_insert_ne. congruence.
    + exists e, (entry_set_int e attr v).
      split; [exact He|]. split; [rewrite Hs; apply lookup_insert_eq|].
      unfold slapi_entry_attr_get_int, slapi_entry_attr_get_uint. simpl.
      split; [rewrite lookup_insert_eq; reflexivity|].
      split; [|repeat split].
      intros a Ha. rewrite lookup_insert_ne by congruence. split; reflexivity.
  - destruct Hr as (_ & Hs). split; [|exact Hs].
    intros dn _. rewrite Hs. reflexivity.
Qed.



End StoreProperties.

(** ** The shape of the sweeps *)

Section SweepProperties.

Variable hotp : hotp_token -> Z -> option Z.

Lemma sweep_offsets_split n k :
  sweep_offsets (n + k) =
  sweep_offsets n
    ++ flat_map (fun i => [Z.of_nat i; 0 - Z.of_nat i]) (seq (S n) k).
Proof.
  unfold sweep_offsets.
  replace (S (n + k)) with (S n + k)%nat by lia.
  rewrite seq_app, flat_map_app. reflexivity.
Qed.

Lemma sync_candidates_split ntokens n k :
  sync_candidates ntokens (n + k) =
  sync_candidates ntokens n
    ++ flat_map
         (fun i => flat_map (fun j => [(j, Z.of_nat i); (j, 0 - Z.of_nat i)])
                            (seq 0 ntokens))
         (seq (S n) k).
Proof.
  unfold sync_candidates.
  replace (S (n + k)) with (S n + k)%nat by lia.
  rewrite seq_app, flat_map_app. reflexivity.
Qed.

(** X9.  A wider window never changes a success: what a request accepts
    with radius [n] it accepts with every radius [m >= n], with the same
    token and the same writes, in single-code validation and in
    synchronisation alike. *)
Theorem wider_radius_same_success n m :
  (n <= m)%nat ->
  (forall tok code w tok' w',
     otptoken_validate hotp (Some tok) n code w = (Some tok', w') ->
     otptoken_validate hotp (Some tok) m code w = (Some tok', w')) /\
  (forall tokens c1 c2 w tokens' w',
     otptoken_sync hotp (Some tokens) n c1 c2 w = (Some tokens', w') ->
     otptoken_sync hotp (Some tokens) m c1 c2 w = (Some tokens', w')).
Proof.
  intros Hnm. replace m with (n + (m - n))%nat by lia. split.
  - intros tok code w tok' w'. rewrite !otptoken_validate_entry.
    destruct (is_totp tok && (w_time w =? -1)); [discriminate|].
    unfold spec_validate_sweep.
    rewrite sweep_offsets_split, fmap_app, first_success_app.
    unfold orelse. intros ->. reflexivity.
  - intros tokens c1 c2 w tokens' w'. rewrite !otptoken_sync_entry.
    destruct (w_time w =? -1); [discriminate|].
    unfold spec_sync_sweep.
    rewrite sync_candidates_split, fmap_app, first_success_app.
    unfold orelse. intros ->. reflexivity.
Qed.

Lemma hotp_negative_offset tok c now i code w :
  type tok = OTPTOKEN_HOTP c -> 0 < i ->
  validate hotp tok now (0 - i) code None w = (None, w).
Proof.
  intros Hty Hi. apply validate_single_nomatch.
  unfold code_matches, absolute_step. rewrite Hty.
  replace (0 - i <? 0) with true by (symmetry; apply Z.ltb_lt; lia).
  reflexivity.
Qed.

Lemma hotp_forward_tail tok c now code l w :
  type tok = OTPTOKEN_HOTP c ->
  Forall (fun i => (1 <= i)%nat) l ->
  first_success
    ((fun d => validate hotp tok now d code None)
       <$> flat_map (fun i => [Z.of_nat i; 0 - Z.of_nat i]) l) w =
  first_success
    ((fun d => validate hotp tok now d code None) <$> (Z.of_nat <$> l)) w.
Proof.
  intros Hty Hl. revert w. induction Hl as [|i l Hi _ IH]; intros w.
  - reflexivity.
  - cbn [flat_map app fmap list_fmap first_success]. unfold orelse.
    destruct (validate hotp tok now (Z.of_nat i) code None w) as [[a|] w1];
      [reflexivity|].
    rewrite (hotp_negative_offset tok c now (Z.of_nat i) code w1 Hty) by lia.
    apply IH.
Qed.

(** X10.  For an HOTP token the negative half of the sweep does nothing:
    [otptoken_validate] is the first success over the offsets 0, 0, 1, 2,
    ..., [steps], so only the counter itself and the [steps] counters after
    it can be accepted. *)
Theorem hotp_sweep_forward_only tok c steps code w :
  type tok = OTPTOKEN_HOTP c ->
  otptoken_validate hotp (Some tok) steps code w =
  first_success
    ((fun d => validate hotp tok 0 d code None) <$> forward_offsets steps) w.
Proof.
  intros Hty. rewrite otptoken_validate_entry.
  unfold is_totp, request_now, spec_validate_sweep. rewrite Hty. simpl andb.
  cbv iota.
  unfold sweep_offsets, forward_offsets.
  change (seq 0 (S steps)) with (0%nat :: seq 1 steps).
  cbn [flat_map app fmap list_fmap first_success]. unfold orelse.
  change (Z.of_nat 0) with 0. change (0 - 0) with 0.
  destruct (validate hotp tok 0 0 code None w) as [[a|] w1]; [reflexivity|].
  destruct (validate hotp tok 0 0 code None w1) as [[a|] w2]; [reflexivity|].
  apply (hotp_forward_tail tok c 0 code (seq 1 steps) w2 Hty).
  apply Forall_forall. intros i Hi. apply elem_of_seq in Hi. lia.
Qed.

End SweepProperties.

(** ** The clock *)

Section ClockProperties.

Variable hotp : hotp_token -> Z -> option Z.

Lemma writeattr_set_time tok attr v w t :
  writeattr tok attr v (set_time w t) =
  ((writeattr tok attr v w).1, set_time (writeattr tok attr v w).2 t).
Proof.
  unfold writeattr, slapi_modify_internal, set_time. cbv zeta. simpl.
  destruct (hd LDAP_SUCCESS (w_results w) =? LDAP_SUCCESS) eqn:Hres.
  - destruct (w_store w !! sdn tok); reflexivity.
  - rewrite Hres. reflexivity.
Qed.

(** [validate] takes the time as an argument and never reads the clock of
    the world. *)
Lemma validate_set_time tok now d first second w t :
  validate hotp tok now d first second (set_time w t) =
  ((validate hotp tok now d first second w).1,
   set_time (validate hotp tok now d first second w).2 t).
Proof.
  unfold validate, bind, lift, guard, ret, fail.
  destruct (absolute_step tok now d) as [[attr s]|]; simpl; [|reflexivity].
  destruct (hotp (token tok) (to_uint64 s)) as [t1|]; simpl; [|reflexivity].
  destruct (first =? t1); simpl; [|reflexivity].
  destruct second as [sec|]; simpl.
  - destruct (hotp (token tok) (to_uint64 (to_ssize (s + 1)))) as [t2|]; simpl;
      [|reflexivity].
    destruct (sec =? t2); simpl; [|reflexivity].
    unfold sync_offset, ret. destruct (type tok) as [|wm ts off|c].
    + rewrite writeattr_set_time.
      destruct (writeattr tok attr _ w) as [[[]|] w2]; reflexivity.
    + rewrite writeattr_set_time.
      destruct (writeattr tok (T "clockOffset") _ w) as [[[]|] w1]; simpl;
        [|reflexivity].
      rewrite writeattr_set_time.
      destruct (writeattr tok attr _ w1) as [[[]|] w2]; reflexivity.
    + rewrite writeattr_set_time.
      destruct (writeattr tok attr _ w) as [[[]|] w2]; reflexivity.
  - rewrite writeattr_set_time.
    destruct (writeattr tok attr _ w) as [[[]|] w2]; reflexivity.
Qed.

Lemma validate_sweep_set_time tok now code ds w t :
  first_success ((fun d => validate hotp tok now d code None) <$> ds) (set_time w t) =
  ((first_success ((fun d => validate hotp tok now d code None) <$> ds) w).1,
   set_time
     (first_success ((fun d => validate hotp tok now d code None) <$> ds) w).2 t).
Proof.
  revert w. induction ds as [|d ds IH]; intros w; simpl.
  - reflexivity.
  - unfold orelse. rewrite validate_set_time.
    destruct (validate hotp tok now d code None w) as [[a|] w1]; simpl;
      [reflexivity|].
    apply IH.
Qed.

(** X11.  The validation of an HOTP token does not depend on the clock: with
    any other time, a failing clock included, [otptoken_validate] returns
    the same result and leaves the same store.  A TOTP token is refused
    when [time()] fails, and so is every synchronisation, whatever the
    tokens are, HOTP tokens included; nothing is written then. *)
Theorem clock_dependence tok steps code w :
  (forall c t,
     type tok = OTPTOKEN_HOTP c ->
     otptoken_validate hotp (Some tok) steps code (set_time w t) =
     ((otptoken_validate hotp (Some tok) steps code w).1,
      set_time (otptoken_validate hotp (Some tok) steps code w).2 t)) /\
  (is_totp tok = true ->
   otptoken_validate hotp (Some tok) steps code (set_time w (-1)) =
   (None, set_time w (-1))) /\
  (forall tokens c1 c2,
     otptoken_sync hotp (Some tokens) steps c1 c2 (set_time w (-1)) =
     (None, set_time w (-1))).
Proof.
  split; [|split].
  - intros c t Hty. rewrite !otptoken_validate_entry.
    unfold is_totp, request_now, spec_validate_sweep. rewrite Hty. simpl andb.
    cbv iota. apply validate_sweep_set_time.
  - intros Htotp. rewrite otptoken_validate_entry, Htotp. reflexivity.
  - intros tokens c1 c2. rewrite otptoken_sync_entry. reflexivity.
Qed.

End ClockProperties.

(** ** No step is accepted twice *)

Section Replay.

Variable hotp : hotp_token -> Z -> option Z.

Lemma to_uint64_next x :
  to_uint64 x + 1 < 18446744073709551616 ->
  to_uint64 (to_ssize (x + 1)) = to_uint64 x + 1.
Proof.
  intros Hx. rewrite to_uint64_to_ssize. unfold to_uint64 in *.
  rewrite <- Zplus_mod_idemp_l. apply Z.mod_small.
  pose proof (Z.mod_pos_bound x 18446744073709551616 ltac:(lia)). lia.
Qed.

(** The cursor that a successful call leaves in the token. *)
Lemma validate_new_cursor tok now d first second w tok' w' attr s :
  absolute_step tok now d = Some (attr, s) ->
  validate hotp tok now d first second w = (Some tok', w') ->
  to_uint64 s + 2 < 18446744073709551616 ->
  exists k, (k = 1 \/ k = 2) /\ tok' = save_step tok (to_ssize (s + k)) /\
            to_uint64 (to_ssize (s + k)) = to_uint64 s + k.
Proof.
  intros Habs Hv Hs.
  destruct (validate_success_inv hotp _ _ _ _ _ _ _ _ Hv)
    as (attr' & s' & e & Habs' & _ & _ & _ & Hrest).
  rewrite Habs in Habs'. inversion Habs'; subst attr' s'.
  destruct second as [sec|].
  - cbv zeta in Hrest. destruct Hrest as (_ & -> & _).
    exists 2. split; [right; reflexivity|].
    assert (H2 : to_uint64 (to_ssize (to_ssize (s + 1) + 1)) = to_uint64 s + 2).
    { rewrite to_uint64_next; rewrite to_uint64_next; lia. }
    assert (Heq : to_ssize (to_ssize (s + 1) + 1) = to_ssize (s + 2)).
    { rewrite <- (to_ssize_to_uint64 (to_ssize (s + 1) + 1)).
      rewrite <- (to_ssize_to_uint64 (s + 2)). f_equal.
      rewrite <- (to_uint64_to_ssize (to_ssize (s + 1) + 1)), H2.
      replace (s + 2) with (s + 1 + 1) by lia.
      rewrite <- (to_uint64_to_ssize (s + 1 + 1)).
      rewrite to_uint64_next; rewrite <- (to_uint64_to_ssize (s + 1));
        rewrite to_uint64_next; lia. }
    rewrite Heq in *. split; [reflexivity | exact H2].
  - destruct Hrest as (-> & _). exists 1. split; [left; reflexivity|].
    split; [reflexivity|]. apply to_uint64_next. lia.
Qed.

(** X12.  Once a TOTP token has been accepted at a step, the token as
    [validate] leaves it is never accepted again at that step or at an
    earlier one, whatever the time, the offset, the codes and the mode of
    the later call: every later accepted step is strictly greater. *)
Theorem totp_accepted_steps_increase tok wm ts off now d first second w tok' w'
    attr s :
  type tok = OTPTOKEN_TOTP wm ts off ->
  absolute_step tok now d = Some (attr, s) ->
  validate hotp tok now d first second w = (Some tok', w') ->
  to_uint64 s + 2 < 18446744073709551616 ->
  forall now2 d2 first2 second2 w2 tok'' w'',
    validate hotp tok' now2 d2 first2 second2 w2 = (Some tok'', w'') ->
    exists s2, absolute_step tok' now2 d2 = Some (T "watermark", s2) /\
               to_uint64 s < to_uint64 s2.
Proof.
  intros Hty Habs Hv Hs now2 d2 first2 second2 w2 tok'' w'' Hv2.
  destruct (validate_new_cursor _ _ _ _ _ _ _ _ _ _ Habs Hv Hs)
    as (k & Hk & -> & Hcur).
  assert (Hty' : type (save_step tok (to_ssize (s + k)))
                 = OTPTOKEN_TOTP (to_uint64 s + k) ts off).
  { unfold save_step. simpl. rewrite Hty, Hcur. reflexivity. }
  destruct (validate_success_inv hotp _ _ _ _ _ _ _ _ Hv2)
    as (attr2 & s2 & _ & Habs2 & _).
  destruct (absolute_step_totp _ _ _ _ _ _ _ _ Hty' Habs2) as (-> & _ & Hge).
  exists s2. split; [exact Habs2|].
  pose proof (to_uint64_range s). lia.
Qed.

Lemma validate_success_save tok now d first second w tok' w' :
  validate hotp tok now d first second w = (Some tok', w') ->
  exists x, tok' = save_step tok x.
Proof.
  intros Hv.
  destruct (validate_success_inv hotp _ _ _ _ _ _ _ _ Hv)
    as (attr & s & e & _ & _ & _ & _ & Hrest).
  destruct second as [sec|].
  - cbv zeta in Hrest. destruct Hrest as (_ & -> & _). eauto.
  - destruct Hrest as (-> & _). eauto.
Qed.

(** X13.  The same for an HOTP token, as long as the counter stays clear of
    the 64-bit limit: every later accepted step is strictly greater than
    the one accepted before. *)
Theorem hotp_accepted_steps_increase tok c now d first second w tok' w' attr s :
  type tok = OTPTOKEN_HOTP c ->
  absolute_step tok now d = Some (attr, s) ->
  validate hotp tok now d first second w = (Some tok', w') ->
  forall now2 d2 first2 second2 w2 tok'' w'',
    to_uint64 s + 2 + d2 < 18446744073709551616 ->
    validate hotp tok' now2 d2 first2 second2 w2 = (Some tok'', w'') ->
    exists s2, absolute_step tok' now2 d2 = Some (H "counter", s2) /\
               to_uint64 s < to_uint64 s2.
Proof.
  intros Hty Habs Hv now2 d2 first2 second2 w2 tok'' w'' Hs Hv2.
  destruct (validate_success_inv hotp _ _ _ _ _ _ _ _ Hv2)
    as (attr2 & s2 & _ & Habs2 & _).
  destruct (validate_success_save _ _ _ _ _ _ _ _ Hv) as [x Hx].
  assert (Hty0 : type tok' = OTPTOKEN_HOTP (to_uint64 x)).
  { rewrite Hx. unfold save_step. simpl. rewrite Hty. reflexivity. }
  destruct (absolute_step_hotp _ _ _ _ _ _ Hty0 Habs2) as (-> & Hd2 & _).
  pose proof (to_uint64_range s) as Hrs.
  assert (Hs' : to_uint64 s + 2 < 18446744073709551616) by lia.
  destruct (validate_new_cursor _ _ _ _ _ _ _ _ _ _ Habs Hv Hs')
    as (k & Hk & Htok & Hcur).
  assert (Hty' : type tok' = OTPTOKEN_HOTP (to_uint64 s + k)).
  { rewrite Htok. unfold save_step. simpl. rewrite Hty, Hcur. reflexivity. }
  destruct (absolute_step_hotp _ _ _ _ _ _ Hty' Habs2) as (_ & _ & Hs2).
  exists s2. split; [exact Habs2|].
  rewrite Hs2, to_uint64_to_ssize.
  rewrite (to_uint64_small d2) by lia.
  rewrite (to_uint64_small (to_uint64 s + k + d2)) by lia.
  rewrite (to_uint64_small (to_uint64 s + k + d2)) by lia.
  lia.
Qed.

End Replay.

(** ** What a request changes and what it leaves alone *)

Section Effects.

Variable hotp : hotp_token -> Z -> option Z.

(** X14.  A call of [validate] that returns true changes nothing of the
    token but its cursor: the DN, the key, the algorithm, the digits, the
    type, and for a TOTP token the step length and the clock offset are as
    before.  In particular two-code mode writes the new clock offset to the
    store only, the token keeps the old one.  A well-formed token stays
    well formed. *)
Theorem validate_keeps_token tok now d first second w tok' w' :
  validate hotp tok now d first second w = (Some tok', w') ->
  sdn tok' = sdn tok /\
  token tok' = token tok /\
  match type tok, type tok' with
  | OTPTOKEN_TOTP _ ts off, OTPTOKEN_TOTP _ ts' off' => ts' = ts /\ off' = off
  | OTPTOKEN_HOTP _, OTPTOKEN_HOTP _ => True
  | _, _ => False
  end /\
  (token_well_formed tok -> token_well_formed tok').
Proof.
  intros Hv.
  destruct (validate_success_save _ _ _ _ _ _ _ _ _ Hv) as [x ->].
  destruct (validate_success_inv hotp _ _ _ _ _ _ _ _ Hv)
    as (attr & s & _ & Habs & _).
  assert (Hnone : type tok <> OTPTOKEN_NONE).
  { intros Hn. unfold absolute_step in Habs. rewrite Hn in Habs. discriminate. }
  unfold save_step, token_well_formed. simpl.
  destruct (type tok) as [|wm ts off|c]; [congruence| |].
  - split; [reflexivity|]. split; [reflexivity|].
    split; [split; reflexivity|].
    intros (Hd & Ha & _ & Hts & Hoff).
    split; [exact Hd|]. split; [exact Ha|].
    split; [apply to_uint64_range|]. split; assumption.
  - split; [reflexivity|]. split; [reflexivity|]. split; [exact I|].
    intros (Hd & Ha & _).
    split; [exact Hd|]. split; [exact Ha|]. apply to_uint64_range.
Qed.

Lemma validate_store_other tok now d first second w r w' dn :
  validate hotp tok now d first second w = (r, w') ->
  dn <> sdn tok ->
  w_store w' !! dn = w_store w !! dn.
Proof.
  intros Hv Hne. destruct r as [tok'|].
  - destruct (validate_success_inv hotp _ _ _ _ _ _ _ _ Hv)
      as (attr & s & e & _ & _ & _ & _ & Hrest).
    destruct second as [sec|].
    + cbv zeta in Hrest. destruct Hrest as (_ & _ & ->).
      apply lookup_insert_ne. congruence.
    + destruct Hrest as (_ & ->). apply lookup_insert_ne. congruence.
  - apply validate_failure_inv in Hv as [_ Hstore].
    destruct Hstore as [-> | (? & ? & ? & ? & ? & ? & _ & _ & _ & _ & _ & ->)];
      [reflexivity|].
    apply lookup_insert_ne. congruence.
Qed.

Lemma validate_failure_attrs tok now d first second w w' dn attr :
  validate hotp tok now d first second w = (None, w') ->
  attr <> T "clockOffset" ->
  stored_int w' dn attr = stored_int w dn attr.
Proof.
  intros Hv Hne. apply validate_failure_inv in Hv as [_ Hstore].
  destruct Hstore as [Hs | (? & ? & ? & ? & e & v & _ & _ & _ & _ & He & Hs)].
  - unfold stored_int. rewrite Hs. reflexivity.
  - destruct (decide (dn = sdn tok)) as [->|Hdn].
    + eapply stored_int_set_other; eassumption.
    + eapply stored_int_insert_other; eassumption.
Qed.

(** A synchronisation sweep, whatever its candidates: entries of no token
    of the array are never touched; a failure leaves every attribute but
    clock offsets as it was; a success is the success of [validate] on one
    token of the array, which replaces that token. *)
Lemma sync_sweep_inv tokens now c1 c2 cs w r w' :
  first_success (spec_sync_attempt hotp tokens now c1 c2 <$> cs) w = (r, w') ->
  (forall dn, (forall t, t ∈ tokens -> sdn t <> dn) ->
     w_store w' !! dn = w_store w !! dn) /\
  match r with
  | None =>
      forall dn attr, attr <> T "clockOffset" ->
        stored_int w' dn attr = stored_int w dn attr
  | Some tokens' =>
      exists j t t' d w1,
        tokens !! j = Some t /\
        validate hotp t now d c1 (Some c2) w1 = (Some t', w') /\
        tokens' = <[j := t']> tokens
  end.
Proof.
  revert w. induction cs as [|c cs IH]; intros w; simpl.
  - unfold fail. intros Heq. inversion Heq; subst. split; [reflexivity|].
    reflexivity.
  - unfold orelse, spec_sync_attempt at 1.
    destruct (tokens !! c.1) as [t|] eqn:Hj.
    + unfold bind, ret.
      destruct (validate hotp t now c.2 c1 (Some c2) w) as [[t'|] w1] eqn:Hv.
      * intros Heq. inversion Heq; subst. split.
        -- intros dn Hdn. eapply validate_store_other; [exact Hv|].
           apply not_eq_sym, Hdn. eapply list_elem_of_lookup_2. exact Hj.
        -- exists c.1, t, t', c.2, w. repeat split; assumption.
      * intros Hrest. destruct (IH _ Hrest) as [Hother Hr]. split.
        -- intros dn Hdn. rewrite (Hother dn Hdn).
           eapply validate_store_other; [exact Hv|].
           apply not_eq_sym, Hdn. eapply list_elem_of_lookup_2. exact Hj.
        -- destruct r as [tokens'|]; [exact Hr|].
           intros dn attr Hattr. rewrite (Hr dn attr Hattr).
           eapply validate_failure_attrs; eassumption.
    + unfold fail. apply IH.
Qed.

(** X15.  A synchronisation never touches the entry of a token that is not
    in the array.  When it returns false, every attribute of every entry
    other than a clock offset is as before (a clock offset may have been
    written for a token whose codes matched and whose cursor write was
    refused).  When it returns true, the array returned is the array given
    with exactly one token replaced, and that token has kept its DN and its
    secret. *)
Theorem otptoken_sync_effects tokens steps c1 c2 w r w' :
  otptoken_sync hotp (Some tokens) steps c1 c2 w = (r, w') ->
  (forall dn, (forall t, t ∈ tokens -> sdn t <> dn) ->
     w_store w' !! dn = w_store w !! dn) /\
  match r with
  | None =>
      forall dn attr, attr <> T "clockOffset" ->
        stored_int w' dn attr = stored_int w dn attr
  | Some tokens' =>
      length tokens' = length tokens /\
      exists j t t',
        tokens !! j = Some t /\ tokens' = <[j := t']> tokens /\
        sdn t' = sdn t /\ token t' = token t
  end.
Proof.
  rewrite otptoken_sync_entry. destruct (w_time w =? -1).
  - intros Heq. inversion Heq; subst. split; reflexivity.
  - unfold spec_sync_sweep. intros Hsweep.
    apply sync_sweep_inv in Hsweep as [Hother Hr].
    split; [exact Hother|]. destruct r as [tokens'|]; [|exact Hr].
    destruct Hr as (j & t & t' & d & w1 & Hj & Hv & ->).
    split; [apply length_insert|].
    destruct (validate_keeps_token _ _ _ _ _ _ _ _ Hv) as (Hsdn & Htok & _).
    exists j, t, t'. repeat split; assumption.
Qed.

Lemma sync_candidates_empty steps : sync_candidates 0 steps = [].
Proof.
  unfold sync_candidates. generalize (seq 0 (S steps)) as l.
  induction l as [|i l IH]; [reflexivity | exact IH].
Qed.

(** X16.  [otptoken_sync_berval] returns false and leaves the world as it
    was when either code is empty or holds a character that is not a
    digit, when the array is NULL or empty, or when [time()] fails: no
    code is generated and nothing is written. *)
Theorem otptoken_sync_berval_refusals tokens steps first_code second_code w :
  bvtod first_code = None \/ bvtod second_code = None \/
  tokens = None \/ tokens = Some [] \/ w_time w = -1 ->
  otptoken_sync_berval hotp tokens steps first_code second_code w = (None, w).
Proof.
  intros Hcause. unfold otptoken_sync_berval, bind, lift, ret, fail.
  destruct (bvtod first_code) as [c1|]; [|reflexivity].
  destruct (bvtod second_code) as [c2|]; [|reflexivity].
  destruct tokens as [tokens|]; [|reflexivity].
  rewrite otptoken_sync_entry.
  destruct (w_time w =? -1) eqn:Ht; [reflexivity|].
  destruct Hcause as [H|[H|[H|[H|H]]]]; try discriminate.
  - inversion H; subst tokens. unfold spec_sync_sweep. simpl length.
    rewrite sync_candidates_empty. reflexivity.
  - rewrite H in Ht. discriminate.
Qed.

End Effects.

(** ** The outcome of a synchronisation (claims C7 and C10) *)

Section SyncOutcome.

Variable hotp : hotp_token -> Z -> option Z.

(** A sweep that succeeds: the candidate that won, and the world the refused
    candidates before it left, in which only clock offsets may differ. *)
Lemma sync_sweep_success tokens now c1 c2 cs w tokens' w' :
  first_success (spec_sync_attempt hotp tokens now c1 c2 <$> cs) w
    = (Some tokens', w') ->
  exists j d t t' w1,
    (j, d) ∈ cs /\ tokens !! j = Some t /\
    validate hotp t now d c1 (Some c2) w1 = (Some t', w') /\
    tokens' = <[j := t']> tokens /\
    w_time w1 = w_time w /\
    (forall dn a, a <> T "clockOffset" -> stored_int w1 dn a = stored_int w dn a) /\
    (forall dn, (forall t0, t0 ∈ tokens -> sdn t0 <> dn) ->
       w_store w1 !! dn = w_store w !! dn).
Proof.
  revert w. induction cs as [|[j d] cs IH]; intros w; simpl.
  - discriminate.
  - unfold orelse, spec_sync_attempt at 1. cbn [fst snd].
    destruct (tokens !! j) as [t|] eqn:Hj.
    + unfold bind, ret.
      destruct (validate hotp t now d c1 (Some c2) w) as [[t'|] w1] eqn:Hv.
      * intros Heq. inversion Heq; subst. exists j, d, t, t', w.
        split; [left|]. split; [exact Hj|]. split; [exact Hv|].
        repeat split; reflexivity.
      * intros Hrest.
        destruct (IH _ Hrest)
          as (j' & d' & t0 & t0' & w2 & Hin & Hj' & Hv' & Ht & Htime & Hattrs & Hother).
        pose proof (validate_failure_inv hotp _ _ _ _ _ _ _ Hv) as [Ht1 _].
        exists j', d', t0, t0', w2. split; [right; exact Hin|].
        split; [exact Hj'|]. split; [exact Hv'|]. split; [exact Ht|].
        split; [congruence|]. split.
        -- intros dn a Ha. rewrite (Hattrs dn a Ha).
           eapply (validate_failure_attrs hotp); eassumption.
        -- intros dn Hdn. rewrite (Hother dn Hdn).
           eapply (validate_store_other hotp); [exact Hv|].
           apply not_eq_sym, Hdn. eapply list_elem_of_lookup_2. exact Hj.
    + unfold fail. intros Hrest.
      destruct (IH _ Hrest)
        as (j' & d' & t0 & t0' & w2 & Hin & Hrem).
      exists j', d', t0, t0', w2. split; [right; exact Hin | exact Hrem].
Qed.

(** Whatever the store answered on the way, a synchronisation that returns
    true has found both codes on one token of the array at one candidate of
    the sweep, has advanced the cursor of that token by two and has written
    it; of everything else in the store only clock offsets can differ. *)
Lemma otptoken_sync_success tokens steps c1 c2 w tokens' w' :
  otptoken_sync hotp (Some tokens) steps c1 c2 w = (Some tokens', w') ->
  exists j d t attr s,
    (j, d) ∈ sync_candidates (length tokens) steps /\
    tokens !! j = Some t /\
    absolute_step t (w_time w) d = Some (attr, s) /\
    hotp (token t) (to_uint64 s) = Some c1 /\
    hotp (token t) (to_uint64 (to_ssize (s + 1))) = Some c2 /\
    tokens' = <[j := save_step t (to_ssize (to_ssize (s + 1) + 1))]> tokens /\
    cursor (save_step t (to_ssize (to_ssize (s + 1) + 1)))
      = Some (to_uint64 (to_ssize (to_ssize (s + 1) + 1))) /\
    stored_int w' (sdn t) attr = Some (to_int (to_ssize (to_ssize (s + 1) + 1))) /\
    (forall dn a, a <> T "clockOffset" -> dn <> sdn t \/ a <> attr ->
       stored_int w' dn a = stored_int w dn a) /\
    (forall dn, (forall t0, t0 ∈ tokens -> sdn t0 <> dn) ->
       w_store w' !! dn = w_store w !! dn).
Proof.
  rewrite otptoken_sync_entry. destruct (w_time w =? -1); [discriminate|].
  unfold spec_sync_sweep. intros Hsweep.
  apply sync_sweep_success in Hsweep
    as (j & d & t & t' & w1 & Hin & Hj & Hv & -> & Htime & Hattrs & Hother).
  destruct (validate_success_inv hotp _ _ _ _ _ _ _ _ Hv)
    as (attr & s & e & Habs & He & H1 & _ & H2 & -> & Hs).
  set (s2 := to_ssize (to_ssize (s + 1) + 1)) in *.
  exists j, d, t, attr, s.
  split; [exact Hin|]. split; [exact Hj|]. split; [exact Habs|].
  split; [exact H1|]. split; [exact H2|]. split; [reflexivity|].
  split.
  { apply cursor_save_step. intros Hn. unfold absolute_step in Habs.
    rewrite Hn in Habs. discriminate. }
  split; [eapply stored_int_set_same; exact Hs|].
  split.
  - intros dn a Ha Hor. rewrite <- (Hattrs dn a Ha).
    destruct (decide (dn = sdn t)) as [->|Hne].
    + destruct Hor as [Hdn | Hattr]; [congruence|].
      unfold stored_int. rewrite Hs, lookup_insert_eq, He. simpl.
      rewrite lookup_insert_ne by congruence.
      destruct (type t); simpl; try reflexivity.
      apply lookup_insert_ne. congruence.
    + eapply stored_int_insert_other; [exact Hne | exact Hs].
  - intros dn Hdn. rewrite <- (Hother dn Hdn). rewrite Hs.
    apply lookup_insert_ne. apply Hdn. eapply list_elem_of_lookup_2. exact Hj.
Qed.

(** The first candidate of the sweep whose two codes match wins when the
    store accepts its writes: the token and the entry it leaves. *)
Lemma otptoken_sync_first_match tokens steps c1 c2 w pre j d post t :
  sync_candidates (length tokens) steps = pre ++ (j, d) :: post ->
  tokens !! j = Some t ->
  Forall (fun c => forall t', tokens !! c.1 = Some t' ->
                     codes_match hotp t' (w_time w) c.2 c1 c2 = false) pre ->
  codes_match hotp t (w_time w) d c1 c2 = true ->
  (w_time w =? -1) = false ->
  commit_ok t (Some c2) w = true ->
  exists attr s e w',
    absolute_step t (w_time w) d = Some (attr, s) /\
    hotp (token t) (to_uint64 s) = Some c1 /\
    hotp (token t) (to_uint64 (to_ssize (s + 1))) = Some c2 /\
    w_store w !! sdn t = Some e /\
    otptoken_sync hotp (Some tokens) steps c1 c2 w =
      (Some (<[j := save_step t (to_ssize (to_ssize (s + 1) + 1))]> tokens), w') /\
    cursor (save_step t (to_ssize (to_ssize (s + 1) + 1)))
      = Some (to_uint64 (to_ssize (to_ssize (s + 1) + 1))) /\
    w_store w' =
      <[sdn t :=
          entry_set_int
            match type t with
            | OTPTOKEN_TOTP _ tstep _ =>
                entry_set_int e (T "clockOffset")
                  (to_int (to_uint32 (to_ssize
                     (to_ssize (to_ssize (to_ssize (s + 1) + 1) - w_time w ÷ tstep)
                      * tstep))))
            | _ => e
            end attr (to_int (to_ssize (to_ssize (s + 1) + 1)))]> (w_store w).
Proof.
  intros Hsplit Hj Hpre Hm Htime Hok.
  rewrite otptoken_sync_entry, Htime. unfold spec_sync_sweep.
  rewrite Hsplit, fmap_app, first_success_skip.
  - destruct (validate_commit hotp t (w_time w) d c1 (Some c2) w Hm Hok)
      as (t' & w' & Hv).
    destruct (validate_success_inv hotp _ _ _ _ _ _ _ _ Hv)
      as (attr & s & e & Habs & He & H1 & _ & H2 & -> & Hs).
    exists attr, s, e, w'.
    split; [exact Habs|]. split; [exact H1|]. split; [exact H2|].
    split; [exact He|]. split.
    { cbn [fmap list_fmap first_success]. unfold orelse.
      unfold spec_sync_attempt at 1. cbn [fst snd]. rewrite Hj.
      unfold bind, ret. rewrite Hv. reflexivity. }
    split; [|exact Hs].
    apply cursor_save_step. intros Hn. unfold absolute_step in Habs.
    rewrite Hn in Habs. discriminate.
  - apply Forall_fmap. eapply Forall_impl; [exact Hpre|].
    intros c Hc. simpl. apply spec_sync_attempt_nomatch. exact Hc.
Qed.

Lemma otptoken_sync_no_match tokens steps c1 c2 w :
  Forall (fun t => forall d, codes_match hotp t (w_time w) d c1 c2 = false) tokens ->
  otptoken_sync hotp (Some tokens) steps c1 c2 w = (None, w).
Proof.
  intros Hnone. rewrite otptoken_sync_entry.
  destruct (w_time w =? -1); [reflexivity|].
  unfold spec_sync_sweep. apply first_success_none.
  apply Forall_fmap. apply Forall_forall. intros c _. simpl.
  apply spec_sync_attempt_nomatch. intros t' Ht'.
  rewrite Forall_forall in Hnone. apply Hnone.
  eapply list_elem_of_lookup_2. exact Ht'.
Qed.

(** C7, as amended.  [otptoken_sync] tries, for each radius from 0 to
    [steps], each token in the order of the array at offset +i and then -i:
    candidate (token [j], radius [i]) comes at position [2 (i n + j)] of the
    sweep and its negative offset right after, so every candidate of a
    smaller radius precedes every candidate of a larger one, whatever the
    token.  The sweep returns at the first candidate on which [validate]
    returns true.  When the store accepts the writes, that is the first
    candidate whose two codes match: the array returned has that token
    alone replaced, its cursor two past the candidate step, and the store is
    the store given with the entry of that token rewritten (the cursor and,
    for a TOTP token, the clock offset), every other entry as it was.
    Whatever the store answers, a sweep that returns true has found both
    codes on one token at one candidate of the sweep, has replaced that
    token alone in the array and has written its cursor; the entries of
    DNs outside the array are as they were, and so is every attribute of
    the other entries except the clock offset, which stays written for a
    TOTP token tried before whose codes matched and whose watermark write
    was refused.  When no candidate matches the result is false and the
    world is as it was. *)
Theorem sync_sweep_order tokens steps c1 c2 w :
  (otptoken_sync hotp (Some tokens) steps c1 c2 w =
     if w_time w =? -1 then (None, w)
     else first_success
            (spec_sync_attempt hotp tokens (w_time w) c1 c2
               <$> sync_candidates (length tokens) steps) w) /\
  (forall i j, (i <= steps)%nat -> (j < length tokens)%nat ->
     sync_candidates (length tokens) steps !! (2 * (i * length tokens + j))%nat
       = Some (j, Z.of_nat i) /\
     sync_candidates (length tokens) steps !! (2 * (i * length tokens + j) + 1)%nat
       = Some (j, - Z.of_nat i)) /\
  (forall i1 j1 i2 j2, (i1 < i2)%nat -> (j1 < length tokens)%nat ->
     (2 * (i1 * length tokens + j1) + 1 < 2 * (i2 * length tokens + j2))%nat) /\
  (forall pre j d post t,
     sync_candidates (length tokens) steps = pre ++ (j, d) :: post ->
     tokens !! j = Some t ->
     Forall (fun c => forall t', tokens !! c.1 = Some t' ->
                        codes_match hotp t' (w_time w) c.2 c1 c2 = false) pre ->
     codes_match hotp t (w_time w) d c1 c2 = true ->
     (w_time w =? -1) = false ->
     commit_ok t (Some c2) w = true ->
     exists attr s e w',
       absolute_step t (w_time w) d = Some (attr, s) /\
       w_store w !! sdn t = Some e /\
       otptoken_sync hotp (Some tokens) steps c1 c2 w =
         (Some (<[j := save_step t (to_ssize (to_ssize (s + 1) + 1))]> tokens), w') /\
       cursor (save_step t (to_ssize (to_ssize (s + 1) + 1)))
         = Some (to_uint64 (to_ssize (to_ssize (s + 1) + 1))) /\
       w_store w' =
         <[sdn t :=
             entry_set_int
               match type t with
               | OTPTOKEN_TOTP _ tstep _ =>
                   entry_set_int e (T "clockOffset")
                     (to_int (to_uint32 (to_ssize
                        (to_ssize (to_ssize (to_ssize (s + 1) + 1) - w_time w ÷ tstep)
                         * tstep))))
               | _ => e
               end attr (to_int (to_ssize (to_ssize (s + 1) + 1)))]> (w_store w) /\
       stored_int w' (sdn t) attr = Some (to_int (to_ssize (to_ssize (s + 1) + 1))) /\
       (forall dn, dn <> sdn t -> w_store w' !! dn = w_store w !! dn)) /\
  (forall tokens' w',
     otptoken_sync hotp (Some tokens) steps c1 c2 w = (Some tokens', w') ->
     exists j d t attr s,
       (j, d) ∈ sync_candidates (length tokens) steps /\
       tokens !! j = Some t /\
       absolute_step t (w_time w) d = Some (attr, s) /\
       hotp (token t) (to_uint64 s) = Some c1 /\
       hotp (token t) (to_uint64 (to_ssize (s + 1))) = Some c2 /\
       tokens' = <[j := save_step t (to_ssize (to_ssize (s + 1) + 1))]> tokens /\
       cursor (save_step t (to_ssize (to_ssize (s + 1) + 1)))
         = Some (to_uint64 (to_ssize (to_ssize (s + 1) + 1))) /\
       stored_int w' (sdn t) attr
         = Some (to_int (to_ssize (to_ssize (s + 1) + 1))) /\
       (forall dn a, a <> T "clockOffset" -> dn <> sdn t \/ a <> attr ->
          stored_int w' dn a = stored_int w dn a) /\
       (forall dn, (forall t0, t0 ∈ tokens -> sdn t0 <> dn) ->
          w_store w' !! dn = w_store w !! dn)) /\
  (Forall (fun t => forall d, codes_match hotp t (w_time w) d c1 c2 = false) tokens ->
   otptoken_sync hotp (Some tokens) steps c1 c2 w = (None, w)).
Proof.
  split; [apply otptoken_sync_entry|].
  split; [intros i j; apply sync_candidates_order|].
  split; [intros i1 j1 i2 j2 Hi Hj; nia|].
  split; [|split].
  - intros pre j d post t Hsplit Hj Hpre Hm Htime Hok.
    destruct (otptoken_sync_first_match tokens steps c1 c2 w pre j d post t
                Hsplit Hj Hpre Hm Htime Hok)
      as (attr & s & e & w' & Habs & _ & _ & He & Hrun & Hcur & Hs).
    exists attr, s, e, w'.
    split; [exact Habs|]. split; [exact He|]. split; [exact Hrun|].
    split; [exact Hcur|]. split; [exact Hs|].
    split; [eapply stored_int_set_same; exact Hs|].
    intros dn Hne. rewrite Hs. apply lookup_insert_ne. congruence.
  - intros tokens' w'. apply otptoken_sync_success.
  - apply otptoken_sync_no_match.
Qed.

(** C10.  [bvtod] refuses a string exactly when it is empty or holds a
    character that is not a digit.  Two non-empty strings of digits of any
    length are both decoded, each to its number modulo 2^32, and handed to
    [otptoken_sync] without any comparison with a token's code length; the
    two numbers are then what the generated codes are compared with.  The
    first candidate of the sweep at which the generator yields the first
    number and, one step on, the second, makes the call return true when
    the store accepts the writes, with the cursor of that token two steps
    on in the array and in the store; a call that returns true has found
    the two numbers as generated codes at consecutive steps of one token;
    and when no token generates the two numbers at any offset the call
    returns false and the world is as it was. *)
Theorem sync_berval_no_length_check tokens steps w :
  (forall code,
     bvtod code = None <-> code = [] \/ forallb is_digit code = false) /\
  (forall first_code second_code,
     first_code <> [] -> forallb is_digit first_code = true ->
     second_code <> [] -> forallb is_digit second_code = true ->
     bvtod first_code = Some (decimal_value first_code mod 2 ^ 32) /\
     bvtod second_code = Some (decimal_value second_code mod 2 ^ 32) /\
     otptoken_sync_berval hotp tokens steps first_code second_code w =
     otptoken_sync hotp tokens steps
       (decimal_value first_code mod 2 ^ 32)
       (decimal_value second_code mod 2 ^ 32) w /\
     (forall ts pre j d post t,
        tokens = Some ts ->
        sync_candidates (length ts) steps = pre ++ (j, d) :: post ->
        ts !! j = Some t ->
        Forall (fun c => forall t', ts !! c.1 = Some t' ->
                  codes_match hotp t' (w_time w) c.2
                    (decimal_value first_code mod 2 ^ 32)
                    (decimal_value second_code mod 2 ^ 32) = false) pre ->
        codes_match hotp t (w_time w) d
          (decimal_value first_code mod 2 ^ 32)
          (decimal_value second_code mod 2 ^ 32) = true ->
        (w_time w =? -1) = false ->
        commit_ok t (Some (decimal_value second_code mod 2 ^ 32)) w = true ->
        exists attr s w',
          absolute_step t (w_time w) d = Some (attr, s) /\
          hotp (token t) (to_uint64 s) = Some (decimal_value first_code mod 2 ^ 32) /\
          hotp (token t) (to_uint64 (to_ssize (s + 1)))
            = Some (decimal_value second_code mod 2 ^ 32) /\
          otptoken_sync_berval hotp tokens steps first_code second_code w =
            (Some (<[j := save_step t (to_ssize (to_ssize (s + 1) + 1))]> ts), w') /\
          cursor (save_step t (to_ssize (to_ssize (s + 1) + 1)))
            = Some (to_uint64 (to_ssize (to_ssize (s + 1) + 1))) /\
          stored_int w' (sdn t) attr
            = Some (to_int (to_ssize (to_ssize (s + 1) + 1)))) /\
     (forall tokens' w',
        otptoken_sync_berval hotp tokens steps first_code second_code w
          = (Some tokens', w') ->
        exists ts j d t attr s,
          tokens = Some ts /\
          (j, d) ∈ sync_candidates (length ts) steps /\
          ts !! j = Some t /\
          absolute_step t (w_time w) d = Some (attr, s) /\
          hotp (token t) (to_uint64 s) = Some (decimal_value first_code mod 2 ^ 32) /\
          hotp (token t) (to_uint64 (to_ssize (s + 1)))
            = Some (decimal_value second_code mod 2 ^ 32) /\
          tokens' = <[j := save_step t (to_ssize (to_ssize (s + 1) + 1))]> ts /\
          stored_int w' (sdn t) attr
            = Some (to_int (to_ssize (to_ssize (s + 1) + 1)))) /\
     (forall ts,
        tokens = Some ts ->
        Forall (fun t => forall d,
                  codes_match hotp t (w_time w) d
                    (decimal_value first_code mod 2 ^ 32)
                    (decimal_value second_code mod 2 ^ 32) = false) ts ->
        otptoken_sync_berval hotp tokens steps first_code second_code w = (None, w))).
Proof.
  split.
  - intros code. rewrite bvtod_spec. destruct code as [|c code].
    + simpl. split; [auto | reflexivity].
    + destruct (forallb is_digit (c :: code)); simpl.
      * split; [discriminate | intros [?|?]; discriminate].
      * split; [auto | reflexivity].
  - intros first_code second_code Hne1 Hd1 Hne2 Hd2.
    assert (H1 : bvtod first_code = Some (decimal_value first_code mod 2 ^ 32)).
    { rewrite bvtod_spec, Hd1. destruct first_code; [congruence | reflexivity]. }
    assert (H2 : bvtod second_code = Some (decimal_value second_code mod 2 ^ 32)).
    { rewrite bvtod_spec, Hd2. destruct second_code; [congruence | reflexivity]. }
    assert (Heq : otptoken_sync_berval hotp tokens steps first_code second_code w =
                  otptoken_sync hotp tokens steps
                    (decimal_value first_code mod 2 ^ 32)
                    (decimal_value second_code mod 2 ^ 32) w).
    { unfold otptoken_sync_berval, bind, lift, ret. rewrite H1, H2. reflexivity. }
    split; [exact H1 | split; [exact H2 |]]. split; [exact Heq|].
    rewrite Heq. split; [|split].
    + intros ts pre j d post t -> Hsplit Hj Hpre Hm Htime Hok.
      destruct (otptoken_sync_first_match ts steps _ _ w pre j d post t
                  Hsplit Hj Hpre Hm Htime Hok)
        as (attr & s & e & w' & Habs & Hc1 & Hc2 & _ & Hrun & Hcur & Hs).
      exists attr, s, w'.
      split; [exact Habs|]. split; [exact Hc1|]. split; [exact Hc2|].
      split; [exact Hrun|]. split; [exact Hcur|].
      eapply stored_int_set_same. exact Hs.
    + intros tokens' w' Hrun. destruct tokens as [ts|]; [|discriminate].
      destruct (otptoken_sync_success ts steps _ _ w tokens' w' Hrun)
        as (j & d & t & attr & s & Hin & Hj & Habs & Hc1 & Hc2 & Ht & _ & Hst & _).
      exists ts, j, d, t, attr, s.
      split; [reflexivity|]. split; [exact Hin|]. split; [exact Hj|].
      split; [exact Habs|]. split; [exact Hc1|]. split; [exact Hc2|].
      split; [exact Ht | exact Hst].
    + intros ts -> Hnone. apply otptoken_sync_no_match. exact Hnone.
Qed.

End SyncOutcome.

(** ** Decoding *)

Section DecoderProperties.

Variable hotp : hotp_token -> Z -> option Z.

Lemma decimal_zeros n a :
  fold_left (fun acc c => acc * 10 + (c - 48)) (replicate n 48) a = a * 10 ^ Z.of_nat n.
Proof.
  revert a. induction n as [|n IH]; intros a.
  - simpl. lia.
  - cbn [replicate fold_left]. rewrite IH, Nat2Z.inj_succ, Z.pow_succ_r by lia. lia.
Qed.

Lemma forallb_zeros n : forallb is_digit (replicate n 48) = true.
Proof. induction n as [|n IH]; [reflexivity | exact IH]. Qed.

(** X17.  Leading zeros do not change what [bvtod] decodes: any number of
    characters '0' before a non-empty string leaves its result, success or
    failure, as it is; a string of zeros alone decodes to 0. *)
Theorem bvtod_leading_zeros n code :
  (code <> [] -> bvtod (replicate n 48 ++ code) = bvtod code) /\
  bvtod (replicate (S n) 48) = Some 0.
Proof.
  split.
  - intros Hne. rewrite !bvtod_spec.
    rewrite forallb_app, forallb_zeros. cbn [andb].
    replace (Nat.eqb (length (replicate n 48 ++ code)) 0) with false.
    2: { symmetry. apply Nat.eqb_neq. rewrite length_app.
         destruct code; [congruence | simpl; lia]. }
    replace (Nat.eqb (length code) 0) with false.
    2: { symmetry. apply Nat.eqb_neq. destruct code; [congruence | simpl; lia]. }
    unfold decimal_value. rewrite fold_left_app, decimal_zeros. reflexivity.
  - rewrite bvtod_spec, forallb_zeros. simpl length. cbn [Nat.eqb negb andb].
    unfold decimal_value. rewrite decimal_zeros. reflexivity.
Qed.

(** X18.  With [tail] set, whatever precedes the last [digits] characters
    plays no part: a credential made of any prefix followed by a string of
    the code length is validated exactly as that string alone is. *)
Theorem tail_ignores_prefix tok steps (prefix code : berval) w :
  digits (token tok) = 6 \/ digits (token tok) = 8 ->
  length code = Z.to_nat (digits (token tok)) ->
  otptoken_validate_berval hotp (Some tok) steps (Some (prefix ++ code)) true w =
  otptoken_validate_berval hotp (Some tok) steps (Some code) false w.
Proof.
  intros Hd Hlen.
  assert (Hu : to_uint64 (digits (token tok)) = Z.of_nat (length code)).
  { rewrite to_uint64_small by lia. lia. }
  unfold otptoken_validate_berval, bind, lift, ret, guard. rewrite Hu.
  replace (Z.of_nat (length (prefix ++ code)) <? Z.of_nat (length code)) with false
    by (symmetry; apply Z.ltb_ge; rewrite length_app; lia).
  rewrite Z.ltb_irrefl. simpl.
  rewrite Nat2Z.id.
  replace (Z.to_nat (Z.of_nat (length (prefix ++ code)) - Z.of_nat (length code)))
    with (length prefix) by (rewrite length_app; lia).
  rewrite drop_app_length. reflexivity.
Qed.

End DecoderProperties.

(** ** The token and its entry *)

Section Reload.

Variable hotp : hotp_token -> Z -> option Z.

Lemma attr_names_apart :
  T "watermark" <> O_ "digits" /\ H "counter" <> O_ "digits" /\
  T "clockOffset" <> O_ "digits" /\
  T "watermark" <> T "timeStep" /\ T "clockOffset" <> T "timeStep" /\
  T "watermark" <> T "clockOffset".
Proof. repeat split; discriminate. Qed.

Lemma get_int_set_same e a v :
  slapi_entry_attr_get_int (entry_set_int e a v) a = to_int v.
Proof.
  unfold slapi_entry_attr_get_int. simpl. rewrite lookup_insert_eq. reflexivity.
Qed.

Lemma get_int_set_other e a a' v :
  a' <> a ->
  slapi_entry_attr_get_int (entry_set_int e a v) a' = slapi_entry_attr_get_int e a'.
Proof.
  intros Hne. unfold slapi_entry_attr_get_int. simpl.
  rewrite lookup_insert_ne by congruence. reflexivity.
Qed.

Lemma get_uint_set_other e a a' v :
  a' <> a ->
  slapi_entry_attr_get_uint (entry_set_int e a v) a' = slapi_entry_attr_get_uint e a'.
Proof.
  intros Hne. unfold slapi_entry_attr_get_uint. simpl.
  rewrite lookup_insert_ne by congruence. reflexivity.
Qed.

(** An entry that differs from the entry of a token in replay state only
    builds the same token with the replay state it holds. *)
Lemma otptoken_new_reload e e' tok :
  otptoken_new e = Some tok ->
  e_sdn e' = e_sdn e -> e_objectClass e' = e_objectClass e ->
  e_key e' = e_key e -> e_algorithm e' = e_algorithm e ->
  slapi_entry_attr_get_int e' (O_ "digits") = slapi_entry_attr_get_int e (O_ "digits") ->
  otptoken_new e' = Some (with_type tok (entry_state (type tok) e')).
Proof.
  intros Hnew Hsdn Hcls Hkey Halgo Hdig.
  apply otptoken_new_inv in Hnew
    as (vals & dn & k & Hc & Hty & Hd & Hk & Hdd & Ha & ->).
  apply otptoken_new_inv. exists vals, dn, k.
  rewrite Hsdn, Hcls, Hkey, Halgo, Hdig.
  repeat split; try assumption.
  unfold with_type. simpl. f_equal.
  destruct (token_type_of vals); reflexivity.
Qed.

(** X19.  The token in memory and the entry in the store agree after a
    successful single-code validation: for a token built from its entry,
    [otptoken_new] applied to the entry as the call leaves it returns the
    very token the call leaves, as long as the new cursor fits the 32-bit
    signed integer it is written as. *)
Theorem validated_token_reloads e tok now d code w tok' w' attr s :
  otptoken_new e = Some tok ->
  w_store w !! sdn tok = Some e ->
  absolute_step tok now d = Some (attr, s) ->
  validate hotp tok now d code None w = (Some tok', w') ->
  -2147483648 <= to_ssize (s + 1) <= INT_MAX ->
  exists e', w_store w' !! sdn tok = Some e' /\ otptoken_new e' = Some tok'.
Proof.
  intros Hnew He Habs Hv Hrange.
  destruct (validate_success_inv hotp _ _ _ _ _ _ _ _ Hv)
    as (attr' & s' & e0 & Habs' & He0 & _ & _ & -> & Hstore).
  rewrite Habs in Habs'. inversion Habs'; subst attr' s'. clear Habs'.
  rewrite He in He0. inversion He0; subst e0. clear He0.
  set (x := to_ssize (s + 1)) in *.
  exists (entry_set_int e attr (to_int x)).
  split; [rewrite Hstore; apply lookup_insert_eq|].
  destruct attr_names_apart as (Hwd & Hcd & _ & Hwt & Hct & Hwc).
  assert (Hx : to_int (to_int x) = x).
  { rewrite (to_int_small x) by exact Hrange. apply to_int_small. exact Hrange. }
  destruct (type tok) as [|wm ts off|c] eqn:Hty.
  - unfold absolute_step in Habs. rewrite Hty in Habs. discriminate.
  - destruct (absolute_step_totp _ _ _ _ _ _ _ _ Hty Habs) as (-> & _ & _).
    rewrite (otptoken_new_reload e _ tok Hnew); try reflexivity.
    2: { apply get_int_set_other. apply not_eq_sym. exact Hwd. }
    f_equal. unfold save_step, with_type. rewrite Hty. f_equal.
    unfold entry_state.
    rewrite get_int_set_same, Hx.
    rewrite get_uint_set_other by (apply not_eq_sym; exact Hwt).
    rewrite get_int_set_other by (apply not_eq_sym; exact Hwc).
    apply otptoken_new_inv in Hnew
      as (vals & dn & k & _ & _ & _ & _ & _ & _ & Htok).
    rewrite Htok in Hty. simpl in Hty. unfold entry_state in Hty.
    destruct (token_type_of vals); try discriminate.
    inversion Hty; subst. reflexivity.
  - destruct (absolute_step_hotp _ _ _ _ _ _ Hty Habs) as (-> & _ & _).
    rewrite (otptoken_new_reload e _ tok Hnew); try reflexivity.
    2: { apply get_int_set_other. apply not_eq_sym. exact Hcd. }
    f_equal. unfold save_step, with_type. rewrite Hty. f_equal.
    unfold entry_state. rewrite get_int_set_same, Hx. reflexivity.
Qed.

End Reload.

Section Reanchor.

Variable hotp : hotp_token -> Z -> option Z.

(** X20.  A synchronisation re-anchors a TOTP token on the clock: when the
    two codes are accepted at steps [s] and [s + 1] at time [now], the
    entry as the call leaves it builds a token whose watermark is [s + 2]
    and whose baseline step at that same time is [s + 2] too, so that the
    very next code of the device is the one a validation of radius 0
    looks for.  (Time after the epoch, values within the 32-bit range of
    the attributes.) *)
Theorem resync_reanchors e tok wm ts off now d first sec w tok' w' attr s :
  otptoken_new e = Some tok ->
  type tok = OTPTOKEN_TOTP wm ts off ->
  w_store w !! sdn tok = Some e ->
  absolute_step tok now d = Some (attr, s) ->
  validate hotp tok now d first (Some sec) w = (Some tok', w') ->
  0 <= s -> s + 2 <= INT_MAX ->
  0 <= now < 4611686018427387904 ->
  -2147483648 <= (s + 2 - now / ts) * ts <= INT_MAX ->
  exists e' tok2,
    w_store w' !! sdn tok = Some e' /\
    otptoken_new e' = Some tok2 /\
    type tok2 = OTPTOKEN_TOTP (s + 2) ts ((s + 2 - now / ts) * ts) /\
    absolute_step tok2 now 0 = Some (T "watermark", s + 2).
Proof.
  intros Hnew Hty He Habs Hv Hs Hmax Hnow Hoff.
  destruct (otptoken_new_well_formed e tok Hnew) as (Hwf & _ & _).
  unfold token_well_formed in Hwf. rewrite Hty in Hwf.
  destruct Hwf as (_ & _ & _ & Hts & _).
  destruct (absolute_step_totp _ _ _ _ _ _ _ _ Hty Habs) as (-> & _ & _).
  destruct (validate_success_inv hotp _ _ _ _ _ _ _ _ Hv)
    as (attr' & s' & e0 & Habs' & He0 & _ & _ & Hrest).
  rewrite Habs in Habs'. inversion Habs'; subst attr' s'. clear Habs'.
  rewrite He in He0. inversion He0; subst e0. clear He0.
  cbv zeta in Hrest. destruct Hrest as (_ & _ & Hstore).
  rewrite Hty in Hstore.
  assert (Hs2 : to_ssize (to_ssize (s + 1) + 1) = s + 2).
  { unfold INT_MAX in Hmax. rewrite (to_ssize_small (s + 1)) by lia.
    rewrite to_ssize_small by lia. lia. }
  rewrite Hs2, to_int_clock_offset, quot_is_floor in Hstore by lia.
  rewrite (to_int_small _ Hoff) in Hstore.
  rewrite (to_int_small (s + 2)) in Hstore by lia.
  set (off' := (s + 2 - now / ts) * ts) in *.
  set (e' := entry_set_int (entry_set_int e (T "clockOffset") off')
               (T "watermark") (s + 2)) in *.
  destruct attr_names_apart as (Hwd & _ & Hod & Hwt & Hot & Hwc).
  assert (Hreload : otptoken_new e' = Some (with_type tok (entry_state (type tok) e'))).
  { apply (otptoken_new_reload e e' tok Hnew); try reflexivity.
    subst e'. rewrite !get_int_set_other by (apply not_eq_sym; assumption).
    reflexivity. }
  assert (Hstate : entry_state (type tok) e' = OTPTOKEN_TOTP (s + 2) ts off').
  { rewrite Hty. unfold entry_state. subst e'.
    rewrite get_int_set_same, (to_int_small (s + 2)) by lia.
    rewrite (to_uint64_small (s + 2)) by (unfold INT_MAX in Hmax; lia).
    rewrite !get_uint_set_other by (apply not_eq_sym; assumption).
    rewrite get_int_set_other by (apply not_eq_sym; exact Hwc).
    rewrite get_int_set_same, (to_int_small off') by exact Hoff.
    apply otptoken_new_inv in Hnew
      as (vals & dn & k & _ & _ & _ & _ & _ & _ & Htok).
    rewrite Htok in Hty. simpl in Hty. unfold entry_state in Hty.
    destruct (token_type_of vals); try discriminate.
    inversion Hty; subst. reflexivity. }
  exists e', (with_type tok (entry_state (type tok) e')).
  split; [rewrite Hstore; apply lookup_insert_eq|].
  split; [exact Hreload|].
  split; [simpl; exact Hstate|].
  unfold absolute_step. simpl. rewrite Hstate.
  assert (Hsum : now + off' = ts * (s + 2) + now mod ts).
  { subst off'. pose proof (Z.div_mod now ts ltac:(lia)). lia. }
  pose proof (Z.mod_pos_bound now ts ltac:(lia)) as Hr.
  assert (Hdiv : (now + off') / ts = s + 2).
  { symmetry. apply (Z.div_unique _ ts (s + 2) (now mod ts)); [left; exact Hr|].
    exact Hsum. }
  unfold INT_MAX in *.
  assert (Hnn : 0 <= now + off') by nia.
  rewrite (to_ssize_small (now + off')) by lia.
  rewrite quot_is_floor, Hdiv by lia.
  rewrite Z.add_0_r, (to_ssize_small (s + 2)), (to_uint64_small (s + 2)) by lia.
  replace (0 <? s + 2) with true by (symmetry; apply Z.ltb_lt; lia).
  rewrite Z.ltb_irrefl. reflexivity.
Qed.

End Reanchor.

(** * The further properties on sample data *)

Section MoreSamples.

Ltac by_computation := vm_compute; reflexivity.

Lemma otptoken_new_well_formed_witness :
  otptoken_new demo_bare_entry
    = Some {| sdn := "cn=bare,dc=example";
              token := {| key := [49; 50; 51]; algo := "sha1"; digits := 8 |};
              type := OTPTOKEN_TOTP 0 30 0 |} /\
  token_well_formed
    {| sdn := "cn=bare,dc=example";
       token := {| key := [49; 50; 51]; algo := "sha1"; digits := 8 |};
       type := OTPTOKEN_TOTP 0 30 0 |}.
Proof.
  assert (Hnew : otptoken_new demo_bare_entry
            = Some {| sdn := "cn=bare,dc=example";
                      token := {| key := [49; 50; 51]; algo := "sha1"; digits := 8 |};
                      type := OTPTOKEN_TOTP 0 30 0 |}) by by_computation.
  split; [exact Hnew|].
  exact (proj1 (otptoken_new_well_formed _ _ Hnew)).
Defined.

Lemma otptoken_new_fails_iff_witness :
  slapi_entry_attr_get_int demo_bad_entry (O_ "digits") <> 6 /\
  slapi_entry_attr_get_int demo_bad_entry (O_ "digits") <> 8 /\
  otptoken_new demo_bad_entry = None.
Proof.
  assert (H6 : slapi_entry_attr_get_int demo_bad_entry (O_ "digits") <> 6)
    by (vm_compute; discriminate).
  assert (H8 : slapi_entry_attr_get_int demo_bad_entry (O_ "digits") <> 8)
    by (vm_compute; discriminate).
  split; [exact H6|]. split; [exact H8|].
  apply (proj2 (otptoken_new_fails_iff demo_bad_entry)).
  right. right. right. right. left. split; assumption.
Defined.

Lemma otptoken_new_defaults_witness :
  otptoken_new demo_bare_entry
    = Some {| sdn := "cn=bare,dc=example";
              token := {| key := [49; 50; 51]; algo := "sha1"; digits := 8 |};
              type := OTPTOKEN_TOTP 0 30 0 |} /\
  e_algorithm demo_bare_entry = None /\
  e_ints demo_bare_entry !! T "timeStep" = None /\
  algo {| key := [49; 50; 51]; algo := "sha1"; digits := 8 |} = "sha1"%string.
Proof.
  assert (Hnew : otptoken_new demo_bare_entry
            = Some {| sdn := "cn=bare,dc=example";
                      token := {| key := [49; 50; 51]; algo := "sha1"; digits := 8 |};
                      type := OTPTOKEN_TOTP 0 30 0 |}) by by_computation.
  assert (Halgo : e_algorithm demo_bare_entry = None) by reflexivity.
  split; [exact Hnew|]. split; [exact Halgo|]. split; [by_computation|].
  exact (proj1 (otptoken_new_defaults _ _ Hnew) Halgo).
Defined.

Lemma token_type_last_wins_witness :
  Forall (fun x => is_token_class x = false) ["top"%string] /\
  is_token_class "IPATOKENTOTP" = true /\
  token_type_of (["ipatokenhotp"%string] ++ "IPATOKENTOTP"%string :: ["top"%string])
    = (if strcasecmp_eq "IPATOKENTOTP" "ipaTokenTOTP" then OTPTOKEN_TOTP 0 0 0
       else OTPTOKEN_HOTP 0).
Proof.
  assert (Hl2 : Forall (fun x => is_token_class x = false) ["top"%string])
    by (repeat constructor).
  assert (Hv : is_token_class "IPATOKENTOTP" = true) by by_computation.
  split; [exact Hl2|]. split; [exact Hv|].
  exact (proj1 (token_type_last_wins ["ipatokenhotp"%string] "IPATOKENTOTP"
                  ["top"%string] Hl2) Hv).
Defined.

Lemma is_algo_valid_iff_witness :
  strcasecmp_eq "SHA256" "Sha256" = true /\
  is_algo_valid "Sha256" = is_algo_valid "SHA256" /\
  is_algo_valid "SHA256" = true.
Proof.
  assert (Heq : strcasecmp_eq "SHA256" "Sha256" = true) by by_computation.
  assert (Hlow : strlower "SHA256" = "sha256"%string) by by_computation.
  destruct (is_algo_valid_iff "SHA256") as [Hiff Hcong].
  split; [exact Heq|]. split; [exact (Hcong _ Heq)|].
  apply Hiff. right. left. exact Hlow.
Defined.

Lemma find_tokens_well_formed_witness :
  find LDAP_SUCCESS (Some [demo_totp_entry 0 0; demo_hotp_entry 5])
    = Some [demo_totp 0 30 0; demo_hotp 5] /\
  length [demo_totp 0 30 0; demo_hotp 5]
    = length [demo_totp_entry 0 0; demo_hotp_entry 5] /\
  Forall token_well_formed [demo_totp 0 30 0; demo_hotp 5].
Proof.
  assert (Hfind : find LDAP_SUCCESS (Some [demo_totp_entry 0 0; demo_hotp_entry 5])
                  = Some [demo_totp 0 30 0; demo_hotp 5]) by by_computation.
  destruct (find_tokens_well_formed _ _ _ Hfind) as (Hlen & Hwf & _).
  split; [exact Hfind|]. split; [exact Hlen | exact Hwf].
Defined.

Lemma writeattr_read_back_witness :
  writeattr (demo_hotp 5) (H "counter") 9 world_fresh
    = (Some tt, (writeattr (demo_hotp 5) (H "counter") 9 world_fresh).2) /\
  exists e e',
    w_store world_fresh !! sdn (demo_hotp 5) = Some e /\
    w_store (writeattr (demo_hotp 5) (H "counter") 9 world_fresh).2
      !! sdn (demo_hotp 5) = Some e' /\
    slapi_entry_attr_get_int e' (H "counter") = to_int 9.
Proof.
  assert (Hrun : writeattr (demo_hotp 5) (H "counter") 9 world_fresh
                 = (Some tt, (writeattr (demo_hotp 5) (H "counter") 9 world_fresh).2))
    by by_computation.
  split; [exact Hrun|].
  destruct (writeattr_read_back _ _ _ _ _ _ Hrun)
    as (_ & _ & e & e' & He & He' & Hget & _).
  exists e, e'. repeat split; assumption.
Defined.


Lemma wider_radius_same_success_witness :
  (2 <= 5)%nat /\
  otptoken_validate hotp_demo (Some (demo_hotp 5)) 2 123505 world_fresh
    = (Some (demo_hotp 8),
       (otptoken_validate hotp_demo (Some (demo_hotp 5)) 2 123505 world_fresh).2) /\
  otptoken_validate hotp_demo (Some (demo_hotp 5)) 5 123505 world_fresh
    = (Some (demo_hotp 8),
       (otptoken_validate hotp_demo (Some (demo_hotp 5)) 2 123505 world_fresh).2).
Proof.
  assert (Hle : (2 <= 5)%nat) by lia.
  assert (Hrun : otptoken_validate hotp_demo (Some (demo_hotp 5)) 2 123505 world_fresh
                 = (Some (demo_hotp 8),
                    (otptoken_validate hotp_demo (Some (demo_hotp 5)) 2 123505
                       world_fresh).2)) by by_computation.
  split; [exact Hle|]. split; [exact Hrun|].
  exact (proj1 (wider_radius_same_success hotp_demo 2 5 Hle) _ _ _ _ _ Hrun).
Defined.

Lemma hotp_sweep_forward_only_witness :
  type (demo_hotp 5) = OTPTOKEN_HOTP 5 /\
  otptoken_validate hotp_demo (Some (demo_hotp 5)) 2 123505 world_fresh =
  first_success
    ((fun d => validate hotp_demo (demo_hotp 5) 0 d 123505 None)
       <$> forward_offsets 2) world_fresh.
Proof.
  assert (Hty : type (demo_hotp 5) = OTPTOKEN_HOTP 5) by reflexivity.
  split; [exact Hty|].
  exact (hotp_sweep_forward_only hotp_demo _ _ 2 123505 world_fresh Hty).
Defined.

Lemma clock_dependence_witness :
  type (demo_hotp 5) = OTPTOKEN_HOTP 5 /\
  (otptoken_validate hotp_demo (Some (demo_hotp 5)) 2 123505
     (set_time world_fresh (-1))).1 = Some (demo_hotp 8) /\
  is_totp (demo_totp 0 30 0) = true /\
  otptoken_validate hotp_demo (Some (demo_totp 0 30 0)) 2 123687
    (set_time world_fresh (-1)) = (None, set_time world_fresh (-1)) /\
  otptoken_sync hotp_demo (Some [demo_hotp 5]) 2 123505 123512
    (set_time world_fresh (-1)) = (None, set_time world_fresh (-1)).
Proof.
  assert (Hty : type (demo_hotp 5) = OTPTOKEN_HOTP 5) by reflexivity.
  assert (Htotp : is_totp (demo_totp 0 30 0) = true) by reflexivity.
  destruct (clock_dependence hotp_demo (demo_hotp 5) 2 123505 world_fresh)
    as (Hhotp & _ & Hsync).
  destruct (clock_dependence hotp_demo (demo_totp 0 30 0) 2 123687 world_fresh)
    as (_ & Hfail & _).
  split; [exact Hty|]. split.
  - rewrite (Hhotp 5 (-1) Hty). by_computation.
  - split; [exact Htotp|]. split; [exact (Hfail Htotp) | apply Hsync].
Defined.

Lemma totp_accepted_steps_increase_witness :
  type (demo_totp 0 30 0) = OTPTOKEN_TOTP 0 30 0 /\
  absolute_step (demo_totp 0 30 0) 1000 0 = Some (T "watermark", 33) /\
  run_totp_33 = (Some (demo_totp 34 30 0), run_totp_33.2) /\
  validate hotp_demo (demo_totp 34 30 0) 1030 0 123694 None run_totp_33.2
    = (Some (demo_totp 35 30 0),
       (validate hotp_demo (demo_totp 34 30 0) 1030 0 123694 None run_totp_33.2).2) /\
  exists s2, absolute_step (demo_totp 34 30 0) 1030 0 = Some (T "watermark", s2) /\
             to_uint64 33 < to_uint64 s2.
Proof.
  assert (Hty : type (demo_totp 0 30 0) = OTPTOKEN_TOTP 0 30 0) by reflexivity.
  assert (Habs : absolute_step (demo_totp 0 30 0) 1000 0 = Some (T "watermark", 33))
    by by_computation.
  assert (Hrun : run_totp_33 = (Some (demo_totp 34 30 0), run_totp_33.2))
    by by_computation.
  assert (Hcall : validate hotp_demo (demo_totp 0 30 0) 1000 0 123687 None world_fresh
                  = (Some (demo_totp 34 30 0), run_totp_33.2)) by exact Hrun.
  assert (Hs : to_uint64 33 + 2 < 18446744073709551616) by (vm_compute; reflexivity).
  assert (Hrun2 : validate hotp_demo (demo_totp 34 30 0) 1030 0 123694 None
                    run_totp_33.2
                  = (Some (demo_totp 35 30 0),
                     (validate hotp_demo (demo_totp 34 30 0) 1030 0 123694 None
                        run_totp_33.2).2)) by by_computation.
  split; [exact Hty|]. split; [exact Habs|]. split; [exact Hrun|].
  split; [exact Hrun2|].
  exact (totp_accepted_steps_increase hotp_demo _ _ _ _ _ _ _ _ _ _ _ _ _
           Hty Habs Hcall Hs _ _ _ _ _ _ _ Hrun2).
Defined.

Lemma hotp_accepted_steps_increase_witness :
  type (demo_hotp 5) = OTPTOKEN_HOTP 5 /\
  absolute_step (demo_hotp 5) 0 2 = Some (H "counter", 7) /\
  run_hotp_7 = (Some (demo_hotp 8), run_hotp_7.2) /\
  validate hotp_demo (demo_hotp 8) 0 0 123512 None run_hotp_7.2
    = (Some (demo_hotp 9),
       (validate hotp_demo (demo_hotp 8) 0 0 123512 None run_hotp_7.2).2) /\
  exists s2, absolute_step (demo_hotp 8) 0 0 = Some (H "counter", s2) /\
             to_uint64 7 < to_uint64 s2.
Proof.
  assert (Hty : type (demo_hotp 5) = OTPTOKEN_HOTP 5) by reflexivity.
  assert (Habs : absolute_step (demo_hotp 5) 0 2 = Some (H "counter", 7))
    by by_computation.
  assert (Hrun : run_hotp_7 = (Some (demo_hotp 8), run_hotp_7.2)) by by_computation.
  assert (Hcall : validate hotp_demo (demo_hotp 5) 0 2 123505 None world_fresh
                  = (Some (demo_hotp 8), run_hotp_7.2)) by exact Hrun.
  assert (Hs : to_uint64 7 + 2 + 0 < 18446744073709551616)
    by (vm_compute; reflexivity).
  assert (Hrun2 : validate hotp_demo (demo_hotp 8) 0 0 123512 None run_hotp_7.2
                  = (Some (demo_hotp 9),
                     (validate hotp_demo (demo_hotp 8) 0 0 123512 None
                        run_hotp_7.2).2)) by by_computation.
  split; [exact Hty|]. split; [exact Habs|]. split; [exact Hrun|].
  split; [exact Hrun2|].
  exact (hotp_accepted_steps_increase hotp_demo _ _ _ _ _ _ _ _ _ _ _
           Hty Habs Hcall _ _ _ _ _ _ _ Hs Hrun2).
Defined.

Lemma validate_keeps_token_witness :
  run_resync_35 = (Some (demo_totp 37 30 0), run_resync_35.2) /\
  sdn (demo_totp 37 30 0) = sdn (demo_totp 0 30 0) /\
  token (demo_totp 37 30 0) = token (demo_totp 0 30 0) /\
  stored_int run_resync_35.2 demo_dn_totp (T "clockOffset") = Some 120.
Proof.
  assert (Hrun : run_resync_35 = (Some (demo_totp 37 30 0), run_resync_35.2))
    by by_computation.
  assert (Hcall : validate hotp_demo (demo_totp 0 30 0) 1000 2 123701 (Some 123708) world_fresh
                  = (Some (demo_totp 37 30 0), run_resync_35.2)) by exact Hrun.
  destruct (validate_keeps_token hotp_demo _ _ _ _ _ _ _ _ Hcall)
    as (Hsdn & Htok & _).
  split; [exact Hrun|]. split; [exact Hsdn|]. split; [exact Htok|].
  by_computation.
Defined.

Lemma otptoken_sync_effects_witness :
  otptoken_sync hotp_demo (Some [demo_totp 0 30 0; demo_hotp 5]) 2 123505 123512
    world_fresh
  = (Some [demo_totp 0 30 0; demo_hotp 9],
     (otptoken_sync hotp_demo (Some [demo_totp 0 30 0; demo_hotp 5]) 2 123505
        123512 world_fresh).2) /\
  length [demo_totp 0 30 0; demo_hotp 9] = length [demo_totp 0 30 0; demo_hotp 5] /\
  exists j t t',
    [demo_totp 0 30 0; demo_hotp 5] !! j = Some t /\
    [demo_totp 0 30 0; demo_hotp 9] = <[j := t']> [demo_totp 0 30 0; demo_hotp 5] /\
    sdn t' = sdn t /\ token t' = token t.
Proof.
  assert (Hrun : otptoken_sync hotp_demo (Some [demo_totp 0 30 0; demo_hotp 5]) 2
                   123505 123512 world_fresh
                 = (Some [demo_totp 0 30 0; demo_hotp 9],
                    (otptoken_sync hotp_demo (Some [demo_totp 0 30 0; demo_hotp 5])
                       2 123505 123512 world_fresh).2)) by by_computation.
  split; [exact Hrun|].
  exact (proj2 (otptoken_sync_effects hotp_demo _ _ _ _ _ _ _ Hrun)).
Defined.

Lemma otptoken_sync_berval_refusals_witness :
  bvtod (bv_of_string "12a456") = None /\
  otptoken_sync_berval hotp_demo (Some [demo_totp 0 30 0; demo_hotp 5]) 2
    (bv_of_string "12a456") (bv_of_string "123512") world_fresh
  = (None, world_fresh).
Proof.
  assert (Hbad : bvtod (bv_of_string "12a456") = None) by by_computation.
  split; [exact Hbad|].
  apply otptoken_sync_berval_refusals. left. exact Hbad.
Defined.

Lemma bvtod_leading_zeros_witness :
  bv_of_string "7" <> [] /\
  bvtod (replicate 5 48 ++ bv_of_string "7") = bvtod (bv_of_string "7") /\
  bvtod (bv_of_string "7") = Some 7.
Proof.
  assert (Hne : bv_of_string "7" <> []) by (vm_compute; discriminate).
  split; [exact Hne|].
  split; [exact (proj1 (bvtod_leading_zeros 5 (bv_of_string "7")) Hne)|].
  by_computation.
Defined.

Lemma tail_ignores_prefix_witness :
  (digits (token (demo_hotp 0)) = 6 \/ digits (token (demo_hotp 0)) = 8) /\
  length (bv_of_string "123456") = Z.to_nat (digits (token (demo_hotp 0))) /\
  otptoken_validate_berval hotp_demo (Some (demo_hotp 0)) 0
    (Some (bv_of_string "secret" ++ bv_of_string "123456")) true (world_hotp_at 0)
  = otptoken_validate_berval hotp_demo (Some (demo_hotp 0)) 0
      (Some (bv_of_string "123456")) false (world_hotp_at 0).
Proof.
  assert (Hd : digits (token (demo_hotp 0)) = 6 \/ digits (token (demo_hotp 0)) = 8)
    by (left; reflexivity).
  assert (Hlen : length (bv_of_string "123456")
                 = Z.to_nat (digits (token (demo_hotp 0)))) by by_computation.
  split; [exact Hd|]. split; [exact Hlen|].
  exact (tail_ignores_prefix hotp_demo _ 0 _ _ (world_hotp_at 0) Hd Hlen).
Defined.

Lemma validated_token_reloads_witness :
  otptoken_new (demo_hotp_entry 5) = Some (demo_hotp 5) /\
  w_store world_fresh !! sdn (demo_hotp 5) = Some (demo_hotp_entry 5) /\
  absolute_step (demo_hotp 5) 0 2 = Some (H "counter", 7) /\
  run_hotp_7 = (Some (demo_hotp 8), run_hotp_7.2) /\
  exists e', w_store run_hotp_7.2 !! sdn (demo_hotp 5) = Some e' /\
             otptoken_new e' = Some (demo_hotp 8).
Proof.
  assert (Hnew : otptoken_new (demo_hotp_entry 5) = Some (demo_hotp 5))
    by by_computation.
  assert (He : w_store world_fresh !! sdn (demo_hotp 5) = Some (demo_hotp_entry 5))
    by by_computation.
  assert (Habs : absolute_step (demo_hotp 5) 0 2 = Some (H "counter", 7))
    by by_computation.
  assert (Hrun : run_hotp_7 = (Some (demo_hotp 8), run_hotp_7.2)) by by_computation.
  assert (Hcall : validate hotp_demo (demo_hotp 5) 0 2 123505 None world_fresh
                  = (Some (demo_hotp 8), run_hotp_7.2)) by exact Hrun.
  assert (Hrange : -2147483648 <= to_ssize (7 + 1) <= INT_MAX)
    by (vm_compute; split; discriminate).
  split; [exact Hnew|]. split; [exact He|]. split; [exact Habs|].
  split; [exact Hrun|].
  exact (validated_token_reloads hotp_demo _ _ _ _ _ _ _ _ _ _
           Hnew He Habs Hcall Hrange).
Defined.

Lemma resync_reanchors_witness :
  otptoken_new (demo_totp_entry 0 0) = Some (demo_totp 0 30 0) /\
  w_store world_fresh !! sdn (demo_totp 0 30 0) = Some (demo_totp_entry 0 0) /\
  absolute_step (demo_totp 0 30 0) 1000 2 = Some (T "watermark", 35) /\
  run_resync_35 = (Some (demo_totp 37 30 0), run_resync_35.2) /\
  exists e' tok2,
    w_store run_resync_35.2 !! sdn (demo_totp 0 30 0) = Some e' /\
    otptoken_new e' = Some tok2 /\
    type tok2 = OTPTOKEN_TOTP (35 + 2) 30 ((35 + 2 - 1000 / 30) * 30) /\
    absolute_step tok2 1000 0 = Some (T "watermark", 35 + 2).
Proof.
  assert (Hnew : otptoken_new (demo_totp_entry 0 0) = Some (demo_totp 0 30 0))
    by by_computation.
  assert (Hty : type (demo_totp 0 30 0) = OTPTOKEN_TOTP 0 30 0) by reflexivity.
  assert (He : w_store world_fresh !! sdn (demo_totp 0 30 0)
               = Some (demo_totp_entry 0 0)) by by_computation.
  assert (Habs : absolute_step (demo_totp 0 30 0) 1000 2 = Some (T "watermark", 35))
    by by_computation.
  assert (Hrun : run_resync_35 = (Some (demo_totp 37 30 0), run_resync_35.2))
    by by_computation.
  assert (Hcall : validate hotp_demo (demo_totp 0 30 0) 1000 2 123701 (Some 123708) world_fresh
                  = (Some (demo_totp 37 30 0), run_resync_35.2)) by exact Hrun.
  assert (H0 : 0 <= 35) by lia.
  assert (H1 : 35 + 2 <= INT_MAX) by (unfold INT_MAX; lia).
  assert (Hnow : 0 <= 1000 < 4611686018427387904) by lia.
  assert (Hoff : -2147483648 <= (35 + 2 - 1000 / 30) * 30 <= INT_MAX)
    by (vm_compute; split; discriminate).
  split; [exact Hnew|]. split; [exact He|]. split; [exact Habs|].
  split; [exact Hrun|].
  exact (resync_reanchors hotp_demo _ _ _ _ _ _ _ _ _ _ _ _ _ _
           Hnew Hty He Habs Hcall H0 H1 Hnow Hoff).
Defined.

End MoreSamples.

(** * Synchronisation on sample data *)

Section SyncSamples.

Ltac by_computation := vm_compute; reflexivity.

(** C7 as stated fails where it says that only the state of the token that
    succeeds is committed.  The TOTP token and the HOTP token both expect
    the codes 123687 and 123694; the directory server accepts the clock
    offset of the TOTP token and refuses its watermark, at offset +0 and
    again at offset -0; the HOTP token then succeeds.  The clock offset of
    the TOTP entry has gone from 0 to 60 and stays there, while its
    watermark and the TOTP token of the array are as before. *)
Lemma sync_leaves_sibling_offset :
  codes_match hotp_demo (demo_totp 0 30 0) (w_time world_sync_refusals) 0
    123687 123694 = true /\
  codes_match hotp_demo (demo_hotp 33) (w_time world_sync_refusals) 0
    123687 123694 = true /\
  (otptoken_sync hotp_demo (Some [demo_totp 0 30 0; demo_hotp 33]) 0
     123687 123694 world_sync_refusals).1
    = Some [demo_totp 0 30 0; demo_hotp 35] /\
  stored_int world_sync_refusals demo_dn_totp (T "clockOffset") = Some 0 /\
  stored_int
    (otptoken_sync hotp_demo (Some [demo_totp 0 30 0; demo_hotp 33]) 0
       123687 123694 world_sync_refusals).2
    demo_dn_totp (T "clockOffset") = Some 60 /\
  stored_int
    (otptoken_sync hotp_demo (Some [demo_totp 0 30 0; demo_hotp 33]) 0
       123687 123694 world_sync_refusals).2
    demo_dn_totp (T "watermark") = Some 0 /\
  stored_int
    (otptoken_sync hotp_demo (Some [demo_totp 0 30 0; demo_hotp 33]) 0
       123687 123694 world_sync_refusals).2
    demo_dn_hotp (H "counter") = Some 35 /\
  sdn (demo_totp 0 30 0) <> sdn (demo_hotp 33).
Proof.
  split; [by_computation|]. split; [by_computation|]. split; [by_computation|].
  split; [by_computation|]. split; [by_computation|]. split; [by_computation|].
  split; [by_computation|]. discriminate.
Qed.

Lemma sync_sweep_order_witness :
  sync_candidates (length [demo_totp 0 30 0; demo_hotp 5]) 2
    = [(0%nat, 0); (0%nat, 0); (1%nat, 0); (1%nat, 0); (0%nat, 1); (0%nat, -1);
       (1%nat, 1); (1%nat, -1); (0%nat, 2); (0%nat, -2)]
      ++ (1%nat, 2) :: [(1%nat, -2)] /\
  codes_match hotp_demo (demo_hotp 5) (w_time world_fresh) 2 123505 123512 = true /\
  commit_ok (demo_hotp 5) (Some 123512) world_fresh = true /\
  (exists attr s e w',
     absolute_step (demo_hotp 5) (w_time world_fresh) 2 = Some (attr, s) /\
     w_store world_fresh !! sdn (demo_hotp 5) = Some e /\
     otptoken_sync hotp_demo (Some [demo_totp 0 30 0; demo_hotp 5]) 2 123505 123512
       world_fresh
     = (Some (<[1%nat := save_step (demo_hotp 5) (to_ssize (to_ssize (s + 1) + 1))]>
                [demo_totp 0 30 0; demo_hotp 5]), w') /\
     cursor (save_step (demo_hotp 5) (to_ssize (to_ssize (s + 1) + 1)))
       = Some (to_uint64 (to_ssize (to_ssize (s + 1) + 1))) /\
     w_store w' =
       <[sdn (demo_hotp 5) :=
           entry_set_int e attr (to_int (to_ssize (to_ssize (s + 1) + 1)))]>
         (w_store world_fresh) /\
     stored_int w' (sdn (demo_hotp 5)) attr
       = Some (to_int (to_ssize (to_ssize (s + 1) + 1)))) /\
  (exists j d t attr s,
     (j, d) ∈ sync_candidates (length [demo_totp 0 30 0; demo_hotp 33]) 0 /\
     [demo_totp 0 30 0; demo_hotp 33] !! j = Some t /\
     absolute_step t (w_time world_sync_refusals) d = Some (attr, s) /\
     hotp_demo (token t) (to_uint64 s) = Some 123687 /\
     hotp_demo (token t) (to_uint64 (to_ssize (s + 1))) = Some 123694 /\
     [demo_totp 0 30 0; demo_hotp 35]
       = <[j := save_step t (to_ssize (to_ssize (s + 1) + 1))]>
           [demo_totp 0 30 0; demo_hotp 33] /\
     forall dn a, a <> T "clockOffset" -> dn <> sdn t \/ a <> attr ->
       stored_int
         (otptoken_sync hotp_demo (Some [demo_totp 0 30 0; demo_hotp 33]) 0
            123687 123694 world_sync_refusals).2 dn a
       = stored_int world_sync_refusals dn a).
Proof.
  assert (Hsplit : sync_candidates (length [demo_totp 0 30 0; demo_hotp 5]) 2
            = [(0%nat, 0); (0%nat, 0); (1%nat, 0); (1%nat, 0); (0%nat, 1);
               (0%nat, -1); (1%nat, 1); (1%nat, -1); (0%nat, 2); (0%nat, -2)]
              ++ (1%nat, 2) :: [(1%nat, -2)]) by reflexivity.
  assert (Hj : [demo_totp 0 30 0; demo_hotp 5] !! 1%nat = Some (demo_hotp 5))
    by reflexivity.
  assert (Hpre : Forall
            (fun c : nat * Z =>
               forall t', [demo_totp 0 30 0; demo_hotp 5] !! c.1 = Some t' ->
                 codes_match hotp_demo t' (w_time world_fresh) c.2 123505 123512
                 = false)
            [(0%nat, 0); (0%nat, 0); (1%nat, 0); (1%nat, 0); (0%nat, 1);
             (0%nat, -1); (1%nat, 1); (1%nat, -1); (0%nat, 2); (0%nat, -2)]).
  { repeat (constructor;
            [intros t' Ht'; simpl in Ht'; inversion Ht'; subst t'; by_computation|]).
    constructor. }
  assert (Hm : codes_match hotp_demo (demo_hotp 5) (w_time world_fresh) 2
                 123505 123512 = true) by by_computation.
  assert (Htime : (w_time world_fresh =? -1) = false) by reflexivity.
  assert (Hok : commit_ok (demo_hotp 5) (Some 123512) world_fresh = true)
    by by_computation.
  assert (Hrun :
    otptoken_sync hotp_demo (Some [demo_totp 0 30 0; demo_hotp 33]) 0
      123687 123694 world_sync_refusals
    = (Some [demo_totp 0 30 0; demo_hotp 35],
       (otptoken_sync hotp_demo (Some [demo_totp 0 30 0; demo_hotp 33]) 0
          123687 123694 world_sync_refusals).2)) by by_computation.
  destruct (sync_sweep_order hotp_demo [demo_totp 0 30 0; demo_hotp 5] 2
              123505 123512 world_fresh) as (_ & _ & _ & Hfirst & _).
  destruct (sync_sweep_order hotp_demo [demo_totp 0 30 0; demo_hotp 33] 0
              123687 123694 world_sync_refusals) as (_ & _ & _ & _ & Hany & _).
  split; [exact Hsplit|]. split; [exact Hm|]. split; [exact Hok|]. split.
  - destruct (Hfirst _ _ _ _ _ Hsplit Hj Hpre Hm Htime Hok)
      as (attr & s & e & w' & Habs & He & Hsync & Hcur & Hs & Hst & _).
    exists attr, s, e, w'.
    split; [exact Habs|]. split; [exact He|]. split; [exact Hsync|].
    split; [exact Hcur|]. split; [exact Hs | exact Hst].
  - destruct (Hany _ _ Hrun)
      as (j & d & t & attr & s & Hin & Hjt & Habs & Hc1 & Hc2 & Ht & _ & _ & Hrest & _).
    exists j, d, t, attr, s.
    split; [exact Hin|]. split; [exact Hjt|]. split; [exact Habs|].
    split; [exact Hc1|]. split; [exact Hc2|]. split; [exact Ht | exact Hrest].
Defined.

Lemma sync_berval_no_length_check_witness :
  length (bv_of_string "4295090801") = 10%nat /\
  digits (token (demo_hotp 5)) = 6 /\
  forallb is_digit (bv_of_string "4295090801") = true /\
  forallb is_digit (bv_of_string "4295090808") = true /\
  decimal_value (bv_of_string "4295090801") mod 2 ^ 32 = 123505 /\
  decimal_value (bv_of_string "4295090808") mod 2 ^ 32 = 123512 /\
  hotp_demo demo_secret 7 = Some 123505 /\
  hotp_demo demo_secret 8 = Some 123512 /\
  (exists attr s w',
     absolute_step (demo_hotp 5) (w_time world_fresh) 2 = Some (attr, s) /\
     hotp_demo (token (demo_hotp 5)) (to_uint64 s)
       = Some (decimal_value (bv_of_string "4295090801") mod 2 ^ 32) /\
     hotp_demo (token (demo_hotp 5)) (to_uint64 (to_ssize (s + 1)))
       = Some (decimal_value (bv_of_string "4295090808") mod 2 ^ 32) /\
     otptoken_sync_berval hotp_demo (Some [demo_totp 0 30 0; demo_hotp 5]) 2
       (bv_of_string "4295090801") (bv_of_string "4295090808") world_fresh
     = (Some (<[1%nat := save_step (demo_hotp 5) (to_ssize (to_ssize (s + 1) + 1))]>
                [demo_totp 0 30 0; demo_hotp 5]), w') /\
     cursor (save_step (demo_hotp 5) (to_ssize (to_ssize (s + 1) + 1)))
       = Some (to_uint64 (to_ssize (to_ssize (s + 1) + 1))) /\
     stored_int w' (sdn (demo_hotp 5)) attr
       = Some (to_int (to_ssize (to_ssize (s + 1) + 1)))) /\
  (otptoken_sync_berval hotp_demo (Some [demo_totp 0 30 0; demo_hotp 5]) 2
     (bv_of_string "4295090801") (bv_of_string "4295090808") world_fresh).1
    = Some [demo_totp 0 30 0; demo_hotp 9] /\
  otptoken_sync_berval hotp_demo (Some [demo_hotp 5]) 0
    (bv_of_string "4295090801") (bv_of_string "4295090808") world_fresh
    = (None, world_fresh).
Proof.
  assert (Hne1 : bv_of_string "4295090801" <> []) by (vm_compute; discriminate).
  assert (Hd1 : forallb is_digit (bv_of_string "4295090801") = true)
    by by_computation.
  assert (Hne2 : bv_of_string "4295090808" <> []) by (vm_compute; discriminate).
  assert (Hd2 : forallb is_digit (bv_of_string "4295090808") = true)
    by by_computation.
  assert (Hsplit : sync_candidates (length [demo_totp 0 30 0; demo_hotp 5]) 2
            = [(0%nat, 0); (0%nat, 0); (1%nat, 0); (1%nat, 0); (0%nat, 1);
               (0%nat, -1); (1%nat, 1); (1%nat, -1); (0%nat, 2); (0%nat, -2)]
              ++ (1%nat, 2) :: [(1%nat, -2)]) by reflexivity.
  assert (Hj : [demo_totp 0 30 0; demo_hotp 5] !! 1%nat = Some (demo_hotp 5))
    by reflexivity.
  assert (Hpre : Forall
            (fun c : nat * Z =>
               forall t', [demo_totp 0 30 0; demo_hotp 5] !! c.1 = Some t' ->
                 codes_match hotp_demo t' (w_time world_fresh) c.2
                   (decimal_value (bv_of_string "4295090801") mod 2 ^ 32)
                   (decimal_value (bv_of_string "4295090808") mod 2 ^ 32)
                 = false)
            [(0%nat, 0); (0%nat, 0); (1%nat, 0); (1%nat, 0); (0%nat, 1);
             (0%nat, -1); (1%nat, 1); (1%nat, -1); (0%nat, 2); (0%nat, -2)]).
  { repeat (constructor;
            [intros t' Ht'; simpl in Ht'; inversion Ht'; subst t'; by_computation|]).
    constructor. }
  assert (Hm : codes_match hotp_demo (demo_hotp 5) (w_time world_fresh) 2
                 (decimal_value (bv_of_string "4295090801") mod 2 ^ 32)
                 (decimal_value (bv_of_string "4295090808") mod 2 ^ 32) = true)
    by by_computation.
  assert (Htime : (w_time world_fresh =? -1) = false) by reflexivity.
  assert (Hok : commit_ok (demo_hotp 5)
                  (Some (decimal_value (bv_of_string "4295090808") mod 2 ^ 32))
                  world_fresh = true) by by_computation.
  destruct (sync_berval_no_length_check hotp_demo
              (Some [demo_totp 0 30 0; demo_hotp 5]) 2 world_fresh) as [_ Hsync].
  destruct (Hsync _ _ Hne1 Hd1 Hne2 Hd2) as (_ & _ & _ & Hfirst & _ & _).
  split; [by_computation|]. split; [reflexivity|].
  split; [exact Hd1|]. split; [exact Hd2|].
  split; [by_computation|]. split; [by_computation|].
  split; [by_computation|]. split; [by_computation|].
  split; [exact (Hfirst _ _ _ _ _ _ eq_refl Hsplit Hj Hpre Hm Htime Hok)|].
  split; [by_computation|].
  by_computation.
Defined.

End SyncSamples.
